(** * KMS/DRM video driver (src/video/kmsdrm/SDL_kmsdrmvideo.c)

    A shallow embedding of the driver's device discovery, display
    negotiation, framebuffer registry, page-flip wait and teardown code.

    The driver is a client of the kernel (open/close/poll, libdrm mode
    setting, libgbm buffers).  The kernel side is a record [kernel] of
    answers; the driver side is written in a small monad [M] that hands out
    fresh object handles and logs every external call, in program order. *)

From Stdlib Require Import ZArith Lia Bool.
From stdpp Require Import gmap strings list.

Local Open Scope Z_scope.

(** ** Kernel objects *)

(** Heap objects (libdrm query results, calloc'ed blocks, gbm handles) are
    identified by the handle they were given when they were obtained. *)
Definition ptr := nat.

(** drmModeModeInfo: the timing fields the driver reads, and the pixel clock. *)
Record drmModeModeInfo := mkMode {
  clock : Z;
  hdisplay : Z;
  vdisplay : Z;
  vrefresh : Z
}.

(** SDL_zero'ed / calloc'ed mode. *)
Definition zero_mode : drmModeModeInfo := mkMode 0 0 0 0.

(** drmModeRes: the id arrays; each count_* field is the length of its array. *)
Module Res.
Record t := mk {
  connectors : list Z;
  encoders : list Z;
  crtcs : list Z
}.
Definition count_connectors (r : t) : Z := Z.of_nat (length (connectors r)).
Definition count_encoders (r : t) : Z := Z.of_nat (length (encoders r)).
Definition count_crtcs (r : t) : Z := Z.of_nat (length (crtcs r)).
End Res.

Inductive drmModeConnection :=
| DRM_MODE_CONNECTED
| DRM_MODE_DISCONNECTED
| DRM_MODE_UNKNOWNCONNECTION.

Definition is_connected (c : drmModeConnection) : bool :=
  match c with DRM_MODE_CONNECTED => true | _ => false end.

(** drmModeConnector. *)
Module Connector.
Record t := mk {
  connector_id : Z;
  encoder_id : Z;               (* the encoder currently driving it *)
  connection : drmModeConnection;
  modes : list drmModeModeInfo;
  encoders : list Z             (* the encoders it can be driven by *)
}.
Definition count_modes (c : t) : Z := Z.of_nat (length (modes c)).
Definition count_encoders (c : t) : Z := Z.of_nat (length (encoders c)).
End Connector.

(** drmModeEncoder. *)
Module Encoder.
Record t := mk {
  encoder_id : Z;
  crtc_id : Z;
  possible_crtcs : Z
}.
End Encoder.

(** drmModeCrtc. *)
Module Crtc.
Record t := mk {
  crtc_id : Z;
  buffer_id : Z;
  x : Z;
  y : Z;
  width : Z;
  height : Z;
  mode_valid : Z;
  mode : drmModeModeInfo
}.
End Crtc.

(** ** Driver data (SDL_kmsdrmvideo.h) *)

Module VideoData.
Record t := mk {
  devindex : Z;
  drm_fd : Z;
  gbm : option ptr
}.
End VideoData.

Module DisplayData.
Record t := mk {
  crtc_id : Z;
  conn_id : Z;
  mode : drmModeModeInfo;
  saved_crtc : option (ptr * Crtc.t)
}.
(** What SDL_calloc returns. *)
Definition zero : t := mk 0 0 zero_mode None.
End DisplayData.

Inductive pixel_format := SDL_PIXELFORMAT_UNKNOWN | SDL_PIXELFORMAT_ARGB8888.

Record SDL_DisplayMode := mkDisplayMode {
  format : pixel_format;
  w : Z;
  h : Z;
  refresh_rate : Z
}.

(** SDL_VideoDisplay: its driverdata points to the calloc'ed SDL_DisplayData. *)
Record SDL_VideoDisplay := mkDisplay {
  desktop_mode : SDL_DisplayMode;
  current_mode : SDL_DisplayMode;
  display_driverdata : ptr * DisplayData.t
}.

(** SDL_VideoDevice, as far as this file reads and writes it. *)
Record SDL_VideoDevice := mkDevice {
  driverdata : VideoData.t;
  displays : list SDL_VideoDisplay;
  gl_driver_loaded : bool
}.

(** ** External calls *)

Inductive alloc_site :=
| site_device | site_viddata | site_dispdata | site_devname | site_fb_info.

Inductive log_priority := LogDebug | LogWarn | LogError.

(** One entry per call the driver makes outside this file. *)
Inductive call :=
| E_printf (msg : string)
| E_open (devindex fd : Z)
| E_close (fd : Z)
| E_LoadSymbols (ok : bool)
| E_UnloadSymbols
| E_calloc (site : alloc_site) (p : option ptr)
| E_free (p : ptr)
| E_SetError (msg : string)
| E_Log (prio : log_priority) (msg : string)
| E_GetResources (fd : Z) (r : option ptr)
| E_FreeResources (r : ptr)
| E_GetConnector (fd id : Z) (c : option ptr)
| E_FreeConnector (c : ptr)
| E_GetEncoder (fd id : Z) (e : option ptr)
| E_FreeEncoder (e : ptr)
| E_GetCrtc (fd id : Z) (c : option ptr)
| E_FreeCrtc (c : ptr)
| E_SetCrtc (fd crtc_id buffer_id x y : Z) (conns : list Z)
            (mode : drmModeModeInfo) (ret : Z)
| E_gbm_create_device (fd : Z) (g : option ptr)
| E_gbm_device_destroy (g : ptr)
| E_AddFB (fd w h depth bpp stride handle ret fb_id : Z)
| E_RmFB (fd fb_id : Z)
| E_bo_set_user_data (bo : ptr)
| E_poll (fd timeout ret revents : Z)
| E_HandleEvent (fd : Z)
| E_gbm_surface_release_buffer (gs : option ptr) (bo : ptr)
| E_gbm_surface_destroy (gs : ptr)
| E_EGL_MakeCurrent_none
| E_EGL_DestroySurface (s : ptr)
| E_GL_UnloadLibrary
| E_AddVideoDisplay (dispdata : ptr)
| E_EVDEV_Init
| E_EVDEV_Quit
| E_InitMouse.

(** ** The kernel and the C library, as the driver sees them

    [k_card] is the descriptor open() returns for /dev/dri/card<N>, when the
    device can be opened; the remaining fields answer the libdrm / libgbm
    queries.  [k_load_symbols] is what SDL_KMSDRM_LoadSymbols returns and
    [k_calloc] whether an allocation succeeds. *)
Record kernel := mkKernel {
  k_dri_is_dir : bool;                   (* stat() ok and S_ISDIR *)
  k_dri_access : bool;                   (* access(F_OK) <> -1 *)
  k_dri_entries : option (list string);  (* opendir / readdir *)
  k_card : Z -> option N;
  k_load_symbols : bool;
  k_calloc : alloc_site -> bool;
  k_gbm_create_device : Z -> bool;
  k_GetResources : Z -> option Res.t;
  k_GetConnector : Z -> Z -> option Connector.t;
  k_GetEncoder : Z -> Z -> option Encoder.t;
  k_GetCrtc : Z -> Z -> option Crtc.t;
  k_SetCrtc : Z -> Z -> Z -> Z -> Z -> list Z -> drmModeModeInfo -> Z;
  k_AddFB : Z -> Z -> Z -> Z -> Z -> Z -> Z -> Z * Z;
  k_bo_width : ptr -> Z;                 (* gbm_bo_get_width and friends *)
  k_bo_height : ptr -> Z;
  k_bo_stride : ptr -> Z;
  k_bo_handle : ptr -> Z;
  k_input_linuxev : bool;                (* SDL_INPUT_LINUXEV *)
  k_opengl_egl : bool                    (* SDL_VIDEO_OPENGL_EGL *)
}.

(** errno.h on Linux. *)
Definition ENOENT : Z := 2.

(** ** The driver monad: a supply of fresh handles and a log of calls *)

Definition M (A : Type) : Type := ptr -> A * list call * ptr.

Definition ret {A} (a : A) : M A := fun n => (a, [], n).

(** The value, the calls and the next free handle of a run. *)
Definition value {A} (r : A * list call * ptr) : A := fst (fst r).
Definition calls {A} (r : A * list call * ptr) : list call := snd (fst r).
Definition supply {A} (r : A * list call * ptr) : ptr := snd r.

Definition bind {A B} (m : M A) (f : A -> M B) : M B :=
  fun n =>
    let '(a, t1, n1) := m n in
    let '(b, t2, n2) := f a n1 in
    (b, t1 ++ t2, n2).

Declare Scope drv_scope.
Delimit Scope drv_scope with drv.
Notation "x <- c1 ;; c2" := (bind c1 (fun x => c2))
  (at level 100, c1 at next level, right associativity) : drv_scope.
Notation "c1 ;; c2" := (bind c1 (fun _ => c2))
  (at level 100, right associativity) : drv_scope.
Local Open Scope drv_scope.

(** Log one call. *)
Definition emit (c : call) : M unit := fun n => (tt, [c], n).

(** Take a fresh handle. *)
Definition fresh : M ptr := fun n => (n, [], S n).

(** An external query that hands back a fresh object when it succeeds. *)
Definition query {A} (ans : option A) (ev : option ptr -> call)
  : M (option (ptr * A)) :=
  match ans with
  | None => emit (ev None) ;; ret None
  | Some a => p <- fresh ;; emit (ev (Some p)) ;; ret (Some (p, a))
  end.

(** *** libc and SDL helpers *)

Definition open (k : kernel) (devindex : Z) : M Z :=
  let fd := match k_card k devindex with Some fd => Z.of_N fd | None => -1 end in
  emit (E_open devindex fd) ;; ret fd.

Definition close (fd : Z) : M unit := emit (E_close fd).

Definition SDL_calloc (k : kernel) (site : alloc_site) : M (option ptr) :=
  r <- query (if k_calloc k site then Some tt else None) (E_calloc site) ;;
  ret (fst <$> r).

Definition SDL_free (p : ptr) : M unit := emit (E_free p).

(** SDL_SetError records the message and returns -1 (SDL_error.h: the
    return value is always -1); SDL_OutOfMemory is SDL_SetError on
    the out-of-memory message. *)
Definition SDL_SetError (msg : string) : M Z := emit (E_SetError msg) ;; ret (-1).
Definition SDL_OutOfMemory : M Z := SDL_SetError "Out of memory".

Definition SDL_LogDebug (msg : string) : M unit := emit (E_Log LogDebug msg).
Definition SDL_LogWarn (msg : string) : M unit := emit (E_Log LogWarn msg).

Definition SDL_KMSDRM_LoadSymbols (k : kernel) : M bool :=
  emit (E_LoadSymbols (k_load_symbols k)) ;; ret (k_load_symbols k).
Definition SDL_KMSDRM_UnloadSymbols : M unit := emit E_UnloadSymbols.

(** *** libdrm and libgbm *)

Definition KMSDRM_drmModeGetResources (k : kernel) (fd : Z) :=
  query (k_GetResources k fd) (E_GetResources fd).
Definition KMSDRM_drmModeFreeResources (r : ptr) : M unit :=
  emit (E_FreeResources r).

Definition KMSDRM_drmModeGetConnector (k : kernel) (fd id : Z) :=
  query (k_GetConnector k fd id) (E_GetConnector fd id).
Definition KMSDRM_drmModeFreeConnector (c : ptr) : M unit :=
  emit (E_FreeConnector c).

Definition KMSDRM_drmModeGetEncoder (k : kernel) (fd id : Z) :=
  query (k_GetEncoder k fd id) (E_GetEncoder fd id).
Definition KMSDRM_drmModeFreeEncoder (e : ptr) : M unit :=
  emit (E_FreeEncoder e).

Definition KMSDRM_drmModeGetCrtc (k : kernel) (fd id : Z) :=
  query (k_GetCrtc k fd id) (E_GetCrtc fd id).
Definition KMSDRM_drmModeFreeCrtc (c : ptr) : M unit :=
  emit (E_FreeCrtc c).

Definition KMSDRM_gbm_create_device (k : kernel) (fd : Z) : M (option ptr) :=
  r <- query (if k_gbm_create_device k fd then Some tt else None)
             (E_gbm_create_device fd) ;;
  ret (fst <$> r).
Definition KMSDRM_gbm_device_destroy (g : ptr) : M unit :=
  emit (E_gbm_device_destroy g).

(** ** DeviceEnumerator *)

(** check_modestting (lines 51-80). *)
Definition check_modestting (k : kernel) (devindex : Z) : M bool :=
  drm_fd <- open k devindex ;;
  if 0 <=? drm_fd then
    loaded <- SDL_KMSDRM_LoadSymbols k ;;
    available <-
      (if loaded then
         resources <- KMSDRM_drmModeGetResources k drm_fd ;;
         available <-
           match resources with
           | Some (rp, r) =>
               SDL_LogDebug "%scard%d connector, encoder and CRTC counts are: %d %d %d" ;;
               let available :=
                 (0 <? Res.count_connectors r) && (0 <? Res.count_encoders r)
                 && (0 <? Res.count_crtcs r) in
               KMSDRM_drmModeFreeResources rp ;;
               ret available
           | None => ret false
           end ;;
         SDL_KMSDRM_UnloadSymbols ;;
         ret available
       else ret false) ;;
    close drm_fd ;;
    ret available
  else ret false.

(** The readdir loop of get_dricount: names longer than 4 characters that
    start with card. *)
Definition is_card_entry (d_name : string) : bool :=
  (4 <? Z.of_nat (String.length d_name)) && String.prefix "card" d_name.

(** get_dricount (lines 82-114). *)
Definition get_dricount (k : kernel) : M Z :=
  if negb (k_dri_is_dir k) then
    emit (E_printf "The path %s cannot be opened or is not available") ;; ret 0
  else if negb (k_dri_access k) then
    emit (E_printf "The path %s cannot be opened") ;; ret 0
  else
    match k_dri_entries k with
    | Some names => ret (Z.of_nat (length (filter (fun d => is_card_entry d = true) names)))
    | None => ret 0
    end.

(** The for loop of get_driindex: [n] iterations are left, the next index
    is [i]. *)
Fixpoint driindex_loop (k : kernel) (n : nat) (i : Z) : M Z :=
  match n with
  | O => ret (- ENOENT)
  | S n' =>
      available <- check_modestting k i ;;
      if available then ret i else driindex_loop k n' (i + 1)
  end.

(** get_driindex (lines 116-129). *)
Definition get_driindex (k : kernel) : M Z :=
  devcount <- get_dricount k ;;
  driindex_loop k (Z.to_nat devcount) 0.

(** KMSDRM_Available (lines 131-141). *)
Definition KMSDRM_Available (k : kernel) : M Z :=
  r <- get_driindex k ;;
  if 0 <=? r then ret 1 else ret r.

(** KMSDRM_CreateDevice (lines 156-233).  The function-pointer table it fills
    in is fixed and is left out; the device it returns carries the driver
    data it initialised. *)
Definition KMSDRM_CreateDevice (k : kernel) (devindex : Z)
  : M (option SDL_VideoDevice) :=
  devindex <- (if (devindex =? 0) || (99 <? devindex)
               then get_driindex k else ret devindex) ;;
  if devindex <? 0 then
    SDL_SetError "devindex (%d) must be between 0 and 99." ;; ret None
  else
    loaded <- SDL_KMSDRM_LoadSymbols k ;;
    if negb loaded then ret None
    else
      device <- SDL_calloc k site_device ;;
      match device with
      | None => SDL_OutOfMemory ;; ret None
      | Some dp =>
          viddata <- SDL_calloc k site_viddata ;;
          match viddata with
          | None =>
              SDL_OutOfMemory ;;
              (* cleanup: *)
              SDL_free dp ;;
              ret None
          | Some _ =>
              ret (Some (mkDevice (VideoData.mk devindex (-1) None) [] false))
          end
      end.

(** ** DisplayResources *)

(** The connector loop of KMSDRM_VideoInit (lines 400-415): [ids] is what
    is left of resources->connectors, [i] the loop index.  It returns the
    index and the [connector] variable on leaving the loop, and the
    connector id stored in dispdata. *)
Fixpoint connector_loop (k : kernel) (fd : Z) (ids : list Z) (i : Z) (conn_id : Z)
  : M (Z * option (ptr * Connector.t) * Z) :=
  match ids with
  | [] => ret (i, None, conn_id)
  | id :: ids' =>
      connector <- KMSDRM_drmModeGetConnector k fd id ;;
      match connector with
      | None => connector_loop k fd ids' (i + 1) conn_id        (* continue *)
      | Some (cp, c) =>
          if is_connected (Connector.connection c) && (0 <? Connector.count_modes c)
          then
            SDL_LogDebug "Found connector %d with %d modes." ;;
            ret (i, Some (cp, c), Connector.connector_id c)     (* break *)
          else
            KMSDRM_drmModeFreeConnector cp ;;
            connector_loop k fd ids' (i + 1) conn_id
      end
  end.

(** The test of lines 430-439: the encoder is the connector's current one,
    or one of those the connector lists. *)
Definition encoder_matches (c : Connector.t) (e : Encoder.t) : bool :=
  if Encoder.encoder_id e =? Connector.encoder_id c then true
  else existsb (fun id => id =? Encoder.encoder_id e) (Connector.encoders c).

(** The encoder loop (lines 424-448); [found] starts as SDL_FALSE and the
    loop breaks as soon as it is set. *)
Fixpoint encoder_loop (k : kernel) (fd : Z) (c : Connector.t) (ids : list Z) (i : Z)
  : M (Z * option (ptr * Encoder.t)) :=
  match ids with
  | [] => ret (i, None)
  | id :: ids' =>
      encoder <- KMSDRM_drmModeGetEncoder k fd id ;;
      match encoder with
      | None => encoder_loop k fd c ids' (i + 1)                (* continue *)
      | Some (ep, e) =>
          if encoder_matches c e then
            SDL_LogDebug "Found encoder %d." ;;
            ret (i, Some (ep, e))                               (* break *)
          else
            KMSDRM_drmModeFreeEncoder ep ;;
            encoder_loop k fd c ids' (i + 1)
      end
  end.

(** The CRTC loop (lines 458-465), entered when the encoder's own CRTC
    could not be fetched: the first CRTC whose bit is set in
    possible_crtcs becomes the encoder's CRTC and is fetched.  The C
    expression 1 << i is an int shift, equal to 2^i for the indices a DRM
    device has (fewer than 32 CRTCs); it is written here with the shift of
    Z. *)
Fixpoint crtc_loop (k : kernel) (fd : Z) (e : Encoder.t) (ids : list Z) (i : Z)
  : M (Encoder.t * option (ptr * Crtc.t)) :=
  match ids with
  | [] => ret (e, None)
  | id :: ids' =>
      if negb (Z.land (Encoder.possible_crtcs e) (Z.shiftl 1 i) =? 0) then
        let e' := Encoder.mk (Encoder.encoder_id e) id (Encoder.possible_crtcs e) in
        SDL_LogDebug "Set encoder's CRTC to %d." ;;
        saved <- KMSDRM_drmModeGetCrtc k fd id ;;
        ret (e', saved)                                         (* break *)
      else crtc_loop k fd e ids' (i + 1)
  end.

Definition set_fd_gbm (v : VideoData.t) (fd : Z) (g : option ptr) : VideoData.t :=
  VideoData.mk (VideoData.devindex v) fd g.

Definition set_driverdata (this : SDL_VideoDevice) (v : VideoData.t) : SDL_VideoDevice :=
  mkDevice v (displays this) (gl_driver_loaded this).

(** Free an object if the pointer is not NULL. *)
Definition free_if {A} (o : option (ptr * A)) (free : ptr -> M unit) : M unit :=
  match o with Some (p, _) => free p | None => ret tt end.

(** The cleanup: label of KMSDRM_VideoInit (lines 516-540), with the locals
    it reads. *)
Definition VideoInit_cleanup (this : SDL_VideoDevice) (viddata : VideoData.t)
    (dp : ptr) (dispdata : DisplayData.t)
    (resources : option (ptr * Res.t))
    (connector : option (ptr * Connector.t))
    (encoder : option (ptr * Encoder.t))
    (r : Z) : M (Z * SDL_VideoDevice) :=
  free_if encoder KMSDRM_drmModeFreeEncoder ;;
  free_if connector KMSDRM_drmModeFreeConnector ;;
  free_if resources KMSDRM_drmModeFreeResources ;;
  if negb (r =? 0) then
    (* Error (complete) cleanup *)
    free_if (DisplayData.saved_crtc dispdata) KMSDRM_drmModeFreeCrtc ;;
    match VideoData.gbm viddata with
    | Some g => KMSDRM_gbm_device_destroy g
    | None => ret tt
    end ;;
    fd <- (if 0 <=? VideoData.drm_fd viddata
           then close (VideoData.drm_fd viddata) ;; ret (-1)
           else ret (VideoData.drm_fd viddata)) ;;
    SDL_free dp ;;
    ret (r, set_driverdata this (set_fd_gbm viddata fd None))
  else
    ret (r, set_driverdata this viddata).

(** Modelled from the spec: SDL_AddVideoDisplay (SDL_video.c, not in this
    file) registers a copy of the display with the device; exactly one
    display is registered by a negotiation. *)
Definition SDL_AddVideoDisplay (this : SDL_VideoDevice) (d : SDL_VideoDisplay)
  : M SDL_VideoDevice :=
  emit (E_AddVideoDisplay (fst (display_driverdata d))) ;;
  ret (mkDevice (driverdata this) (displays this ++ [d]) (gl_driver_loaded this)).

(** Lines 455-514: CRTC selection, mode resolution and registration, once a
    connector and an encoder are held. *)
Definition VideoInit_crtc (k : kernel) (this : SDL_VideoDevice) (viddata : VideoData.t)
    (dp : ptr) (dispdata : DisplayData.t)
    (rp : ptr) (res : Res.t) (cp : ptr) (c : Connector.t)
    (ep : ptr) (e : Encoder.t) : M (Z * SDL_VideoDevice) :=
  let fd := VideoData.drm_fd viddata in
  saved <- KMSDRM_drmModeGetCrtc k fd (Encoder.crtc_id e) ;;
  es <- match saved with
        | Some _ => ret (e, saved)
        | None => crtc_loop k fd e (Res.crtcs res) 0
        end ;;
  let e := fst es in
  let saved := snd es in
  let dispdata :=
    DisplayData.mk (DisplayData.crtc_id dispdata) (DisplayData.conn_id dispdata)
                   (DisplayData.mode dispdata) saved in
  match saved with
  | None =>
      r <- SDL_SetError "No CRTC found." ;;
      VideoInit_cleanup this viddata dp dispdata
                        (Some (rp, res)) (Some (cp, c)) (Some (ep, e)) r
  | Some (_, crtc) =>
      SDL_LogDebug "Saved crtc_id %u, fb_id %u, (%u,%u), %ux%u" ;;
      let mode := Crtc.mode crtc in
      (* select default mode if this one is not valid *)
      mode <- (if Crtc.mode_valid crtc =? 0 then
                 SDL_LogDebug "Current mode is invalid, selecting connector's mode #0." ;;
                 ret (nth 0 (Connector.modes c) zero_mode)
               else ret mode) ;;
      let dispdata :=
        DisplayData.mk (Encoder.crtc_id e) (DisplayData.conn_id dispdata) mode saved in
      let current_mode :=
        mkDisplayMode SDL_PIXELFORMAT_ARGB8888 (hdisplay mode) (vdisplay mode)
                      (vrefresh mode) in
      let display := mkDisplay current_mode current_mode (dp, dispdata) in
      this <- SDL_AddVideoDisplay (set_driverdata this viddata) display ;;
      (if k_input_linuxev k then emit E_EVDEV_Init else ret tt) ;;
      emit E_InitMouse ;;
      ret (0, this)
  end.

(** KMSDRM_VideoInit (lines 348-541).  It returns the int result and the
    device as it leaves it.  The two branches marked as not reached stand
    for a NULL dereference in C; [connector_loop] and [encoder_loop] leave
    the index short of the count only with an object in hand.  The device
    path is identified with the index it is printed from (the 16 bytes of
    devname hold the path of every index from 0 to 99). *)
Definition KMSDRM_VideoInit (k : kernel) (this : SDL_VideoDevice)
  : M (Z * SDL_VideoDevice) :=
  let viddata := driverdata this in
  dispdata_p <- SDL_calloc k site_dispdata ;;
  match dispdata_p with
  | None => r <- SDL_OutOfMemory ;; ret (r, this)
  | Some dp =>
      let dispdata := DisplayData.zero in
      SDL_LogDebug "KMSDRM_VideoInit()" ;;
      devname <- SDL_calloc k site_devname ;;
      match devname with
      | None =>
          r <- SDL_OutOfMemory ;;
          VideoInit_cleanup this viddata dp dispdata None None None r
      | Some np =>
          SDL_LogDebug "Opening device /dev/dri/card%d" ;;
          fd <- open k (VideoData.devindex viddata) ;;
          let viddata := set_fd_gbm viddata fd (VideoData.gbm viddata) in
          SDL_free np ;;
          if fd <? 0 then
            r <- SDL_SetError "Could not open /dev/dri/card%d." ;;
            VideoInit_cleanup this viddata dp dispdata None None None r
          else
            SDL_LogDebug "Opened DRM FD (%d)" ;;
            g <- KMSDRM_gbm_create_device k fd ;;
            let viddata := set_fd_gbm viddata fd g in
            match g with
            | None =>
                r <- SDL_SetError "Couldn't create gbm device." ;;
                VideoInit_cleanup this viddata dp dispdata None None None r
            | Some _ =>
                (* Find the first available connector with modes *)
                resources <- KMSDRM_drmModeGetResources k fd ;;
                match resources with
                | None =>
                    r <- SDL_SetError "drmModeGetResources(%d) failed" ;;
                    VideoInit_cleanup this viddata dp dispdata None None None r
                | Some (rp, res) =>
                    cl <- connector_loop k fd (Res.connectors res) 0
                                         (DisplayData.conn_id dispdata) ;;
                    let '(i, connector, conn_id) := cl in
                    let dispdata :=
                      DisplayData.mk (DisplayData.crtc_id dispdata) conn_id
                                     (DisplayData.mode dispdata)
                                     (DisplayData.saved_crtc dispdata) in
                    if i =? Res.count_connectors res then
                      r <- SDL_SetError "No currently active connector found." ;;
                      VideoInit_cleanup this viddata dp dispdata
                                        resources connector None r
                    else
                      match connector with
                      | None => ret (0, this)                   (* not reached *)
                      | Some (cp, c) =>
                          el <- encoder_loop k fd c (Res.encoders res) 0 ;;
                          let '(i, encoder) := el in
                          if i =? Res.count_encoders res then
                            r <- SDL_SetError "No connected encoder found." ;;
                            VideoInit_cleanup this viddata dp dispdata
                                              resources connector encoder r
                          else
                            match encoder with
                            | None => ret (0, this)             (* not reached *)
                            | Some (ep, e) =>
                                VideoInit_crtc k this viddata dp dispdata
                                               rp res cp c ep e
                            end
                      end
                end
            end
      end
  end.

(** drmModeSetCrtc with one connector. *)
Definition KMSDRM_drmModeSetCrtc (k : kernel) (fd crtc_id buffer_id x y : Z)
    (conns : list Z) (mode : drmModeModeInfo) : M Z :=
  let r := k_SetCrtc k fd crtc_id buffer_id x y conns mode in
  emit (E_SetCrtc fd crtc_id buffer_id x y conns mode r) ;; ret r.

(** KMSDRM_VideoQuit (lines 543-580).  dispdata is the driver data of
    display 0; the result is None when there is no such display (the C code
    dereferences the NULL SDL_GetDisplayDriverData returns). *)
Definition KMSDRM_VideoQuit (k : kernel) (this : SDL_VideoDevice)
  : M (option SDL_VideoDevice) :=
  let viddata := driverdata this in
  SDL_LogDebug "KMSDRM_VideoQuit()" ;;
  (if gl_driver_loaded this then emit E_GL_UnloadLibrary else ret tt) ;;
  match displays this with
  | [] => ret None
  | d0 :: ds =>
      let '(dp, dispdata) := display_driverdata d0 in
      dispdata <-
        match DisplayData.saved_crtc dispdata with
        | Some (sp, crtc) =>
            (if (0 <=? VideoData.drm_fd viddata) && (0 <? DisplayData.conn_id dispdata)
             then
               (* Restore saved CRTC settings *)
               r <- KMSDRM_drmModeSetCrtc k (VideoData.drm_fd viddata)
                      (Crtc.crtc_id crtc) (Crtc.buffer_id crtc)
                      (Crtc.x crtc) (Crtc.y crtc)
                      [DisplayData.conn_id dispdata] (Crtc.mode crtc) ;;
               if negb (r =? 0)
               then SDL_LogWarn "Could not restore original CRTC mode"
               else ret tt
             else ret tt) ;;
            KMSDRM_drmModeFreeCrtc sp ;;
            ret (DisplayData.mk (DisplayData.crtc_id dispdata)
                                (DisplayData.conn_id dispdata)
                                (DisplayData.mode dispdata) None)
        | None => ret dispdata
        end ;;
      match VideoData.gbm viddata with
      | Some g => KMSDRM_gbm_device_destroy g
      | None => ret tt
      end ;;
      fd <- (if 0 <=? VideoData.drm_fd viddata
             then close (VideoData.drm_fd viddata) ;;
                  SDL_LogDebug "Closed DRM FD %d" ;;
                  ret (-1)
             else ret (VideoData.drm_fd viddata)) ;;
      (if k_input_linuxev k then emit E_EVDEV_Quit else ret tt) ;;
      ret (Some (mkDevice (set_fd_gbm viddata fd None)
                          (mkDisplay (desktop_mode d0) (current_mode d0) (dp, dispdata) :: ds)
                          (gl_driver_loaded this)))
  end.

(** ** FramebufferRegistry *)

(** KMSDRM_FBInfo. *)
Module FBInfo.
Record t := mk {
  drm_fd : Z;
  fb_id : Z
}.
End FBInfo.

(** The user data libgbm keeps per buffer object: for each buffer that has
    some, the calloc'ed KMSDRM_FBInfo it points to.  (The destroy callback
    registered with it is always KMSDRM_FBDestroyCallback.) *)
Abbreviation user_data := (gmap ptr (ptr * FBInfo.t)).

Definition KMSDRM_drmModeAddFB (k : kernel) (fd w h depth bpp stride handle : Z)
  : M (Z * Z) :=
  let r := k_AddFB k fd w h depth bpp stride handle in
  emit (E_AddFB fd w h depth bpp stride handle (fst r) (snd r)) ;; ret r.

(** KMSDRM_FBDestroyCallback (lines 243-254), called by libgbm with the
    buffer's user data when the buffer is destroyed. *)
Definition KMSDRM_FBDestroyCallback (data : option (ptr * FBInfo.t)) : M unit :=
  match data with
  | Some (p, fb_info) =>
      (if (0 <=? FBInfo.drm_fd fb_info) && negb (FBInfo.fb_id fb_info =? 0) then
         emit (E_RmFB (FBInfo.drm_fd fb_info) (FBInfo.fb_id fb_info)) ;;
         SDL_LogDebug "Delete DRM FB %u"
       else ret tt) ;;
      SDL_free p
  | None => ret tt     (* SDL_free(NULL) *)
  end.

(** KMSDRM_FBFromBO (lines 256-298). *)
Definition KMSDRM_FBFromBO (k : kernel) (this : SDL_VideoDevice) (bo : ptr)
    (ud : user_data) : M (option (ptr * FBInfo.t) * user_data) :=
  let viddata := driverdata this in
  (* Check for an existing framebuffer *)
  match ud !! bo with
  | Some fb_info => ret (Some fb_info, ud)
  | None =>
      fb_info <- SDL_calloc k site_fb_info ;;
      match fb_info with
      | None => SDL_OutOfMemory ;; ret (None, ud)
      | Some p =>
          let w := k_bo_width k bo in
          let h := k_bo_height k bo in
          let stride := k_bo_stride k bo in
          let handle := k_bo_handle k bo in
          r <- KMSDRM_drmModeAddFB k (VideoData.drm_fd viddata) w h 24 32 stride handle ;;
          if negb (fst r =? 0) then
            SDL_free p ;; ret (None, ud)
          else
            let fb_info := FBInfo.mk (VideoData.drm_fd viddata) (snd r) in
            SDL_LogDebug "New DRM FB (%u): %ux%u, stride %u from BO %p" ;;
            (* Associate our DRM framebuffer with this buffer object *)
            emit (E_bo_set_user_data bo) ;;
            ret (Some (p, fb_info), <[bo := (p, fb_info)]> ud)
      end
  end.

(** ** PageFlipScheduler *)

Module WindowData.
Record t := mk {
  waiting_for_flip : bool;
  double_buffer : bool;
  curr_bo : option ptr;
  next_bo : option ptr;
  gs : option ptr;
  egl_surface : option ptr       (* None is EGL_NO_SURFACE *)
}.
End WindowData.

(** The SDL_WindowData blocks that are allocated, by address. *)
Abbreviation windows := (gmap ptr WindowData.t).

(** The events a DRM descriptor delivers; user_data is the pointer given
    when the flip or vblank was requested. *)
Inductive drm_event :=
| DRM_EVENT_VBLANK (data : ptr)
| DRM_EVENT_FLIP_COMPLETE (data : ptr)
| DRM_EVENT_OTHER.

(** One return of poll() on the DRM descriptor: the return value, revents,
    and the events a read of the descriptor yields at that moment. *)
Record poll_result := mkPoll {
  poll_ret : Z;
  poll_revents : Z;
  poll_pending : list drm_event
}.

(** poll.h on Linux. *)
Definition POLLIN : Z := 1.
Definition POLLERR : Z := 8.
Definition POLLHUP : Z := 16.

(** KMSDRM_FlipHandler (lines 300-304): data is the address of a window's
    waiting_for_flip, here the address of the window data holding it. *)
Definition clear_waiting_for_flip (wd : WindowData.t) : WindowData.t :=
  WindowData.mk false (WindowData.double_buffer wd)
                (WindowData.curr_bo wd) (WindowData.next_bo wd)
                (WindowData.gs wd) (WindowData.egl_surface wd).

Definition KMSDRM_FlipHandler (data : ptr) (ws : windows) : windows :=
  alter clear_waiting_for_flip data ws.

(** drmEventContext: the handlers that are installed. *)
Record drmEventContext := mkEventContext {
  vblank_handler : option (ptr -> windows -> windows);
  page_flip_handler : option (ptr -> windows -> windows)
}.

(** Modelled from the spec: drmHandleEvent (libdrm, not in this file) reads
    the pending events and recognizes flip-completion events, for which it
    calls the page-flip handler with the event's user data; a handler that
    is not installed is skipped, as is any other event. *)
Definition drmHandleEvent (ev : drmEventContext) (pending : list drm_event)
    (ws : windows) : windows :=
  fold_left
    (fun ws e =>
       match e with
       | DRM_EVENT_FLIP_COMPLETE data =>
           match page_flip_handler ev with Some f => f data ws | None => ws end
       | DRM_EVENT_VBLANK data =>
           match vblank_handler ev with Some f => f data ws | None => ws end
       | DRM_EVENT_OTHER => ws
       end)
    pending ws.

(** The outcome of a blocking call: what it returned, the calls it made,
    what is left of the poll script and the window data after it. *)
Definition outcome (A : Type) : Type := A * list call * list poll_result * windows.

(** KMSDRM_WaitPageFlip (lines 306-342).  [script] lists the returns of the
    coming poll() calls.  The result is None when the call has not
    returned by the end of the script (it is still blocked in poll), and
    when windata is not an allocated SDL_WindowData. *)
Fixpoint KMSDRM_WaitPageFlip (this : SDL_VideoDevice) (windata : ptr) (timeout : Z)
    (script : list poll_result) (ws : windows) : option (outcome bool) :=
  let fd := VideoData.drm_fd (driverdata this) in
  let ev := mkEventContext None (Some KMSDRM_FlipHandler) in
  match ws !! windata with
  | None => None
  | Some wd =>
      if negb (WindowData.waiting_for_flip wd) then Some (true, [], script, ws)
      else
        match script with
        | [] => None
        | p :: script' =>
            let polled := E_poll fd timeout (poll_ret p) (poll_revents p) in
            if poll_ret p <? 0 then
              Some (false, [polled; E_Log LogError "DRM poll error"], script', ws)
            else if negb (Z.land (poll_revents p) (Z.lor POLLHUP POLLERR) =? 0) then
              Some (false, [polled; E_Log LogError "DRM poll hup or error"], script', ws)
            else if negb (Z.land (poll_revents p) POLLIN =? 0) then
              (* Page flip? If so, drmHandleEvent will unset windata->waiting_for_flip *)
              match KMSDRM_WaitPageFlip this windata timeout script'
                      (drmHandleEvent ev (poll_pending p) ws) with
              | Some (b, t, s, ws') => Some (b, polled :: E_HandleEvent fd :: t, s, ws')
              | None => None
              end
            else
              (* Timed out and page flip didn't happen *)
              Some (false,
                    [polled; E_Log LogDebug "Dropping frame while waiting_for_flip"],
                    script', ws)
        end
  end.

(** ** WindowSurface *)

(** SDL_Window: driverdata points to the window's SDL_WindowData. *)
Record SDL_Window := mkWindow {
  window_w : Z;
  window_h : Z;
  window_driverdata : option ptr
}.

Definition release_buffer (gs : option ptr) (bo : option ptr) : list call :=
  match bo with
  | Some b => [E_gbm_surface_release_buffer gs b]
  | None => []
  end.

(** KMSDRM_DestroyWindow (lines 671-699). *)
Definition KMSDRM_DestroyWindow (k : kernel) (this : SDL_VideoDevice)
    (window : SDL_Window) (script : list poll_result) (ws : windows)
  : option (outcome SDL_Window) :=
  match window_driverdata window with
  | None => Some (window, [], script, ws)
  | Some windata =>
      (* Wait for any pending page flips and unlock buffer *)
      match KMSDRM_WaitPageFlip this windata (-1) script ws with
      | None => None
      | Some (_, t_wait, script', ws') =>
          match ws' !! windata with
          | None => None
          | Some wd =>
              let t_curr := release_buffer (WindowData.gs wd) (WindowData.curr_bo wd) in
              let t_next := release_buffer (WindowData.gs wd) (WindowData.next_bo wd) in
              let t_egl :=
                if k_opengl_egl k then
                  E_EGL_MakeCurrent_none ::
                  match WindowData.egl_surface wd with
                  | Some s => [E_EGL_DestroySurface s]
                  | None => []
                  end
                else [] in
              let t_gs :=
                match WindowData.gs wd with
                | Some g => [E_gbm_surface_destroy g]
                | None => []
                end in
              Some (mkWindow (window_w window) (window_h window) None,
                    t_wait ++ t_curr ++ t_next ++ t_egl ++ t_gs ++ [E_free windata],
                    script', delete windata ws')
          end
      end
  end.

(** ** Resource accounting over a log of calls *)

(** What a call can hand out and take back. *)
Inductive obj :=
| O_fd (fd : Z)
| O_symbols
| O_mem (p : ptr)
| O_gbm (p : ptr)
| O_resources (p : ptr)
| O_connector (p : ptr)
| O_encoder (p : ptr)
| O_crtc (p : ptr).

#[global] Instance obj_eq_dec : EqDecision obj.
Proof. solve_decision. Defined.

Definition acquired (c : call) : option obj :=
  match c with
  | E_open _ fd => if 0 <=? fd then Some (O_fd fd) else None
  | E_LoadSymbols true => Some O_symbols
  | E_calloc _ (Some p) => Some (O_mem p)
  | E_gbm_create_device _ (Some p) => Some (O_gbm p)
  | E_GetResources _ (Some p) => Some (O_resources p)
  | E_GetConnector _ _ (Some p) => Some (O_connector p)
  | E_GetEncoder _ _ (Some p) => Some (O_encoder p)
  | E_GetCrtc _ _ (Some p) => Some (O_crtc p)
  | _ => None
  end.

Definition released (c : call) : option obj :=
  match c with
  | E_close fd => Some (O_fd fd)
  | E_UnloadSymbols => Some O_symbols
  | E_free p => Some (O_mem p)
  | E_gbm_device_destroy p => Some (O_gbm p)
  | E_FreeResources p => Some (O_resources p)
  | E_FreeConnector p => Some (O_connector p)
  | E_FreeEncoder p => Some (O_encoder p)
  | E_FreeCrtc p => Some (O_crtc p)
  | _ => None
  end.

(** Take one [o] out of the objects held; None when none is held. *)
Fixpoint take_out (o : obj) (held : list obj) : option (list obj) :=
  match held with
  | [] => None
  | o' :: held' =>
      if decide (o = o') then Some held'
      else match take_out o held' with
           | Some l => Some (o' :: l)
           | None => None
           end
  end.

(** The objects held after the calls [t], newest first, starting from
    [held]; None when [t] releases an object that is not held at that point
    (a release of something never obtained, or a second release). *)
Fixpoint holding (t : list call) (held : list obj) : option (list obj) :=
  match t with
  | [] => Some held
  | c :: t' =>
      match released c with
      | Some o =>
          match take_out o held with
          | Some held' => holding t' held'
          | None => None
          end
      | None =>
          match acquired c with
          | Some o => holding t' (o :: held)
          | None => holding t' held
          end
      end
  end.

(** The libdrm query results: resource list, connectors, encoders. *)
Definition is_query_obj (o : obj) : bool :=
  match o with
  | O_resources _ | O_connector _ | O_encoder _ => true
  | _ => false
  end.

(** The device indices passed to open(), in call order. *)
Definition opened (t : list call) : list Z :=
  omap (fun c => match c with E_open i _ => Some i | _ => None end) t.

(** The messages passed to SDL_SetError, in call order. *)
Definition errors (t : list call) : list string :=
  omap (fun c => match c with E_SetError msg => Some msg | _ => None end) t.

(** What check_modestting answers for a device index. *)
Definition probe (k : kernel) (devindex : Z) : bool :=
  value (check_modestting k devindex 0%nat).

(** ** Negotiation, as the specification words it

    The pure reading of display negotiation (section 4.2 of the
    specification), to compare with what KMSDRM_VideoInit computes. *)

(** Connector selection: connected, with at least one supported mode. *)
Definition connector_usable (c : Connector.t) : bool :=
  is_connected (Connector.connection c) && (0 <? Connector.count_modes c).

(** The first connector, in listed order, that qualifies. *)
Definition select_connector (k : kernel) (fd : Z) (res : Res.t) : option Connector.t :=
  List.find connector_usable (omap (k_GetConnector k fd) (Res.connectors res)).

(** The first encoder, in listed order, that is the connector's current
    encoder or one of those it supports. *)
Definition select_encoder (k : kernel) (fd : Z) (res : Res.t) (c : Connector.t)
  : option Encoder.t :=
  List.find (encoder_matches c) (omap (k_GetEncoder k fd) (Res.encoders res)).

(** The first CRTC, from index [i] on, whose index bit is set in [mask]. *)
Fixpoint first_possible_crtc (mask : Z) (ids : list Z) (i : Z) : option Z :=
  match ids with
  | [] => None
  | id :: ids' =>
      if Z.testbit mask i then Some id else first_possible_crtc mask ids' (i + 1)
  end.

(** CRTC selection: the encoder's current CRTC if its configuration can be
    queried, else the first possible one; with the configuration saved. *)
Definition select_crtc (k : kernel) (fd : Z) (res : Res.t) (e : Encoder.t)
  : option (Z * Crtc.t) :=
  match k_GetCrtc k fd (Encoder.crtc_id e) with
  | Some crtc => Some (Encoder.crtc_id e, crtc)
  | None =>
      match first_possible_crtc (Encoder.possible_crtcs e) (Res.crtcs res) 0 with
      | Some id =>
          match k_GetCrtc k fd id with
          | Some crtc => Some (id, crtc)
          | None => None
          end
      | None => None
      end
  end.

(** Mode resolution. *)
Definition resolve_mode (c : Connector.t) (crtc : Crtc.t) : drmModeModeInfo :=
  if Crtc.mode_valid crtc =? 0 then nth 0 (Connector.modes c) zero_mode
  else Crtc.mode crtc.

Inductive negotiation :=
| Negotiated (fd : Z) (c : Connector.t) (e : Encoder.t) (crtc_id : Z) (crtc : Crtc.t)
| Failed (error : string).

Definition negotiate (k : kernel) (devindex : Z) : negotiation :=
  if negb (k_calloc k site_dispdata) then Failed "Out of memory"
  else if negb (k_calloc k site_devname) then Failed "Out of memory"
  else
    match k_card k devindex with
    | None => Failed "Could not open /dev/dri/card%d."
    | Some fd =>
        let fd := Z.of_N fd in
        if negb (k_gbm_create_device k fd) then Failed "Couldn't create gbm device."
        else
          match k_GetResources k fd with
          | None => Failed "drmModeGetResources(%d) failed"
          | Some res =>
              match select_connector k fd res with
              | None => Failed "No currently active connector found."
              | Some c =>
                  match select_encoder k fd res c with
                  | None => Failed "No connected encoder found."
                  | Some e =>
                      match select_crtc k fd res e with
                      | None => Failed "No CRTC found."
                      | Some (id, crtc) => Negotiated fd c e id crtc
                      end
                  end
              end
          end
    end.

(** The display a successful negotiation registers. *)
Definition negotiated_display (dp sp : ptr) (c : Connector.t) (crtc_id : Z)
    (crtc : Crtc.t) : SDL_VideoDisplay :=
  let mode := resolve_mode c crtc in
  let current_mode :=
    mkDisplayMode SDL_PIXELFORMAT_ARGB8888 (hdisplay mode) (vdisplay mode)
                  (vrefresh mode) in
  mkDisplay current_mode current_mode
    (dp, DisplayData.mk crtc_id (Connector.connector_id c) mode (Some (sp, crtc))).

(** The objects behind a pointer that may be NULL. *)
Definition held_of {A} (o : ptr -> obj) (p : option (ptr * A)) : list obj :=
  match p with Some (x, _) => [o x] | None => [] end.

(** ** Reading the logs *)

Definition is_SetCrtc (c : call) : bool :=
  match c with E_SetCrtc _ _ _ _ _ _ _ _ => true | _ => false end.

Definition is_FreeCrtc (c : call) : bool :=
  match c with E_FreeCrtc _ => true | _ => false end.

(** A drmModeAddFB call that created a framebuffer (returned 0). *)
Definition is_created_fb (c : call) : bool :=
  match c with E_AddFB _ _ _ _ _ _ _ r _ => r =? 0 | _ => false end.

Definition is_AddFB (c : call) : bool :=
  match c with E_AddFB _ _ _ _ _ _ _ _ _ => true | _ => false end.

(** A sequence of KMSDRM_FBFromBO calls, each with the kernel and device
    state of its moment; the result lists, per call, the buffer and the
    calls it made. *)
Fixpoint FBFromBO_logs (reqs : list (kernel * SDL_VideoDevice * ptr))
    (ud : user_data) (n : ptr) : list (ptr * list call) :=
  match reqs with
  | [] => []
  | (k, this, bo) :: reqs' =>
      let r := KMSDRM_FBFromBO k this bo ud n in
      (bo, calls r) :: FBFromBO_logs reqs' (snd (value r)) (supply r)
  end.

(** The calls of a sequence, on buffer [bo], that created a framebuffer. *)
Definition creations (bo : ptr) (logs : list (ptr * list call)) : nat :=
  length (List.filter (fun l => Nat.eqb (fst l) bo && existsb is_created_fb (snd l)) logs).

(** How KMSDRM_WaitPageFlip reads a return of poll(). *)
Definition poll_failed (p : poll_result) : bool := poll_ret p <? 0.

Definition poll_hangup (p : poll_result) : bool :=
  negb (Z.land (poll_revents p) (Z.lor POLLHUP POLLERR) =? 0).

(** The wake-up is dispatched to drmHandleEvent. *)
Definition poll_readable (p : poll_result) : bool :=
  negb (poll_failed p) && negb (poll_hangup p)
  && negb (Z.land (poll_revents p) POLLIN =? 0).

(** The event is the completion of a flip requested for [windata]. *)
Definition completes (windata : ptr) (e : drm_event) : bool :=
  match e with
  | DRM_EVENT_FLIP_COMPLETE data => Nat.eqb data windata
  | _ => false
  end.

Definition is_poll (c : call) : bool :=
  match c with E_poll _ _ _ _ => true | _ => false end.

Definition is_release_buffer (c : call) : bool :=
  match c with E_gbm_surface_release_buffer _ _ => true | _ => false end.

(** The call belongs to a page-flip wait with the given timeout. *)
Definition is_wait_call (timeout : Z) (c : call) : bool :=
  match c with
  | E_poll _ t _ _ => t =? timeout
  | E_HandleEvent _ => true
  | E_Log _ _ => true
  | _ => false
  end.

(** The event context KMSDRM_WaitPageFlip hands to drmHandleEvent. *)
Definition flip_context : drmEventContext :=
  mkEventContext None (Some KMSDRM_FlipHandler).

(** The calls of one dispatched wake-up, put before an outcome. *)
Definition after_dispatch (fd timeout : Z) (p : poll_result)
    (o : option (outcome bool)) : option (outcome bool) :=
  match o with
  | Some (b, t, s, ws') =>
      Some (b, E_poll fd timeout (poll_ret p) (poll_revents p) :: E_HandleEvent fd :: t,
            s, ws')
  | None => None
  end.

(** ** Example machines

    card0 can be opened but has no connector, encoder or CRTC; card1 has
    two connectors: 31 is disconnected, 32 is connected with three modes and
    is driven by encoder 7, whose CRTC 41 scans out a valid 720p mode. *)

Definition mode_1080p : drmModeModeInfo := mkMode 148500 1920 1080 60.
Definition mode_720p : drmModeModeInfo := mkMode 74250 1280 720 60.
Definition mode_480p : drmModeModeInfo := mkMode 25175 640 480 60.

Definition demo_card (devindex : Z) : option N :=
  if devindex =? 0 then Some 4%N else if devindex =? 1 then Some 5%N else None.

Definition demo_connector (fd id : Z) : option Connector.t :=
  if negb (fd =? 5) then None
  else if id =? 31 then Some (Connector.mk 31 0 DRM_MODE_DISCONNECTED [] [7])
  else if id =? 32 then
    Some (Connector.mk 32 7 DRM_MODE_CONNECTED [mode_1080p; mode_720p; mode_480p] [5; 7])
  else None.

Definition demo_encoder (fd id : Z) : option Encoder.t :=
  if negb (fd =? 5) then None
  else if id =? 7 then Some (Encoder.mk 7 41 1)
  else if id =? 5 then Some (Encoder.mk 5 0 2)
  else None.

Definition demo_crtc (fd id : Z) : option Crtc.t :=
  if negb (fd =? 5) then None
  else if id =? 41 then Some (Crtc.mk 41 77 0 0 1280 720 1 mode_720p)
  else if id =? 42 then Some (Crtc.mk 42 0 0 0 0 0 0 zero_mode)
  else None.

(** The machine, given whether the DRM symbols load, the encoder ids card1
    lists, the connector query and what drmModeSetCrtc returns. *)
Definition demo_machine (symbols : bool) (encoders : list Z)
    (connector : Z -> Z -> option Connector.t) (setcrtc : Z) : kernel :=
  mkKernel true true (Some ["."; ".."; "card0"; "card1"; "renderD128"])
    demo_card symbols (fun _ => true) (fun _ => true)
    (fun fd =>
       if fd =? 4 then Some (Res.mk [] [] [])
       else if fd =? 5 then Some (Res.mk [31; 32] encoders [41; 42])
       else None)
    connector demo_encoder demo_crtc
    (fun _ _ _ _ _ _ _ => setcrtc)
    (fun _ w h _ _ _ handle => (0, 100 + handle))
    (fun _ => 1280) (fun _ => 720) (fun _ => 5120) (fun bo => Z.of_nat bo)
    true true.

Definition demo : kernel := demo_machine true [7] demo_connector 0.

(** The same machine when the DRM library cannot be loaded. *)
Definition demo_no_symbols : kernel := demo_machine false [7] demo_connector 0.

(** The same machine when card1 lists encoder 5 before encoder 7. *)
Definition demo_two_encoders : kernel := demo_machine true [5; 7] demo_connector 0.

(** A device as KMSDRM_CreateDevice leaves it. *)
Definition created_device (devindex : Z) : SDL_VideoDevice :=
  mkDevice (VideoData.mk devindex (-1) None) [] false.


(** The example machine when drmModeSetCrtc fails. *)
Definition demo_no_restore : kernel := demo_machine true [7] demo_connector (-1).

(** The device once negotiation on card1 has succeeded. *)
Definition demo_device : SDL_VideoDevice :=
  snd (value (KMSDRM_VideoInit demo (created_device 1) 0%nat)).

(** A window at address 1 with a flip pending, surface 10, buffers 11 and
    12 and EGL surface 13. *)
Definition demo_window_data : WindowData.t :=
  WindowData.mk true false (Some 11%nat) (Some 12%nat) (Some 10%nat) (Some 13%nat).

Definition demo_windows : windows := {[ 1%nat := demo_window_data ]}.

Definition demo_window : SDL_Window := mkWindow 1280 720 (Some 1%nat).

(** Wake-ups of the DRM descriptor: a vblank event, the completion of the
    window's flip, and a timeout. *)
Definition vblank_wakeup : poll_result := mkPoll 1 POLLIN [DRM_EVENT_VBLANK 1%nat].
Definition flip_wakeup : poll_result := mkPoll 1 POLLIN [DRM_EVENT_FLIP_COMPLETE 1%nat].
Definition poll_timeout : poll_result := mkPoll 0 0 [].

(** ** What a run may call *)

(** Every call of every run of [m] satisfies [P]. *)
Definition only {A} (P : call -> bool) (m : M A) : Prop :=
  forall n, forallb P (calls (m n)) = true.

(** The calls of device probing: messages, open and close, loading and
    unloading the DRM symbols, and the resource query with its release. *)
Definition is_probe_call (c : call) : bool :=
  match c with
  | E_printf _ | E_open _ _ | E_close _ | E_LoadSymbols _ | E_UnloadSymbols
  | E_GetResources _ _ | E_FreeResources _ | E_Log _ _ => true
  | _ => false
  end.

(** ** Device deletion *)

(** KMSDRM_DeleteDevice (lines 143-154): [device] is the block of the
    SDL_VideoDevice and [driverdata] the block its driverdata field points
    to, if any. *)
Definition KMSDRM_DeleteDevice (device : ptr) (driverdata : option ptr) : M unit :=
  match driverdata with
  | Some viddata => SDL_free viddata
  | None => ret tt
  end ;;
  SDL_free device ;;
  SDL_KMSDRM_UnloadSymbols.

(** ** Calls of display negotiation *)

(** The calls KMSDRM_VideoInit can make on a device of index [devindex]:
    allocation, messages, the open of that device and closes, the gbm
    device, the libdrm queries with their releases, display registration and
    input set-up.  Setting a CRTC, framebuffer creation or removal, polling
    and symbol loading are not among them. *)
Definition is_init_call (devindex : Z) (c : call) : bool :=
  match c with
  | E_open i _ => i =? devindex
  | E_calloc _ _ | E_free _ | E_SetError _ | E_Log _ _ | E_close _
  | E_gbm_create_device _ _ | E_gbm_device_destroy _
  | E_GetResources _ _ | E_FreeResources _
  | E_GetConnector _ _ _ | E_FreeConnector _
  | E_GetEncoder _ _ _ | E_FreeEncoder _
  | E_GetCrtc _ _ _ | E_FreeCrtc _
  | E_AddVideoDisplay _ | E_EVDEV_Init | E_InitMouse => true
  | _ => false
  end.

(** The call gives an object back. *)
Definition is_release (c : call) : bool :=
  match released c with Some _ => true | None => false end.


(** ** Framebuffer calls *)

(** The calls that create or remove a kernel framebuffer. *)
Definition is_fb_call (c : call) : bool :=
  match c with
  | E_AddFB _ _ _ _ _ _ _ _ _ => true
  | E_RmFB _ _ => true
  | _ => false
  end.

Definition is_set_user_data (c : call) : bool :=
  match c with E_bo_set_user_data _ => true | _ => false end.

(** The example machine when drmModeAddFB refuses every buffer (EINVAL). *)
Definition demo_no_fb : kernel :=
  mkKernel (k_dri_is_dir demo) (k_dri_access demo) (k_dri_entries demo) (k_card demo)
    (k_load_symbols demo) (k_calloc demo) (k_gbm_create_device demo)
    (k_GetResources demo) (k_GetConnector demo) (k_GetEncoder demo) (k_GetCrtc demo)
    (k_SetCrtc demo)
    (fun _ _ _ _ _ _ _ => (-22, 0))
    (k_bo_width demo) (k_bo_height demo) (k_bo_stride demo) (k_bo_handle demo)
    (k_input_linuxev demo) (k_opengl_egl demo).

(** ** Wake-ups of a page-flip wait *)

(** The wake-up is dispatched and does not complete the flip of [windata]:
    the wait polls again. *)
Definition keeps_waiting (windata : ptr) (p : poll_result) : bool :=
  poll_readable p && negb (existsb (completes windata) (poll_pending p)).

(** The calls of a dispatched wake-up. *)
Definition dispatched (fd timeout : Z) (p : poll_result) : list call :=
  [E_poll fd timeout (poll_ret p) (poll_revents p); E_HandleEvent fd].

(** The window data after the events of the given wake-ups were handled. *)
Definition dispatch_all (wakeups : list poll_result) (ws : windows) : windows :=
  fold_left (fun ws p => drmHandleEvent flip_context (poll_pending p) ws) wakeups ws.

(** ** Window teardown *)

(** What KMSDRM_DestroyWindow calls once its wait is over, for window data
    [wd] at address [windata]. *)
Definition teardown (k : kernel) (windata : ptr) (wd : WindowData.t) : list call :=
  release_buffer (WindowData.gs wd) (WindowData.curr_bo wd) ++
  release_buffer (WindowData.gs wd) (WindowData.next_bo wd) ++
  (if k_opengl_egl k then
     E_EGL_MakeCurrent_none ::
     match WindowData.egl_surface wd with
     | Some s => [E_EGL_DestroySurface s]
     | None => []
     end
   else []) ++
  match WindowData.gs wd with
  | Some g => [E_gbm_surface_destroy g]
  | None => []
  end ++
  [E_free windata].

(** ** Window creation *)

(** SDL_video.h: the window flags KMSDRM_CreateWindow forces. *)
Definition SDL_WINDOW_FULLSCREEN : Z := 0x00000001.
Definition SDL_WINDOW_OPENGL : Z := 0x00000002.

(** gbm.h: the fourcc code of XRGB8888 ('X', 'R', '2', '4', little endian)
    and the buffer usage flags. *)
Definition GBM_FORMAT_XRGB8888 : Z := 0x34325258.
Definition GBM_BO_USE_SCANOUT : Z := Z.shiftl 1 0.
Definition GBM_BO_USE_RENDERING : Z := Z.shiftl 1 2.

(** What KMSDRM_CreateWindow calls beyond the calls of the rest of the
    driver, each with its arguments and what it returned. *)
Inductive window_call :=
| WC (c : call)
| W_calloc (r : option ptr)            (* SDL_calloc(1, sizeof(SDL_WindowData)) *)
| W_gbm_device_is_format_supported (gbm : option ptr) (fmt flags : Z) (r : bool)
| W_gbm_surface_create (gbm : option ptr) (w h fmt flags : Z) (r : option ptr)
| W_GL_LoadLibrary (r : Z)
| W_EGL_SetRequiredVisualId (fmt : Z)
| W_EGL_CreateSurface (native_window : option ptr) (r : option ptr)
| W_GetHintBoolean (name : string) (r : bool)
| W_SetMouseFocus
| W_SetKeyboardFocus.

(** What the functions KMSDRM_CreateWindow calls answer: the allocator, SDL
    (the display of the window, whether the device has EGL data, the
    double-buffer hint), libgbm and EGL. *)
Record window_env := mkWindowEnv {
  e_calloc : option ptr;
  e_display : SDL_VideoDisplay;
  e_format_supported : option ptr -> Z -> Z -> bool;
  e_gbm_surface_create : option ptr -> Z -> Z -> Z -> Z -> option ptr;
  e_egl_data : bool;
  e_GL_LoadLibrary : Z;
  e_EGL_CreateSurface : option ptr -> option ptr;
  e_hint_double_buffer : bool
}.

(** SDL_hints.h. *)
Definition SDL_HINT_VIDEO_DOUBLE_BUFFER : string := "SDL_VIDEO_DOUBLE_BUFFER".

(** An SDL_Window with its flags word (Uint32), which the teardown does not
    read. *)
Record window_state := mkWindowState {
  ws_window : SDL_Window;
  ws_flags : Z
}.

(** The error label of KMSDRM_CreateWindow (lines 658-668); the function
    returns -1 after it. *)
Definition CreateWindow_error (k : kernel) (windata : option (ptr * WindowData.t))
  : list window_call :=
  match windata with
  | Some (p, wd) =>
      (if k_opengl_egl k then
         match WindowData.egl_surface wd with
         | Some s => [WC (E_EGL_DestroySurface s)]
         | None => []
         end
       else []) ++
      match WindowData.gs wd with
      | Some g => [WC (E_gbm_surface_destroy g)]
      | None => []
      end ++
      [WC (E_free p)]
  | None => []
  end.

(** Lines 642-656: the double-buffer hint, the driver data, the focus. *)
Definition CreateWindow_finish (e : window_env) (p : ptr) (wd : WindowData.t)
    (window : window_state) (ws : windows)
  : Z * window_state * windows * list window_call :=
  (* In case we want low-latency, double-buffer video, we take note here *)
  let hint := e_hint_double_buffer e in
  let wd := WindowData.mk (WindowData.waiting_for_flip wd)
                          (if hint then true else false)
                          (WindowData.curr_bo wd) (WindowData.next_bo wd)
                          (WindowData.gs wd) (WindowData.egl_surface wd) in
  (* Setup driver data for this window *)
  let window :=
    mkWindowState (mkWindow (window_w (ws_window window)) (window_h (ws_window window))
                            (Some p))
                  (ws_flags window) in
  (0, window, <[p := wd]> ws,
   [W_GetHintBoolean SDL_HINT_VIDEO_DOUBLE_BUFFER hint;
    (* One window, it always has focus *)
    W_SetMouseFocus; W_SetKeyboardFocus]).

(** KMSDRM_CreateWindow (lines 595-669).  The window data are entered in
    [ws] once the function has succeeded; on the error path the block has
    been freed again. *)
Definition KMSDRM_CreateWindow (k : kernel) (e : window_env) (this : SDL_VideoDevice)
    (window : window_state) (ws : windows)
  : Z * window_state * windows * list window_call :=
  let viddata := driverdata this in
  (* Allocate window internal data *)
  match e_calloc e with
  | None =>
      (-1, window, ws,
       [W_calloc None; WC (E_SetError "Out of memory")] ++ CreateWindow_error k None)
  | Some p =>
      let wd := WindowData.mk false false None None None None in
      let display := e_display e in
      (* Windows have one size for now *)
      let width := w (desktop_mode display) in
      let height := h (desktop_mode display) in
      (* Maybe you didn't ask for a fullscreen OpenGL window, but that's what you get *)
      let window :=
        mkWindowState (mkWindow width height (window_driverdata (ws_window window)))
                      (Z.lor (ws_flags window)
                             (Z.lor SDL_WINDOW_FULLSCREEN SDL_WINDOW_OPENGL)) in
      let surface_fmt := GBM_FORMAT_XRGB8888 in
      let surface_flags := Z.lor GBM_BO_USE_SCANOUT GBM_BO_USE_RENDERING in
      let supported :=
        e_format_supported e (VideoData.gbm viddata) surface_fmt surface_flags in
      let gs :=
        e_gbm_surface_create e (VideoData.gbm viddata) width height
                             surface_fmt surface_flags in
      let wd := WindowData.mk false false None None gs None in
      let t_gbm :=
        [W_calloc (Some p);
         W_gbm_device_is_format_supported (VideoData.gbm viddata) surface_fmt
                                          surface_flags supported] ++
        (if supported then []
         else [WC (E_Log LogWarn "GBM surface format not supported. Trying anyway.")]) ++
        [W_gbm_surface_create (VideoData.gbm viddata) width height surface_fmt
                              surface_flags gs] in
      if k_opengl_egl k then
        let t_load :=
          if e_egl_data e then [] else [W_GL_LoadLibrary (e_GL_LoadLibrary e)] in
        if negb (e_egl_data e) && (e_GL_LoadLibrary e <? 0) then
          (-1, window, ws, t_gbm ++ t_load ++ CreateWindow_error k (Some (p, wd)))
        else
          let egl_surface := e_EGL_CreateSurface e gs in
          let wd := WindowData.mk false false None None gs egl_surface in
          let t_egl :=
            [W_EGL_SetRequiredVisualId surface_fmt; W_EGL_CreateSurface gs egl_surface] in
          match egl_surface with
          | None =>
              (-1, window, ws,
               t_gbm ++ t_load ++ t_egl ++
               [WC (E_SetError "Could not create EGL window surface")] ++
               CreateWindow_error k (Some (p, wd)))
          | Some _ =>
              let '(r, window, ws, t) := CreateWindow_finish e p wd window ws in
              (r, window, ws, t_gbm ++ t_load ++ t_egl ++ t)
          end
      else
        let '(r, window, ws, t) := CreateWindow_finish e p wd window ws in
        (r, window, ws, t_gbm ++ t)
  end.

(** Reading the log of a window creation. *)
Definition is_surface_destroy (c : window_call) : bool :=
  match c with WC (E_EGL_DestroySurface _) => true | _ => false end.

Definition is_gbm_surface_destroy (c : window_call) : bool :=
  match c with WC (E_gbm_surface_destroy _) => true | _ => false end.

Definition is_focus_call (c : window_call) : bool :=
  match c with W_SetMouseFocus | W_SetKeyboardFocus => true | _ => false end.

(** The messages passed to SDL_SetError, in call order. *)
Definition window_errors (t : list window_call) : list string :=
  omap (fun c => match c with WC (E_SetError msg) => Some msg | _ => None end) t.

(** The surface KMSDRM_CreateWindow asks libgbm for. *)
Definition created_surface (e : window_env) (this : SDL_VideoDevice) : option ptr :=
  e_gbm_surface_create e (VideoData.gbm (driverdata this))
    (w (desktop_mode (e_display e))) (h (desktop_mode (e_display e)))
    GBM_FORMAT_XRGB8888 (Z.lor GBM_BO_USE_SCANOUT GBM_BO_USE_RENDERING).

(** A window creation on the example machine: the display negotiated on
    card1, a gbm surface at 20 and an EGL surface at 21, the window data
    allocated at 30. *)
Definition demo_display : SDL_VideoDisplay :=
  mkDisplay (mkDisplayMode SDL_PIXELFORMAT_ARGB8888 1280 720 60)
            (mkDisplayMode SDL_PIXELFORMAT_ARGB8888 1280 720 60)
            (0%nat, DisplayData.mk 41 32 mode_720p None).

Definition demo_window_env (surface : option ptr) : window_env :=
  mkWindowEnv (Some 30%nat) demo_display (fun _ _ _ => false)
              (fun _ _ _ _ _ => surface) false 0
              (fun gs => match gs with Some _ => Some 21%nat | None => None end)
              true.

Definition new_window : window_state := mkWindowState (mkWindow 640 480 None) 32.
(** * Properties *)

(** ** The monad and the accounting *)

Lemma value_bind {A B} (m : M A) (f : A -> M B) n :
  value (bind m f n) = value (f (value (m n)) (supply (m n))).
Proof.
  unfold bind. destruct (m n) as [[a t1] n1]. unfold value, calls, supply; simpl.
  destruct (f a n1) as [[b t2] n2]. reflexivity.
Qed.

Lemma calls_bind {A B} (m : M A) (f : A -> M B) n :
  calls (bind m f n) = calls (m n) ++ calls (f (value (m n)) (supply (m n))).
Proof.
  unfold bind. destruct (m n) as [[a t1] n1]. unfold value, calls, supply; simpl.
  destruct (f a n1) as [[b t2] n2]. reflexivity.
Qed.

Lemma supply_bind {A B} (m : M A) (f : A -> M B) n :
  supply (bind m f n) = supply (f (value (m n)) (supply (m n))).
Proof.
  unfold bind. destruct (m n) as [[a t1] n1]. unfold value, calls, supply; simpl.
  destruct (f a n1) as [[b t2] n2]. reflexivity.
Qed.

Lemma holding_app t1 t2 held :
  holding (t1 ++ t2) held =
  match holding t1 held with Some held' => holding t2 held' | None => None end.
Proof.
  revert held. induction t1 as [|c t1 IH]; intros held; simpl; [reflexivity|].
  destruct (released c) as [o|].
  - destruct (take_out o held); [apply IH | reflexivity].
  - destruct (acquired c); apply IH.
Qed.

Lemma take_out_head o held : take_out o (o :: held) = Some held.
Proof. simpl. destruct (decide (o = o)); [reflexivity | contradiction]. Qed.

Lemma opened_app t1 t2 : opened (t1 ++ t2) = opened t1 ++ opened t2.
Proof. apply omap_app. Qed.

(** ** DeviceEnumerator *)

Lemma N2Z_nonneg (fd : N) : (0 <=? Z.of_N fd) = true.
Proof. apply Z.leb_le. lia. Qed.

Ltac run_probe :=
  unfold check_modestting, KMSDRM_drmModeGetResources, KMSDRM_drmModeFreeResources,
    SDL_KMSDRM_LoadSymbols, SDL_KMSDRM_UnloadSymbols, SDL_LogDebug, open, close,
    query, bind, ret, emit, fresh, value, calls, supply; simpl.

(** What check_modestting returns, read off the kernel's answers. *)
Lemma check_modestting_value k i n :
  value (check_modestting k i n) =
  match k_card k i with
  | Some fd =>
      k_load_symbols k &&
      match k_GetResources k (Z.of_N fd) with
      | Some r =>
          (0 <? Res.count_connectors r) && (0 <? Res.count_encoders r)
          && (0 <? Res.count_crtcs r)
      | None => false
      end
  | None => false
  end.
Proof.
  run_probe. destruct (k_card k i) as [fd|]; simpl; [|reflexivity].
  rewrite N2Z_nonneg. simpl.
  destruct (k_load_symbols k); simpl; [|reflexivity].
  destruct (k_GetResources k (Z.of_N fd)); reflexivity.
Qed.

Lemma check_modestting_probe k i n : value (check_modestting k i n) = probe k i.
Proof. unfold probe. rewrite !check_modestting_value. reflexivity. Qed.

Lemma check_modestting_opened k i n : opened (calls (check_modestting k i n)) = [i].
Proof.
  run_probe. destruct (k_card k i) as [fd|]; simpl; [|reflexivity].
  rewrite N2Z_nonneg. simpl.
  destruct (k_load_symbols k); simpl; [|reflexivity].
  destruct (k_GetResources k (Z.of_N fd)); reflexivity.
Qed.

(** Run the accounting over a log whose calls are known. *)
Ltac account :=
  repeat (simpl;
          rewrite ?N2Z_nonneg;
          rewrite ?decide_True by reflexivity;
          rewrite ?decide_False by discriminate);
  try reflexivity.

Lemma check_modestting_holding k i n held :
  holding (calls (check_modestting k i n)) held = Some held.
Proof.
  run_probe. destruct (k_card k i) as [fd|]; simpl; [|reflexivity].
  rewrite N2Z_nonneg. simpl.
  destruct (k_load_symbols k); simpl; [|account].
  destruct (k_GetResources k (Z.of_N fd)); account.
Qed.

Lemma check_modestting_last_close k i n fd :
  k_card k i = Some fd ->
  last (calls (check_modestting k i n)) = Some (E_close (Z.of_N fd)).
Proof.
  intros Hfd. run_probe. rewrite Hfd. simpl. rewrite N2Z_nonneg. simpl.
  destruct (k_load_symbols k); simpl; [|reflexivity].
  destruct (k_GetResources k (Z.of_N fd)); reflexivity.
Qed.

(** C6, as the claim words it, fails on the machine whose DRM library does
    not load: card1 opens and its resources list a connector, an encoder and
    a CRTC, yet check_modestting answers that it is not available. *)
Lemma check_modestting_symbols_counterexample :
  ~ (value (check_modestting demo_no_symbols 1 0%nat) = true <->
     exists fd r,
       k_card demo_no_symbols 1 = Some fd /\
       k_GetResources demo_no_symbols (Z.of_N fd) = Some r /\
       0 < Res.count_connectors r /\ 0 < Res.count_encoders r /\
       0 < Res.count_crtcs r).
Proof.
  intros [_ H].
  assert (Hv : value (check_modestting demo_no_symbols 1 0%nat) = true).
  { apply H. exists 5%N, (Res.mk [31; 32] [7] [41; 42]).
    repeat split; reflexivity. }
  vm_compute in Hv. discriminate Hv.
Qed.

(** C6 (amended): check_modestting reports the device available exactly
    when opening it succeeds, the DRM library symbols load, and the resource
    query lists at least one connector, one encoder and one CRTC.  Whatever
    the outcome, everything it obtained (descriptor, symbols, resources) has
    been given back when it returns, and when the open succeeded its last
    call is the close of that descriptor. *)
Theorem check_modestting_available (k : kernel) (i : Z) (n : ptr) :
  (value (check_modestting k i n) = true <->
   exists fd r,
     k_card k i = Some fd /\ k_load_symbols k = true /\
     k_GetResources k (Z.of_N fd) = Some r /\
     0 < Res.count_connectors r /\ 0 < Res.count_encoders r /\
     0 < Res.count_crtcs r)
  /\ holding (calls (check_modestting k i n)) [] = Some []
  /\ match k_card k i with
     | Some fd => last (calls (check_modestting k i n)) = Some (E_close (Z.of_N fd))
     | None => calls (check_modestting k i n) = [E_open i (-1)]
     end.
Proof.
  split; [|split].
  - rewrite check_modestting_value. split.
    + destruct (k_card k i) as [fd|]; [|discriminate].
      destruct (k_load_symbols k) eqn:Hs; [|discriminate]. simpl.
      destruct (k_GetResources k (Z.of_N fd)) as [r|] eqn:Hr; [|discriminate].
      intros H. apply andb_prop in H as [H H3]. apply andb_prop in H as [H1 H2].
      exists fd, r. apply Z.ltb_lt in H1, H2, H3. auto 10.
    + intros (fd & r & -> & -> & -> & H1 & H2 & H3). simpl.
      apply Z.ltb_lt in H1, H2, H3. rewrite H1, H2, H3. reflexivity.
  - apply check_modestting_holding.
  - destruct (k_card k i) as [fd|] eqn:Hfd.
    + apply check_modestting_last_close, Hfd.
    + run_probe. rewrite Hfd. reflexivity.
Qed.

(** *** get_driindex *)

Lemma driindex_loop_spec k n : forall i m,
  0 <= i ->
  let r := driindex_loop k n i m in
  (value r = - ENOENT /\
   (forall j, i <= j < i + Z.of_nat n -> probe k j = false) /\
   opened (calls r) = map (fun d => i + Z.of_nat d) (seq 0 n))
  \/
  (i <= value r < i + Z.of_nat n /\ probe k (value r) = true /\
   (forall j, i <= j < value r -> probe k j = false) /\
   opened (calls r) = map (fun d => i + Z.of_nat d) (seq 0 (S (Z.to_nat (value r - i))))).
Proof.
  induction n as [|n IH]; intros i m Hi; simpl.
  - left. unfold value, calls, ret; simpl. split; [reflexivity|].
    split; [intros j Hj; lia | reflexivity].
  - unfold bind.
    pose proof (check_modestting_probe k i m) as Hp.
    pose proof (check_modestting_opened k i m) as Ho.
    destruct (check_modestting k i m) as [[b t] m1].
    unfold value, calls in Hp, Ho; simpl in Hp, Ho. subst b.
    destruct (probe k i) eqn:Hpi.
    + right. unfold ret, value, calls; simpl. rewrite app_nil_r.
      split; [lia|]. split; [assumption|]. split; [intros j Hj; lia|].
      rewrite Ho. replace (i - i) with 0 by lia. simpl. f_equal. lia.
    + specialize (IH (i + 1) m1 ltac:(lia)).
      destruct (driindex_loop k n (i + 1) m1) as [[r t'] m2].
      unfold value, calls in *; simpl in *.
      assert (Hshift : forall l, map (fun d => i + 1 + Z.of_nat d) l
                                 = map (fun d => i + Z.of_nat d) (map S l)).
      { intros l. rewrite map_map. apply map_ext. intros d. lia. }
      destruct IH as [(Hr & Hnone & Hop) | (Hr & Hpr & Hlow & Hop)].
      * left. split; [assumption|]. split.
        -- intros j Hj. destruct (Z.eq_dec j i) as [->|Hne]; [assumption|].
           apply Hnone. lia.
        -- rewrite opened_app, Ho, Hop, Hshift, seq_shift. simpl.
           repeat (f_equal; try lia).
      * right. split; [lia|]. split; [assumption|]. split.
        -- intros j Hj. destruct (Z.eq_dec j i) as [->|Hne]; [assumption|].
           apply Hlow. lia.
        -- rewrite opened_app, Ho, Hop, Hshift, seq_shift.
           replace (Z.to_nat (r - i)) with (S (Z.to_nat (r - (i + 1)))) by lia.
           simpl. repeat (f_equal; try lia).
Qed.

Lemma get_dricount_run k n :
  exists c t, get_dricount k n = (c, t, n) /\ 0 <= c /\ opened t = []
              /\ holding t [] = Some [].
Proof.
  unfold get_dricount.
  destruct (k_dri_is_dir k); simpl;
    [|eexists _, _; split; [reflexivity|]; repeat split; lia].
  destruct (k_dri_access k); simpl;
    [|eexists _, _; split; [reflexivity|]; repeat split; lia].
  destruct (k_dri_entries k); eexists _, _; (split; [reflexivity|]);
    repeat split; lia.
Qed.

(** get_driindex, in terms of [probe]: either no index below the count
    probes available and the result is -ENOENT, or the result is the lowest
    index that does; the devices are opened in increasing index order, up to
    and including the one returned. *)
Lemma get_driindex_spec k n :
  let c := value (get_dricount k n) in
  let r := get_driindex k n in
  (value r = - ENOENT /\
   (forall j, 0 <= j < c -> probe k j = false) /\
   opened (calls r) = map Z.of_nat (seq 0 (Z.to_nat c)))
  \/
  (0 <= value r < c /\ probe k (value r) = true /\
   (forall j, 0 <= j < value r -> probe k j = false) /\
   opened (calls r) = map Z.of_nat (seq 0 (S (Z.to_nat (value r))))).
Proof.
  unfold get_driindex, bind.
  destruct (get_dricount_run k n) as (c & t & -> & Hc & Ht & _).
  pose proof (driindex_loop_spec k (Z.to_nat c) 0 n ltac:(lia)) as H.
  destruct (driindex_loop k (Z.to_nat c) 0 n) as [[r t'] n'].
  unfold value, calls in *; simpl in *.
  rewrite opened_app, Ht. simpl.
  replace (r - 0) with r in H by lia.
  destruct H as [(Hr & Hnone & Hop) | (Hr & Hp & Hlow & Hop)]; [left|right].
  - split; [assumption|]. split; [intros j Hj; apply Hnone; lia | exact Hop].
  - split; [lia|]. split; [assumption|]. split; [assumption | exact Hop].
Qed.

(** C5: get_driindex probes the indices 0 .. get_dricount()-1 in increasing
    order and returns the lowest one check_modestting reports available; when
    none is, it returns -ENOENT, a negative result. *)
Theorem get_driindex_lowest (k : kernel) (n : ptr) :
  let devcount := value (get_dricount k n) in
  let r := get_driindex k n in
  (value r = - ENOENT /\ value r < 0 /\
   (forall j m, 0 <= j < devcount -> value (check_modestting k j m) = false) /\
   opened (calls r) = map Z.of_nat (seq 0 (Z.to_nat devcount)))
  \/
  (0 <= value r < devcount /\
   (forall m, value (check_modestting k (value r) m) = true) /\
   (forall j m, 0 <= j < value r -> value (check_modestting k j m) = false) /\
   opened (calls r) = map Z.of_nat (seq 0 (S (Z.to_nat (value r))))).
Proof.
  intros devcount r.
  destruct (get_driindex_spec k n) as [(Hr & Hnone & Hop) | (Hr & Hp & Hlow & Hop)];
    [left|right]; subst devcount r.
  - split; [assumption|]. split; [rewrite Hr; unfold ENOENT; lia|].
    split; [|assumption].
    intros j m Hj. rewrite check_modestting_probe. apply Hnone, Hj.
  - split; [assumption|]. split; [|split; [|assumption]].
    + intros m. rewrite check_modestting_probe. exact Hp.
    + intros j m Hj. rewrite check_modestting_probe. apply Hlow, Hj.
Qed.

(** *** KMSDRM_CreateDevice *)

Ltac run_create :=
  unfold SDL_KMSDRM_LoadSymbols, SDL_calloc, SDL_OutOfMemory, SDL_SetError, SDL_free,
    query, bind, ret, emit, fresh, value, calls, supply; simpl.

(** C10: a requested index of 0, or one above 99, is replaced by the
    result of get_driindex, the lowest index check_modestting reports
    available: the device that is created carries that index, and when the
    scan finds none the creation fails, after setting the error message,
    before anything is loaded or allocated. *)
Theorem CreateDevice_auto_select (k : kernel) (devindex : Z) (n : ptr)
    (Hreq : devindex = 0 \/ 99 < devindex) :
  let scan := get_driindex k n in
  let r := KMSDRM_CreateDevice k devindex n in
  (exists rest, calls r = calls scan ++ rest)
  /\ (value scan < 0 ->
      value r = None /\
      calls r = calls scan ++ [E_SetError "devindex (%d) must be between 0 and 99."])
  /\ (forall dev, value r = Some dev ->
      0 <= value scan /\
      VideoData.devindex (driverdata dev) = value scan /\
      probe k (value scan) = true /\
      forall j, 0 <= j < value scan -> probe k j = false)
  /\ (0 <= value scan -> k_load_symbols k = true ->
      k_calloc k site_device = true -> k_calloc k site_viddata = true ->
      value r = Some (created_device (value scan))).
Proof.
  intros scan r. subst scan r.
  assert (Hc : (devindex =? 0) || (99 <? devindex) = true).
  { destruct Hreq as [-> | H]; [reflexivity|].
    apply orb_true_iff. right. apply Z.ltb_lt, H. }
  pose proof (get_driindex_spec k n) as Hspec. cbv zeta in Hspec.
  unfold KMSDRM_CreateDevice. rewrite Hc. rewrite value_bind, calls_bind.
  destruct (get_driindex k n) as [[i t] n1].
  unfold value at 1 2 3 4 5 in Hspec. cbn [fst snd] in Hspec.
  replace (value (i, t, n1)) with i by reflexivity.
  replace (calls (i, t, n1)) with t by reflexivity.
  replace (supply (i, t, n1)) with n1 by reflexivity.
  destruct (Z.ltb_spec i 0) as [Hneg | Hpos].
  - run_create. split; [eexists; reflexivity|].
    split; [intros _; split; reflexivity|].
    split; [intros dev Hdev; discriminate Hdev | intros H; lia].
  - run_create.
    assert (Hlow : probe k i = true /\ forall j, 0 <= j < i -> probe k j = false).
    { destruct Hspec as [(Hr & _) | (_ & Hp & Hl & _)]; [unfold ENOENT in Hr; lia|].
      split; assumption. }
    destruct (k_load_symbols k); simpl.
    + destruct (k_calloc k site_device); simpl.
      * destruct (k_calloc k site_viddata); simpl.
        -- split; [eexists; reflexivity|]. split; [intros H; lia|].
           split; [|intros; reflexivity].
           intros dev Hdev. injection Hdev as <-. simpl. tauto.
        -- split; [eexists; reflexivity|]. split; [intros H; lia|].
           split; [intros dev Hdev; discriminate Hdev | intros _ _ _ H; discriminate H].
      * split; [eexists; reflexivity|]. split; [intros H; lia|].
        split; [intros dev Hdev; discriminate Hdev | intros _ _ H; discriminate H].
    + split; [eexists; reflexivity|]. split; [intros H; lia|].
      split; [intros dev Hdev; discriminate Hdev | intros _ H; discriminate H].
Qed.

(** Every device KMSDRM_CreateDevice returns has no descriptor and no
    allocator yet. *)
Lemma CreateDevice_fresh k devindex n dev :
  value (KMSDRM_CreateDevice k devindex n) = Some dev ->
  VideoData.drm_fd (driverdata dev) = -1 /\ VideoData.gbm (driverdata dev) = None /\
  displays dev = [].
Proof.
  unfold KMSDRM_CreateDevice. rewrite value_bind.
  destruct ((if (devindex =? 0) || (99 <? devindex) then get_driindex k else ret devindex) n)
    as [[i t] n1].
  replace (value (i, t, n1)) with i by reflexivity.
  replace (supply (i, t, n1)) with n1 by reflexivity.
  destruct (i <? 0); run_create; [discriminate|].
  destruct (k_load_symbols k); simpl; [|discriminate].
  destruct (k_calloc k site_device); simpl; [|discriminate].
  destruct (k_calloc k site_viddata); simpl; [|discriminate].
  intros H. injection H as <-. auto.
Qed.

(** On the example machine a request for device 0 ends on card1: card0
    opens but drives nothing. *)
Lemma CreateDevice_auto_select_witness :
  (0 = 0 \/ 99 < 0) /\
  value (KMSDRM_CreateDevice demo 0 0%nat) = Some (created_device 1).
Proof.
  split; [left; reflexivity|].
  apply (CreateDevice_auto_select demo 0 0%nat (or_introl eq_refl));
    vm_compute; congruence.
Defined.

(** ** DisplayResources *)

Ltac run_init :=
  unfold KMSDRM_drmModeGetResources, KMSDRM_drmModeFreeResources,
    KMSDRM_drmModeGetConnector, KMSDRM_drmModeFreeConnector,
    KMSDRM_drmModeGetEncoder, KMSDRM_drmModeFreeEncoder,
    KMSDRM_drmModeGetCrtc, KMSDRM_drmModeFreeCrtc,
    KMSDRM_gbm_create_device, KMSDRM_gbm_device_destroy,
    SDL_AddVideoDisplay, free_if,
    SDL_calloc, SDL_OutOfMemory, SDL_SetError, SDL_free, SDL_LogDebug, SDL_LogWarn,
    open, close, query, bind, ret, emit, fresh, value, calls, supply; simpl.

(** The connector loop against connector selection: it leaves the loop
    holding the selected connector and nothing else. *)
Lemma connector_loop_spec k fd ids : forall i cid n,
  exists v t n',
    connector_loop k fd ids i cid n = (v, t, n') /\
    match List.find connector_usable (omap (k_GetConnector k fd) ids) with
    | None =>
        v = (i + Z.of_nat (length ids), None, cid) /\
        forall held, holding t held = Some held
    | Some c =>
        exists j cp,
          v = (j, Some (cp, c), Connector.connector_id c) /\
          i <= j < i + Z.of_nat (length ids) /\
          forall held, holding t held = Some (O_connector cp :: held)
    end.
Proof.
  induction ids as [|id ids IH]; intros i cid n; simpl.
  - eexists _, _, _. split; [reflexivity|]. split; [f_equal; f_equal; lia | intros held; reflexivity].
  - change (list_omap Z Connector.t (k_GetConnector k fd) ids)
      with (omap (k_GetConnector k fd) ids).
    unfold KMSDRM_drmModeGetConnector, query.
    destruct (k_GetConnector k fd id) as [c|]; simpl.
    + unfold connector_usable at 1. unfold bind at 1. simpl.
      destruct (is_connected (Connector.connection c) && (0 <? Connector.count_modes c)).
      * run_init. eexists _, _, _. split; [reflexivity|]. exists i, n.
        split; [reflexivity|]. split; [lia|intros held; reflexivity].
      * destruct (IH (i + 1) cid (S n)) as (v & t & n' & E & H).
        unfold bind at 1. simpl. rewrite E.
        eexists _, _, _. split; [reflexivity|].
        revert H. destruct (find connector_usable (omap (k_GetConnector k fd) ids)); intros H.
        -- destruct H as (j & cp & Hv & Hj & Hh). exists j, cp.
           split; [assumption|]. split; [lia|].
           intros held. simpl. rewrite decide_True by reflexivity. apply Hh.
        -- destruct H as [Hv Hh]. split.
           ++ rewrite Hv. f_equal. f_equal. lia.
           ++ intros held. simpl. rewrite decide_True by reflexivity. apply Hh.
    + destruct (IH (i + 1) cid n) as (v & t & n' & E & H).
      unfold bind at 1. simpl. rewrite E.
      eexists _, _, _. split; [reflexivity|].
      revert H. destruct (find connector_usable (omap (k_GetConnector k fd) ids)); intros H.
      * destruct H as (j & cp & Hv & Hj & Hh). exists j, cp.
        split; [assumption|]. split; [lia|]. intros held. apply Hh.
      * destruct H as [Hv Hh]. split; [|intros held; apply Hh].
        rewrite Hv. f_equal. f_equal. lia.
Qed.

(** The encoder loop against encoder selection. *)
Lemma encoder_loop_spec k fd c ids : forall i n,
  exists v t n',
    encoder_loop k fd c ids i n = (v, t, n') /\
    match List.find (encoder_matches c) (omap (k_GetEncoder k fd) ids) with
    | None =>
        v = (i + Z.of_nat (length ids), None) /\
        forall held, holding t held = Some held
    | Some e =>
        exists j ep,
          v = (j, Some (ep, e)) /\
          i <= j < i + Z.of_nat (length ids) /\
          forall held, holding t held = Some (O_encoder ep :: held)
    end.
Proof.
  induction ids as [|id ids IH]; intros i n; simpl.
  - eexists _, _, _. split; [reflexivity|]. split; [f_equal; lia | intros held; reflexivity].
  - change (list_omap Z Encoder.t (k_GetEncoder k fd) ids)
      with (omap (k_GetEncoder k fd) ids).
    unfold KMSDRM_drmModeGetEncoder, query.
    destruct (k_GetEncoder k fd id) as [e|]; simpl.
    + unfold bind at 1. simpl.
      destruct (encoder_matches c e).
      * run_init. eexists _, _, _. split; [reflexivity|]. exists i, n.
        split; [reflexivity|]. split; [lia|intros held; reflexivity].
      * destruct (IH (i + 1) (S n)) as (v & t & n' & E & H).
        unfold bind at 1. simpl. rewrite E.
        eexists _, _, _. split; [reflexivity|].
        revert H. destruct (find (encoder_matches c) (omap (k_GetEncoder k fd) ids)); intros H.
        -- destruct H as (j & ep & Hv & Hj & Hh). exists j, ep.
           split; [assumption|]. split; [lia|].
           intros held. simpl. rewrite decide_True by reflexivity. apply Hh.
        -- destruct H as [Hv Hh]. split.
           ++ rewrite Hv. f_equal. lia.
           ++ intros held. simpl. rewrite decide_True by reflexivity. apply Hh.
    + destruct (IH (i + 1) n) as (v & t & n' & E & H).
      unfold bind at 1. simpl. rewrite E.
      eexists _, _, _. split; [reflexivity|].
      revert H. destruct (find (encoder_matches c) (omap (k_GetEncoder k fd) ids)); intros H.
      * destruct H as (j & ep & Hv & Hj & Hh). exists j, ep.
        split; [assumption|]. split; [lia|]. intros held. apply Hh.
      * destruct H as [Hv Hh]. split; [|intros held; apply Hh].
        rewrite Hv. f_equal. lia.
Qed.

(** The bit test of the CRTC loop is a test of bit [i] of the mask. *)
Lemma possible_crtc_bit (mask i : Z) :
  0 <= i -> negb (Z.land mask (Z.shiftl 1 i) =? 0) = Z.testbit mask i.
Proof.
  intros Hi. rewrite Z.shiftl_1_l.
  destruct (Z.testbit mask i) eqn:Hb.
  - apply negb_true_iff, Z.eqb_neq. intros H0.
    assert (Hbit : Z.testbit (Z.land mask (2 ^ i)) i = true).
    { rewrite Z.land_spec, Hb, Z.pow2_bits_true by lia. reflexivity. }
    rewrite H0 in Hbit. rewrite Z.bits_0 in Hbit. discriminate Hbit.
  - apply negb_false_iff, Z.eqb_eq. apply Z.bits_inj'. intros j Hj.
    rewrite Z.land_spec, Z.bits_0.
    destruct (Z.eq_dec j i) as [->|Hne].
    + rewrite Hb. reflexivity.
    + rewrite Z.pow2_bits_false by lia. apply andb_false_r.
Qed.

(** The CRTC loop against the first possible CRTC. *)
Lemma crtc_loop_spec k fd e ids : forall i n,
  0 <= i ->
  exists v t n',
    crtc_loop k fd e ids i n = (v, t, n') /\
    match first_possible_crtc (Encoder.possible_crtcs e) ids i with
    | None => v = (e, None) /\ forall held, holding t held = Some held
    | Some id =>
        let e' := Encoder.mk (Encoder.encoder_id e) id (Encoder.possible_crtcs e) in
        match k_GetCrtc k fd id with
        | None => v = (e', None) /\ forall held, holding t held = Some held
        | Some crtc =>
            exists sp, v = (e', Some (sp, crtc)) /\
                       forall held, holding t held = Some (O_crtc sp :: held)
        end
    end.
Proof.
  induction ids as [|id ids IH]; intros i n Hi; simpl.
  - eexists _, _, _. split; [reflexivity|]. split; [reflexivity|intros held; reflexivity].
  - rewrite possible_crtc_bit by assumption.
    destruct (Z.testbit (Encoder.possible_crtcs e) i).
    + run_init. destruct (k_GetCrtc k fd id) as [crtc|]; simpl.
      * eexists _, _, _. split; [reflexivity|]. exists n.
        split; [reflexivity|intros held; reflexivity].
      * eexists _, _, _. split; [reflexivity|].
        split; [reflexivity|intros held; reflexivity].
    + apply IH. lia.
Qed.

Lemma errors_app t1 t2 : errors (t1 ++ t2) = errors t1 ++ errors t2.
Proof. apply omap_app. Qed.

Lemma errors_cons c t :
  errors (c :: t) =
  match c with E_SetError msg => msg :: errors t | _ => errors t end.
Proof. destruct c; reflexivity. Qed.

Lemma connector_loop_errors k fd ids : forall i cid n,
  errors (calls (connector_loop k fd ids i cid n)) = [].
Proof.
  induction ids as [|id ids IH]; intros i cid n; simpl; [reflexivity|].
  rewrite calls_bind, errors_app.
  unfold KMSDRM_drmModeGetConnector, query.
  destruct (k_GetConnector k fd id) as [c|]; simpl; [|apply IH].
  destruct (is_connected (Connector.connection c) && (0 <? Connector.count_modes c));
    [reflexivity|].
  rewrite calls_bind, errors_app. simpl. apply IH.
Qed.

Lemma encoder_loop_errors k fd c ids : forall i n,
  errors (calls (encoder_loop k fd c ids i n)) = [].
Proof.
  induction ids as [|id ids IH]; intros i n; simpl; [reflexivity|].
  rewrite calls_bind, errors_app.
  unfold KMSDRM_drmModeGetEncoder, query.
  destruct (k_GetEncoder k fd id) as [e|]; simpl; [|apply IH].
  destruct (encoder_matches c e); [reflexivity|].
  rewrite calls_bind, errors_app. simpl. apply IH.
Qed.

Lemma crtc_loop_errors k fd e ids : forall i n,
  errors (calls (crtc_loop k fd e ids i n)) = [].
Proof.
  induction ids as [|id ids IH]; intros i n; simpl; [reflexivity|].
  destruct (negb (Z.land (Encoder.possible_crtcs e) (Z.shiftl 1 i) =? 0)); [|apply IH].
  run_init. destruct (k_GetCrtc k fd id); reflexivity.
Qed.

(** The error side of the cleanup: label gives back everything the
    function holds and leaves no descriptor and no allocator behind. *)
Lemma VideoInit_cleanup_error this v dp dispdata resources connector encoder r n :
  r <> 0 ->
  exists t,
    VideoInit_cleanup this v dp dispdata resources connector encoder r n
    = (r, set_driverdata this
            (set_fd_gbm v (if 0 <=? VideoData.drm_fd v then -1 else VideoData.drm_fd v)
                        None), t, n)
    /\ errors t = []
    /\ forall rest,
        holding t
          (held_of O_encoder encoder ++ held_of O_connector connector ++
           held_of O_resources resources ++
           held_of O_crtc (DisplayData.saved_crtc dispdata) ++
           match VideoData.gbm v with Some g => [O_gbm g] | None => [] end ++
           (if 0 <=? VideoData.drm_fd v then [O_fd (VideoData.drm_fd v)] else []) ++
           O_mem dp :: rest)
        = Some rest.
Proof.
  intros Hr. unfold VideoInit_cleanup.
  apply Z.eqb_neq in Hr. rewrite Hr.
  destruct encoder as [[ep e]|], connector as [[cp c]|], resources as [[rp res]|],
    (DisplayData.saved_crtc dispdata) as [[sp crtc]|], (VideoData.gbm v) as [g|],
    (0 <=? VideoData.drm_fd v);
    run_init; (eexists; split; [reflexivity|]; split; [reflexivity|]; intros rest; account).
Qed.

(** Lines 455-514 against CRTC selection and mode resolution. *)
Lemma VideoInit_crtc_spec k this v dp conn_id rp res cp c ep e n g (fd : N) :
  VideoData.gbm v = Some g ->
  VideoData.drm_fd v = Z.of_N fd ->
  let dispdata := DisplayData.mk 0 conn_id zero_mode None in
  exists r t n',
    VideoInit_crtc k this v dp dispdata rp res cp c ep e n = (r, t, n') /\
    match select_crtc k (Z.of_N fd) res e with
    | None =>
        r = (-1, set_driverdata this (set_fd_gbm v (-1) None)) /\
        errors t = ["No CRTC found."] /\
        forall rest,
          holding t (O_encoder ep :: O_connector cp :: O_resources rp :: O_gbm g ::
                     O_fd (Z.of_N fd) :: O_mem dp :: rest) = Some rest
    | Some (id, crtc) =>
        exists sp,
          r = (0, mkDevice v
                    (displays this ++
                     [mkDisplay
                        (mkDisplayMode SDL_PIXELFORMAT_ARGB8888
                           (hdisplay (resolve_mode c crtc)) (vdisplay (resolve_mode c crtc))
                           (vrefresh (resolve_mode c crtc)))
                        (mkDisplayMode SDL_PIXELFORMAT_ARGB8888
                           (hdisplay (resolve_mode c crtc)) (vdisplay (resolve_mode c crtc))
                           (vrefresh (resolve_mode c crtc)))
                        (dp, DisplayData.mk id conn_id (resolve_mode c crtc)
                                            (Some (sp, crtc)))])
                    (gl_driver_loaded this)) /\
          errors t = [] /\
          forall held, holding t held = Some (O_crtc sp :: held)
    end.
Proof.
  intros Hg Hfd dispdata. unfold VideoInit_crtc, select_crtc. rewrite Hfd.
  unfold KMSDRM_drmModeGetCrtc at 1. unfold query.
  destruct (k_GetCrtc k (Z.of_N fd) (Encoder.crtc_id e)) as [crtc|] eqn:Hc.
  - (* the encoder's own CRTC is reused *)
    unfold resolve_mode. run_init.
    destruct (Crtc.mode_valid crtc =? 0), (k_input_linuxev k); simpl;
      (eexists _, _, _; split; [reflexivity|]; exists n;
       split; [reflexivity|]; split; [reflexivity|]; intros held; reflexivity).
  - unfold bind at 1. simpl. unfold bind at 1.
    destruct (crtc_loop_spec k (Z.of_N fd) e (Res.crtcs res) 0 n ltac:(lia))
      as (es & t & n' & E & H).
    pose proof (crtc_loop_errors k (Z.of_N fd) e (Res.crtcs res) 0 n) as He.
    rewrite E in He |- *. unfold calls in He; simpl in He.
    revert H.
    destruct (first_possible_crtc (Encoder.possible_crtcs e) (Res.crtcs res) 0)
      as [id|]; simpl.
    + destruct (k_GetCrtc k (Z.of_N fd) id) as [crtc|].
      * intros (sp & -> & Hh). simpl. unfold resolve_mode. run_init.
        destruct (Crtc.mode_valid crtc =? 0), (k_input_linuxev k); simpl;
          (eexists _, _, _; split; [reflexivity|]; exists sp;
           split; [reflexivity|]; split;
           [rewrite errors_cons, errors_app, He; reflexivity|];
           intros held; simpl; rewrite holding_app, Hh; reflexivity).
      * intros [-> Hh]. simpl.
        destruct (VideoInit_cleanup_error this v dp
                    (DisplayData.mk 0 conn_id zero_mode None)
                    (Some (rp, res)) (Some (cp, c))
                    (Some (ep, Encoder.mk (Encoder.encoder_id e) id
                                          (Encoder.possible_crtcs e)))
                    (-1) n' ltac:(lia)) as (tc & Ec & Herr & Hc').
        run_init. unfold SDL_SetError, bind, ret, emit in Ec. simpl in Ec.
        rewrite Ec. simpl. rewrite Hfd, Hg in *. rewrite N2Z_nonneg in *.
        eexists _, _, _. split; [reflexivity|].
        split; [reflexivity|]. split.
        -- rewrite errors_cons, !errors_app, He. simpl. rewrite Herr. reflexivity.
        -- intros rest. simpl. rewrite holding_app, Hh. simpl. apply Hc'.
    + intros [-> Hh]. simpl.
      destruct (VideoInit_cleanup_error this v dp
                  (DisplayData.mk 0 conn_id zero_mode None)
                  (Some (rp, res)) (Some (cp, c)) (Some (ep, e))
                  (-1) n' ltac:(lia)) as (tc & Ec & Herr & Hc').
      run_init. rewrite Ec. simpl. rewrite Hfd, Hg in *. rewrite N2Z_nonneg in *.
      eexists _, _, _. split; [reflexivity|].
      split; [reflexivity|]. split.
      * rewrite errors_cons, !errors_app, He. simpl. rewrite Herr. reflexivity.
      * intros rest. simpl. rewrite holding_app, Hh. simpl. apply Hc'.
Qed.

#[local] Opaque VideoInit_cleanup VideoInit_crtc.

(** Rewrite with the known facts about the logs of sub-runs. *)
Ltac errs :=
  repeat (rewrite ?errors_cons, ?errors_app; simpl;
          repeat match goal with
                 | H : errors _ = _ |- _ => rewrite H
                 end);
  try reflexivity.

Ltac hold :=
  repeat (account; rewrite ?holding_app;
          repeat match goal with
                 | H : forall held, holding _ _ = _ |- _ => rewrite H
                 end);
  try reflexivity.

Ltac use_cleanup :=
  match goal with
  | |- context [VideoInit_cleanup ?this ?v ?dp ?dd ?res ?conn ?enc ?r ?n] =>
      let tc := fresh "tc" in
      let Ec := fresh "Ec" in
      let Herr := fresh "Herr" in
      let Hc := fresh "Hc" in
      destruct (VideoInit_cleanup_error this v dp dd res conn enc r n ltac:(lia))
        as (tc & Ec & Herr & Hc);
      rewrite Ec; clear Ec;
      simpl in Hc; rewrite ?N2Z_nonneg in Hc; simpl in Hc;
      simpl; rewrite ?N2Z_nonneg; simpl;
      eexists _, _, _; split; [reflexivity|];
      split; [reflexivity|]; split; [errs | intros rest; hold]
  end.

(** KMSDRM_VideoInit against the negotiation of the specification, on a
    device whose descriptor and allocator are not yet set (as
    KMSDRM_CreateDevice leaves it).  A failed negotiation returns -1 with the
    device as it was, one error message, and nothing held; a successful one
    returns 0 with the negotiated display registered, and still holds the
    display data, the descriptor, the allocator, the saved CRTC and the
    three query objects. *)
Lemma VideoInit_negotiate k this n :
  VideoData.drm_fd (driverdata this) = -1 ->
  VideoData.gbm (driverdata this) = None ->
  exists r t n',
    KMSDRM_VideoInit k this n = (r, t, n') /\
    match negotiate k (VideoData.devindex (driverdata this)) with
    | Failed msg =>
        r = (-1, this) /\ errors t = [msg] /\
        forall rest, holding t rest = Some rest
    | Negotiated fd c e id crtc =>
        exists dp g rp cp ep sp,
          r = (0, mkDevice (VideoData.mk (VideoData.devindex (driverdata this)) fd (Some g))
                    (displays this ++ [negotiated_display dp sp c id crtc])
                    (gl_driver_loaded this)) /\
          errors t = [] /\
          forall rest,
            holding t rest =
            Some (O_crtc sp :: O_encoder ep :: O_connector cp :: O_resources rp ::
                  O_gbm g :: O_fd fd :: O_mem dp :: rest)
    end.
Proof.
  destruct this as [[di fd0 g0] ds gl]. simpl. intros -> ->.
  unfold KMSDRM_VideoInit, negotiate. run_init.
  destruct (k_calloc k site_dispdata); simpl.
  2:{ eexists _, _, _. split; [reflexivity|].
      split; [reflexivity|]. split; [reflexivity|]. intros rest; reflexivity. }
  destruct (k_calloc k site_devname); simpl.
  2:{ use_cleanup. }
  destruct (k_card k di) as [fd|]; simpl.
  2:{ use_cleanup. }
  assert (Hlt : (Z.of_N fd <? 0) = false) by (apply Z.ltb_ge; lia). rewrite Hlt.
  destruct (k_gbm_create_device k (Z.of_N fd)); simpl.
  2:{ use_cleanup. }
  destruct (k_GetResources k (Z.of_N fd)) as [res|]; simpl.
  2:{ use_cleanup. }
  match goal with
  | |- context [connector_loop ?k ?fd ?ids ?i ?cid ?m] =>
      destruct (connector_loop_spec k fd ids i cid m) as (v & t & n' & E & H);
      pose proof (connector_loop_errors k fd ids i cid m) as He;
      rewrite E in He |- *; unfold calls in He; simpl in He
  end.
  unfold select_connector. revert H.
  destruct (find connector_usable (omap (k_GetConnector k (Z.of_N fd)) (Res.connectors res)))
    as [c|].
  2:{ intros [-> Hh]. simpl. unfold Res.count_connectors. rewrite Z.eqb_refl.
      use_cleanup. }
  intros (j & cp & -> & Hj & Hh). simpl.
  assert (Hne : (j =? Res.count_connectors res) = false)
    by (apply Z.eqb_neq; unfold Res.count_connectors; lia).
  rewrite Hne.
  match goal with
  | |- context [encoder_loop ?k ?fd ?c ?ids ?i ?m] =>
      destruct (encoder_loop_spec k fd c ids i m) as (v & t' & n'' & E' & H);
      pose proof (encoder_loop_errors k fd c ids i m) as He';
      rewrite E' in He' |- *; unfold calls in He'; simpl in He'
  end.
  unfold select_encoder. revert H.
  destruct (find (encoder_matches c) (omap (k_GetEncoder k (Z.of_N fd)) (Res.encoders res)))
    as [e|].
  2:{ intros [-> Hh']. simpl. unfold Res.count_encoders. rewrite Z.eqb_refl.
      use_cleanup. }
  intros (j' & ep & -> & Hj' & Hh'). simpl.
  assert (Hne' : (j' =? Res.count_encoders res) = false)
    by (apply Z.eqb_neq; unfold Res.count_encoders; lia).
  rewrite Hne'.
  match goal with
  | |- context [VideoInit_crtc ?k ?this ?v ?dp (DisplayData.mk _ ?cid _ _)
                               ?rp ?res ?cp ?c ?ep ?e ?m] =>
      destruct (VideoInit_crtc_spec k this v dp cid rp res cp c ep e m (S (S n)) fd
                  eq_refl eq_refl) as (r & tc & m' & Ec & H);
      simpl in Ec; rewrite Ec; clear Ec
  end.
  eexists _, _, _. split; [reflexivity|].
  revert H. destruct (select_crtc k (Z.of_N fd) res e) as [[id crtc]|].
  - intros (sp & -> & Herr & Hc). eexists _, _, _, _, _, _. split; [reflexivity|].
    split.
    + errs.
    + intros rest. hold.
  - intros (-> & Herr & Hc). split; [reflexivity|]. split.
    + errs.
    + intros rest. hold.
Qed.

Lemma negotiate_inv k devindex fd c e id crtc :
  negotiate k devindex = Negotiated fd c e id crtc ->
  exists fd0 res,
    k_card k devindex = Some fd0 /\ fd = Z.of_N fd0 /\
    k_gbm_create_device k fd = true /\
    k_GetResources k fd = Some res /\
    select_connector k fd res = Some c /\
    select_encoder k fd res c = Some e /\
    select_crtc k fd res e = Some (id, crtc).
Proof.
  unfold negotiate.
  destruct (k_calloc k site_dispdata); [|discriminate]. simpl.
  destruct (k_calloc k site_devname); [|discriminate]. simpl.
  destruct (k_card k devindex) as [fd0|]; [|discriminate].
  destruct (k_gbm_create_device k (Z.of_N fd0)) eqn:Hg; [|discriminate]. simpl.
  destruct (k_GetResources k (Z.of_N fd0)) as [res|] eqn:Hr; [|discriminate].
  destruct (select_connector k (Z.of_N fd0) res) as [c'|] eqn:Hc; [|discriminate].
  destruct (select_encoder k (Z.of_N fd0) res c') as [e'|] eqn:He; [|discriminate].
  destruct (select_crtc k (Z.of_N fd0) res e') as [[id' crtc']|] eqn:Hs; [|discriminate].
  intros H. injection H as <- <- <- <- <-.
  exists fd0, res. auto 10.
Qed.

(** What KMSDRM_VideoInit still holds when it returns: nothing after a
    failure; after a success the display data, the descriptor, the
    allocator and the saved CRTC, and also the resource list, the connector
    and the encoder, which nothing frees on that path. *)
Lemma VideoInit_holding k this n :
  VideoData.drm_fd (driverdata this) = -1 ->
  VideoData.gbm (driverdata this) = None ->
  let r := KMSDRM_VideoInit k this n in
  (fst (value r) <> 0 -> holding (calls r) [] = Some []) /\
  (fst (value r) = 0 ->
   exists held rp cp ep,
     holding (calls r) [] = Some held /\
     List.filter is_query_obj held = [O_encoder ep; O_connector cp; O_resources rp]).
Proof.
  intros Hfd Hg r. subst r.
  destruct (VideoInit_negotiate k this n Hfd Hg) as (r & t & n' & E & H).
  rewrite E. unfold value, calls; simpl.
  destruct (negotiate k (VideoData.devindex (driverdata this)))
    as [fd c e id crtc | msg].
  - destruct H as (dp & g & rp & cp & ep & sp & -> & _ & Hh). simpl.
    split; [intros H; contradiction|]. intros _.
    eexists _, rp, cp, ep. split; [apply Hh|]. reflexivity.
  - destruct H as (-> & _ & Hh). simpl. split; [intros _; apply Hh|].
    intros H; discriminate H.
Qed.

(** C1 (the code does not do this): on the example machine negotiation
    on card1 succeeds, and when KMSDRM_VideoInit returns, the resource list,
    the selected connector and the selected encoder are still held: the
    success path returns before the cleanup: label and no
    drmModeFreeResources, drmModeFreeConnector (for the selected connector)
    or drmModeFreeEncoder call is made. *)
Theorem VideoInit_success_leaks_query_objects :
  let r := KMSDRM_VideoInit demo (created_device 1) 0%nat in
  fst (value r) = 0 /\
  calls r =
    [E_calloc site_dispdata (Some 0%nat); E_Log LogDebug "KMSDRM_VideoInit()";
     E_calloc site_devname (Some 1%nat);
     E_Log LogDebug "Opening device /dev/dri/card%d";
     E_open 1 5; E_free 1%nat; E_Log LogDebug "Opened DRM FD (%d)";
     E_gbm_create_device 5 (Some 2%nat); E_GetResources 5 (Some 3%nat);
     E_GetConnector 5 31 (Some 4%nat); E_FreeConnector 4%nat;
     E_GetConnector 5 32 (Some 5%nat);
     E_Log LogDebug "Found connector %d with %d modes.";
     E_GetEncoder 5 7 (Some 6%nat); E_Log LogDebug "Found encoder %d.";
     E_GetCrtc 5 41 (Some 7%nat);
     E_Log LogDebug "Saved crtc_id %u, fb_id %u, (%u,%u), %ux%u";
     E_AddVideoDisplay 0%nat; E_EVDEV_Init; E_InitMouse] /\
  holding (calls r) [] =
    Some [O_crtc 7%nat; O_encoder 6%nat; O_connector 5%nat; O_resources 3%nat;
          O_gbm 2%nat; O_fd 5; O_mem 0%nat] /\
  ~ In (E_FreeResources 3%nat) (calls r) /\
  ~ In (E_FreeConnector 5%nat) (calls r) /\
  ~ In (E_FreeEncoder 6%nat) (calls r).
Proof.
  cbv zeta. split; [vm_compute; reflexivity|].
  assert (Hc : calls (KMSDRM_VideoInit demo (created_device 1) 0%nat) = _)
    by (vm_compute; reflexivity).
  rewrite Hc. clear Hc.
  split; [reflexivity|]. split; [vm_compute; reflexivity|].
  repeat split; simpl; intros H;
    repeat (destruct H as [H|H]; [discriminate H|]); exact H.
Qed.

(** C3: a failing KMSDRM_VideoInit leaves the device as it found it
    (descriptor -1, no allocator, no display registered) and holds nothing
    when it returns: the descriptor it opened is closed, the allocator
    destroyed, the display data and every query object freed.  A successful
    one returns with a display registered whose data is fully populated
    (connector id, CRTC id, resolved mode, saved CRTC), with the descriptor
    open and the allocator alive. *)
Theorem VideoInit_all_or_nothing (k : kernel) (this : SDL_VideoDevice) (n : ptr)
    (Hfd : VideoData.drm_fd (driverdata this) = -1)
    (Hgbm : VideoData.gbm (driverdata this) = None) :
  let r := KMSDRM_VideoInit k this n in
  (fst (value r) <> 0 ->
   snd (value r) = this /\
   VideoData.drm_fd (driverdata (snd (value r))) = -1 /\
   VideoData.gbm (driverdata (snd (value r))) = None /\
   displays (snd (value r)) = displays this /\
   holding (calls r) [] = Some [])
  /\
  (fst (value r) = 0 ->
   exists fd c e id crtc dp sp g rp cp ep,
     negotiate k (VideoData.devindex (driverdata this)) = Negotiated fd c e id crtc /\
     0 <= fd /\
     driverdata (snd (value r))
       = VideoData.mk (VideoData.devindex (driverdata this)) fd (Some g) /\
     displays (snd (value r))
       = displays this ++
         [mkDisplay
            (mkDisplayMode SDL_PIXELFORMAT_ARGB8888
               (hdisplay (resolve_mode c crtc)) (vdisplay (resolve_mode c crtc))
               (vrefresh (resolve_mode c crtc)))
            (mkDisplayMode SDL_PIXELFORMAT_ARGB8888
               (hdisplay (resolve_mode c crtc)) (vdisplay (resolve_mode c crtc))
               (vrefresh (resolve_mode c crtc)))
            (dp, DisplayData.mk id (Connector.connector_id c) (resolve_mode c crtc)
                                (Some (sp, crtc)))] /\
     holding (calls r) [] =
       Some [O_crtc sp; O_encoder ep; O_connector cp; O_resources rp;
             O_gbm g; O_fd fd; O_mem dp]).
Proof.
  intros r. subst r.
  destruct (VideoInit_negotiate k this n Hfd Hgbm) as (r & t & n' & E & H).
  rewrite E. unfold value, calls; simpl.
  destruct (negotiate k (VideoData.devindex (driverdata this)))
    as [fd c e id crtc | msg] eqn:Hn.
  - destruct H as (dp & g & rp & cp & ep & sp & -> & _ & Hh). simpl.
    split; [intros H; contradiction|]. intros _.
    destruct (negotiate_inv _ _ _ _ _ _ _ Hn) as (fd0 & res & _ & -> & _).
    exists (Z.of_N fd0), c, e, id, crtc, dp, sp, g, rp, cp, ep.
    split; [reflexivity|]. split; [lia|]. split; [reflexivity|].
    split; [reflexivity|]. apply Hh.
  - destruct H as (-> & _ & Hh). simpl. split; [|intros H; discriminate H].
    intros _. auto.
Qed.

(** On the example machine card0 has no connector: negotiation fails and
    the device is left without descriptor. *)
Lemma VideoInit_all_or_nothing_witness :
  (VideoData.drm_fd (driverdata (created_device 0)) = -1 /\
   VideoData.gbm (driverdata (created_device 0)) = None) /\
  snd (value (KMSDRM_VideoInit demo (created_device 0) 0%nat)) = created_device 0 /\
  holding (calls (KMSDRM_VideoInit demo (created_device 0) 0%nat)) [] = Some [].
Proof.
  split; [split; reflexivity|].
  destruct (VideoInit_all_or_nothing demo (created_device 0) 0%nat eq_refl eq_refl)
    as [Hfail _].
  destruct Hfail as (H1 & _ & _ & _ & H2); [vm_compute; discriminate|].
  split; assumption.
Defined.

Lemma select_crtc_reuse k fd res e crtc0 :
  k_GetCrtc k fd (Encoder.crtc_id e) = Some crtc0 ->
  select_crtc k fd res e = Some (Encoder.crtc_id e, crtc0).
Proof. intros H. unfold select_crtc. rewrite H. reflexivity. Qed.

(** C4, as the claim words it, fails on the machine that lists encoder 5
    before encoder 7: connector 32 is connected and its current encoder 7
    has CRTC 41 with a valid 720p mode, but the encoder loop stops at encoder
    5, which the connector also supports; its CRTC 42 is taken instead and,
    that one having no valid mode, the connector's first mode is reported. *)
Lemma VideoInit_current_encoder_counterexample :
  let r := KMSDRM_VideoInit demo_two_encoders (created_device 1) 0%nat in
  exists res c e crtc d,
    fst (value r) = 0 /\
    k_GetResources demo_two_encoders 5 = Some res /\
    select_connector demo_two_encoders 5 res = Some c /\
    is_connected (Connector.connection c) = true /\
    k_GetEncoder demo_two_encoders 5 (Connector.encoder_id c) = Some e /\
    k_GetCrtc demo_two_encoders 5 (Encoder.crtc_id e) = Some crtc /\
    Crtc.mode_valid crtc <> 0 /\
    displays (snd (value r)) = [d] /\
    DisplayData.crtc_id (snd (display_driverdata d)) <> Encoder.crtc_id e /\
    DisplayData.mode (snd (display_driverdata d)) <> Crtc.mode crtc /\
    DisplayData.mode (snd (display_driverdata d)) = nth 0 (Connector.modes c) zero_mode.
Proof.
  cbv zeta.
  eexists (Res.mk [31; 32] [5; 7] [41; 42]),
          (Connector.mk 32 7 DRM_MODE_CONNECTED [mode_1080p; mode_720p; mode_480p] [5; 7]),
          (Encoder.mk 7 41 1), (Crtc.mk 41 77 0 0 1280 720 1 mode_720p), _.
  repeat split; try (vm_compute; reflexivity); vm_compute; discriminate.
Qed.

(** C4 (amended): after a successful negotiation the one registered
    display has, as desktop and as current mode, the resolved mode: the
    saved CRTC's mode when the CRTC reports it valid, the selected
    connector's first mode when it does not.  The encoder used is the first
    listed one that is the connector's current encoder or one it supports;
    when that encoder's own CRTC can be queried, that CRTC is the one saved
    and reused, and with a valid mode its mode is the one reported. *)
Theorem VideoInit_resolved_mode (k : kernel) (this : SDL_VideoDevice) (n : ptr)
    (Hfd : VideoData.drm_fd (driverdata this) = -1)
    (Hgbm : VideoData.gbm (driverdata this) = None) :
  let r := KMSDRM_VideoInit k this n in
  fst (value r) = 0 ->
  exists fd res c e id crtc dp sp mode,
    k_GetResources k fd = Some res /\
    select_connector k fd res = Some c /\
    select_encoder k fd res c = Some e /\
    select_crtc k fd res e = Some (id, crtc) /\
    displays (snd (value r))
      = displays this ++
        [mkDisplay
           (mkDisplayMode SDL_PIXELFORMAT_ARGB8888 (hdisplay mode) (vdisplay mode)
                          (vrefresh mode))
           (mkDisplayMode SDL_PIXELFORMAT_ARGB8888 (hdisplay mode) (vdisplay mode)
                          (vrefresh mode))
           (dp, DisplayData.mk id (Connector.connector_id c) mode (Some (sp, crtc)))] /\
    (Crtc.mode_valid crtc <> 0 -> mode = Crtc.mode crtc) /\
    (Crtc.mode_valid crtc = 0 -> mode = nth 0 (Connector.modes c) zero_mode) /\
    (forall crtc0,
       k_GetCrtc k fd (Encoder.crtc_id e) = Some crtc0 ->
       id = Encoder.crtc_id e /\ crtc = crtc0 /\
       (Crtc.mode_valid crtc0 <> 0 -> mode = Crtc.mode crtc0)).
Proof.
  intros r. subst r.
  destruct (VideoInit_negotiate k this n Hfd Hgbm) as (r & t & n' & E & H).
  rewrite E. unfold value; simpl.
  destruct (negotiate k (VideoData.devindex (driverdata this)))
    as [fd c e id crtc | msg] eqn:Hn.
  2:{ destruct H as (-> & _). simpl. intros H; discriminate H. }
  destruct H as (dp & g & rp & cp & ep & sp & -> & _). simpl. intros _.
  destruct (negotiate_inv _ _ _ _ _ _ _ Hn)
    as (fd0 & res & _ & -> & _ & Hres & Hc & He & Hs).
  assert (Hvalid : Crtc.mode_valid crtc <> 0 -> resolve_mode c crtc = Crtc.mode crtc).
  { intros Hv. unfold resolve_mode. apply Z.eqb_neq in Hv. rewrite Hv. reflexivity. }
  exists (Z.of_N fd0), res, c, e, id, crtc, dp, sp, (resolve_mode c crtc).
  split; [assumption|]. split; [assumption|]. split; [assumption|].
  split; [assumption|]. split; [reflexivity|]. split; [assumption|]. split.
  - intros Hv. unfold resolve_mode. rewrite Hv. reflexivity.
  - intros crtc0 H0. rewrite (select_crtc_reuse _ _ res _ _ H0) in Hs.
    injection Hs as <- <-. auto.
Qed.

(** On the example machine negotiation on card1 succeeds: the registered
    display carries the resolved mode as desktop and as current mode. *)
Lemma VideoInit_resolved_mode_witness :
  (VideoData.drm_fd (driverdata (created_device 1)) = -1 /\
   VideoData.gbm (driverdata (created_device 1)) = None /\
   fst (value (KMSDRM_VideoInit demo (created_device 1) 0%nat)) = 0) /\
  exists d,
    displays (snd (value (KMSDRM_VideoInit demo (created_device 1) 0%nat))) = [d] /\
    desktop_mode d = current_mode d /\
    w (current_mode d) = hdisplay (DisplayData.mode (snd (display_driverdata d))) /\
    h (current_mode d) = vdisplay (DisplayData.mode (snd (display_driverdata d))).
Proof.
  split; [repeat split; vm_compute; reflexivity|].
  destruct (VideoInit_resolved_mode demo (created_device 1) 0%nat eq_refl eq_refl)
    as (fd & res & c & e & id & crtc & dp & sp & mode & _ & _ & _ & _ & Hd & _);
    [vm_compute; reflexivity|].
  eexists. split; [exact Hd|]. repeat split.
Defined.

(** ** CRTC save/restore *)

Ltac run_quit :=
  unfold KMSDRM_VideoQuit, KMSDRM_drmModeSetCrtc, KMSDRM_drmModeFreeCrtc,
    KMSDRM_gbm_device_destroy, SDL_LogDebug, SDL_LogWarn, close,
    bind, ret, emit, value, calls, supply; simpl.

(** KMSDRM_VideoQuit on a device whose display 0 has a saved CRTC: the one
    restore call, behind its guard, then the one release; no error is set
    and the field is left NULL. *)
Lemma VideoQuit_saved_crtc (k : kernel) (v : VideoData.t)
    (d0 : SDL_VideoDisplay) (ds : list SDL_VideoDisplay) (gl : bool) (n : ptr)
    (sp : ptr) (crtc : Crtc.t)
    (Hsaved : DisplayData.saved_crtc (snd (display_driverdata d0)) = Some (sp, crtc)) :
  let dd := snd (display_driverdata d0) in
  let conn_id := DisplayData.conn_id dd in
  let fd := VideoData.drm_fd v in
  let result := k_SetCrtc k fd (Crtc.crtc_id crtc) (Crtc.buffer_id crtc)
                          (Crtc.x crtc) (Crtc.y crtc) [conn_id] (Crtc.mode crtc) in
  let restore := E_SetCrtc fd (Crtc.crtc_id crtc) (Crtc.buffer_id crtc)
                           (Crtc.x crtc) (Crtc.y crtc) [conn_id] (Crtc.mode crtc) result in
  let r := KMSDRM_VideoQuit k (mkDevice v (d0 :: ds) gl) n in
  exists before after,
    calls r =
      before ++
      (if (0 <=? fd) && (0 <? conn_id)
       then restore ::
            (if result =? 0 then []
             else [E_Log LogWarn "Could not restore original CRTC mode"])
       else []) ++
      E_FreeCrtc sp :: after
    /\ List.filter is_SetCrtc before = [] /\ List.filter is_SetCrtc after = []
    /\ List.filter is_FreeCrtc before = [] /\ List.filter is_FreeCrtc after = []
    /\ errors (calls r) = []
    /\ value r =
       Some (mkDevice
               (VideoData.mk (VideoData.devindex v)
                             (if 0 <=? fd then -1 else fd) None)
               (mkDisplay (desktop_mode d0) (current_mode d0)
                          (fst (display_driverdata d0),
                           DisplayData.mk (DisplayData.crtc_id dd) conn_id
                                          (DisplayData.mode dd) None) :: ds)
               gl).
Proof.
  intros dd conn_id fd result restore r. subst r restore result fd conn_id dd.
  destruct d0 as [dm cm [dp dd]]. simpl in Hsaved. simpl.
  run_quit. rewrite Hsaved.
  exists (E_Log LogDebug "KMSDRM_VideoQuit()"
          :: if gl then [E_GL_UnloadLibrary] else []).
  exists ((match VideoData.gbm v with Some g => [E_gbm_device_destroy g] | None => [] end)
          ++ (if 0 <=? VideoData.drm_fd v
              then [E_close (VideoData.drm_fd v); E_Log LogDebug "Closed DRM FD %d"]
              else [])
          ++ (if k_input_linuxev k then [E_EVDEV_Quit] else [])).
  destruct gl, (VideoData.gbm v) as [g|], (0 <=? VideoData.drm_fd v),
    (0 <? DisplayData.conn_id dd), (k_input_linuxev k); simpl;
    try (destruct (k_SetCrtc k (VideoData.drm_fd v) (Crtc.crtc_id crtc)
                     (Crtc.buffer_id crtc) (Crtc.x crtc) (Crtc.y crtc)
                     [DisplayData.conn_id dd] (Crtc.mode crtc) =? 0); simpl);
    repeat split; reflexivity.
Qed.

(** The connector negotiation selects is one the kernel answered a
    drmModeGetConnector call with. *)
Lemma select_connector_queried k fd res c :
  select_connector k fd res = Some c ->
  exists id, In id (Res.connectors res) /\ k_GetConnector k fd id = Some c.
Proof.
  unfold select_connector. intros H. apply List.find_some in H as [H _].
  apply list_elem_of_In, list_elem_of_omap in H as (id & Hid & Hc).
  exists id. split; [apply list_elem_of_In; exact Hid | exact Hc].
Qed.

(** The CRTC configuration negotiation saves is what drmModeGetCrtc
    answered for the selected CRTC. *)
Lemma select_crtc_queried k fd res e id crtc :
  select_crtc k fd res e = Some (id, crtc) -> k_GetCrtc k fd id = Some crtc.
Proof.
  unfold select_crtc.
  destruct (k_GetCrtc k fd (Encoder.crtc_id e)) as [c0|] eqn:H0.
  - intros H. injection H as <- <-. exact H0.
  - destruct (first_possible_crtc (Encoder.possible_crtcs e) (Res.crtcs res) 0)
      as [id'|]; [|discriminate].
    destruct (k_GetCrtc k fd id') as [c1|] eqn:H1; [|discriminate].
    intros H. injection H as <- <-. exact H1.
Qed.

(** C8: a saved CRTC configuration exists from a successful
    KMSDRM_VideoInit on.  Of a kernel whose connectors carry positive ids,
    as DRM object ids are, KMSDRM_VideoQuit after such an init, whatever
    the kernel answers by then, makes the drmModeSetCrtc call exactly once,
    on the open descriptor, with the CRTC id, buffer id, position and mode of
    the configuration drmModeGetCrtc gave at init and the one connector id
    selected then.  After it the saved CRTC, the object obtained at init, is
    freed exactly once and the field set to NULL, whether or not the restore
    succeeded; a failed restore logs a warning, and no error is set.  A
    further KMSDRM_VideoQuit neither restores nor frees again. *)
Theorem VideoQuit_restores_saved_crtc (k k' : kernel) (this : SDL_VideoDevice) (n : ptr)
    (Hfd : VideoData.drm_fd (driverdata this) = -1)
    (Hgbm : VideoData.gbm (driverdata this) = None)
    (Hdisplays : displays this = [])
    (Hids : forall fd id c, k_GetConnector k fd id = Some c ->
                            0 < Connector.connector_id c)
    (Hok : fst (value (KMSDRM_VideoInit k this n)) = 0) :
  let init := KMSDRM_VideoInit k this n in
  let quit := KMSDRM_VideoQuit k' (snd (value init)) (supply init) in
  exists d sp crtc crtc_id held this' d' before after,
    (* what the init captured *)
    displays (snd (value init)) = [d] /\
    DisplayData.saved_crtc (snd (display_driverdata d)) = Some (sp, crtc) /\
    k_GetCrtc k (VideoData.drm_fd (driverdata (snd (value init)))) crtc_id = Some crtc /\
    holding (calls init) [] = Some (O_crtc sp :: held) /\
    (* the restore and the release *)
    let fd := VideoData.drm_fd (driverdata (snd (value init))) in
    let conn_id := DisplayData.conn_id (snd (display_driverdata d)) in
    let result := k_SetCrtc k' fd (Crtc.crtc_id crtc) (Crtc.buffer_id crtc)
                            (Crtc.x crtc) (Crtc.y crtc) [conn_id] (Crtc.mode crtc) in
    0 <= fd /\ 0 < conn_id /\
    calls quit =
      before ++
      E_SetCrtc fd (Crtc.crtc_id crtc) (Crtc.buffer_id crtc)
                (Crtc.x crtc) (Crtc.y crtc) [conn_id] (Crtc.mode crtc) result ::
      (if result =? 0 then []
       else [E_Log LogWarn "Could not restore original CRTC mode"]) ++
      E_FreeCrtc sp :: after /\
    List.filter is_SetCrtc before = [] /\ List.filter is_SetCrtc after = [] /\
    List.filter is_FreeCrtc before = [] /\ List.filter is_FreeCrtc after = [] /\
    errors (calls quit) = [] /\
    (* what the quit leaves *)
    value quit = Some this' /\
    displays this' = [d'] /\
    DisplayData.saved_crtc (snd (display_driverdata d')) = None /\
    forall k2 m,
      List.filter is_SetCrtc (calls (KMSDRM_VideoQuit k2 this' m)) = [] /\
      List.filter is_FreeCrtc (calls (KMSDRM_VideoQuit k2 this' m)) = [].
Proof.
  intros init quit. subst init quit. revert Hok.
  destruct (VideoInit_negotiate k this n Hfd Hgbm) as (r & t & n' & E & H).
  rewrite E. unfold value at 1, supply. simpl.
  destruct (negotiate k (VideoData.devindex (driverdata this)))
    as [fd c e id crtc | msg] eqn:Hn.
  2:{ destruct H as (-> & _). simpl. intros H; discriminate H. }
  destruct H as (dp & g & rp & cp & ep & sp & -> & _ & Hh). intros _.
  destruct (negotiate_inv _ _ _ _ _ _ _ Hn)
    as (fd0 & res & _ & -> & _ & _ & Hc & _ & Hcrtc).
  apply select_connector_queried in Hc as (cid & _ & Hc).
  apply Hids in Hc. apply select_crtc_queried in Hcrtc.
  destruct this as [[di fd1 g1] ds gl]. simpl in Hfd, Hgbm, Hdisplays.
  subst fd1 g1 ds. unfold value, calls. simpl.
  destruct (VideoQuit_saved_crtc k' (VideoData.mk di (Z.of_N fd0) (Some g))
              (negotiated_display dp sp c id crtc) [] gl n' sp crtc eq_refl)
    as (before & after & Hcalls & Hb & Ha & Hfb & Hfa & Herr & Hval).
  cbv zeta in Hcalls, Hval. unfold value, calls in Hcalls, Herr, Hval.
  simpl in Hcalls, Hval.
  assert (Hguard : (0 <=? Z.of_N fd0) && (0 <? Connector.connector_id c) = true).
  { apply andb_true_intro. split; [apply Z.leb_le; lia | apply Z.ltb_lt; exact Hc]. }
  rewrite Hguard in Hcalls. rewrite N2Z_nonneg in Hval.
  exists (negotiated_display dp sp c id crtc), sp, crtc, id. eexists. eexists. eexists.
  exists before, after.
  split; [reflexivity|]. split; [reflexivity|]. split; [exact Hcrtc|].
  split; [apply Hh|]. cbv zeta. simpl.
  split; [lia|]. split; [exact Hc|]. split; [exact Hcalls|].
  split; [exact Hb|]. split; [exact Ha|]. split; [exact Hfb|]. split; [exact Hfa|].
  split; [exact Herr|]. split; [exact Hval|]. split; [reflexivity|].
  split; [reflexivity|].
  intros k2 m. run_quit.
  destruct gl, (k_input_linuxev k2); split; reflexivity.
Qed.

(** On the example machine, descriptor, connector and saved configuration
    after negotiation on card1 are 5, 32 and CRTC 41 with buffer 77 at (0,0)
    in its 720p mode, and quitting restores them even when the kernel
    refuses the call, setting no error. *)
Lemma VideoQuit_restores_saved_crtc_witness :
  (VideoData.drm_fd (driverdata (created_device 1)) = -1 /\
   VideoData.gbm (driverdata (created_device 1)) = None /\
   displays (created_device 1) = [] /\
   (forall fd id c, k_GetConnector demo fd id = Some c -> 0 < Connector.connector_id c) /\
   fst (value (KMSDRM_VideoInit demo (created_device 1) 0%nat)) = 0) /\
  List.filter is_SetCrtc
    (calls (KMSDRM_VideoQuit demo_no_restore
              (snd (value (KMSDRM_VideoInit demo (created_device 1) 0%nat)))
              (supply (KMSDRM_VideoInit demo (created_device 1) 0%nat))))
  = [E_SetCrtc 5 41 77 0 0 [32] mode_720p (-1)] /\
  errors
    (calls (KMSDRM_VideoQuit demo_no_restore
              (snd (value (KMSDRM_VideoInit demo (created_device 1) 0%nat)))
              (supply (KMSDRM_VideoInit demo (created_device 1) 0%nat))))
  = [].
Proof.
  assert (Hids : forall fd id c, k_GetConnector demo fd id = Some c ->
                                 0 < Connector.connector_id c).
  { intros fd id c. change (k_GetConnector demo) with demo_connector.
    unfold demo_connector.
    destruct (negb (fd =? 5)); [discriminate|].
    destruct (id =? 31); [intros H; injection H as <-; reflexivity|].
    destruct (id =? 32); [intros H; injection H as <-; reflexivity|discriminate]. }
  split; [repeat split; try exact Hids; vm_compute; reflexivity|].
  split; [vm_compute; reflexivity|].
  destruct (VideoQuit_restores_saved_crtc demo demo_no_restore (created_device 1) 0%nat
              eq_refl eq_refl eq_refl Hids)
    as (d & sp & crtc & crtc_id & held & this' & d' & before & after & H);
    [vm_compute; reflexivity|].
  apply H.
Defined.

(** ** FramebufferRegistry *)

Ltac run_fb :=
  unfold KMSDRM_FBFromBO, KMSDRM_drmModeAddFB, SDL_calloc, SDL_OutOfMemory,
    SDL_SetError, SDL_free, SDL_LogDebug, query, bind, ret, emit, fresh,
    value, calls, supply; simpl.

Lemma FBFromBO_existing k this bo (ud : user_data) fb n :
  ud !! bo = Some fb ->
  KMSDRM_FBFromBO k this bo ud n = (Some fb, ud, [], n).
Proof. intros H. unfold KMSDRM_FBFromBO, ret. rewrite H. reflexivity. Qed.

(** A call either creates no framebuffer and leaves the user data alone, or
    creates exactly one and attaches it to the buffer. *)
Lemma FBFromBO_cases k this bo (ud : user_data) n :
  let r := KMSDRM_FBFromBO k this bo ud n in
  (existsb is_created_fb (calls r) = false /\ snd (value r) = ud /\
   fst (value r) = ud !! bo)
  \/
  (existsb is_created_fb (calls r) = true /\ ud !! bo = None /\
   length (List.filter is_AddFB (calls r)) = 1%nat /\
   exists fb, fst (value r) = Some fb /\ snd (value r) = <[bo := fb]> ud).
Proof.
  run_fb. destruct (ud !! bo) as [fb|] eqn:Hud; simpl; [left; auto|].
  destruct (k_calloc k site_fb_info); simpl; [|left; auto].
  destruct (k_AddFB k (VideoData.drm_fd (driverdata this)) (k_bo_width k bo)
              (k_bo_height k bo) 24 32 (k_bo_stride k bo) (k_bo_handle k bo))
    as [ret_ fb_id] eqn:Hadd; simpl.
  destruct (ret_ =? 0) eqn:Hret; simpl.
  - right. rewrite Hret. simpl. repeat split. eexists. split; reflexivity.
  - left. rewrite Hret. simpl. auto.
Qed.

(** Metadata, once attached to a buffer, survives every later call. *)
Lemma FBFromBO_preserves k this bo (ud : user_data) n bo' fb :
  ud !! bo' = Some fb ->
  snd (value (KMSDRM_FBFromBO k this bo ud n)) !! bo' = Some fb.
Proof.
  intros H.
  destruct (FBFromBO_cases k this bo ud n) as [(_ & -> & _) | (_ & Hnone & _ & fb' & _ & ->)];
    [assumption|].
  rewrite lookup_insert_ne; [assumption|]. intros ->. congruence.
Qed.

Lemma creations_cons bo l logs :
  creations bo (l :: logs) =
  ((if Nat.eqb (fst l) bo && existsb is_created_fb (snd l) then 1 else 0)
   + creations bo logs)%nat.
Proof.
  unfold creations, ptr in *. simpl.
  destruct (Nat.eqb (fst l) bo && existsb is_created_fb (snd l)); reflexivity.
Qed.

Lemma no_creation_once_attached bo fb reqs : forall (ud : user_data) n,
  ud !! bo = Some fb ->
  creations bo (FBFromBO_logs reqs ud n) = 0%nat.
Proof.
  induction reqs as [|[[k this] bo1] reqs IH]; intros ud n Hud; [reflexivity|].
  simpl. rewrite creations_cons. simpl.
  rewrite IH by (apply FBFromBO_preserves, Hud).
  destruct (Nat.eqb_spec bo1 bo) as [->|Hne]; [|reflexivity].
  rewrite (FBFromBO_existing _ _ _ _ _ _ Hud). reflexivity.
Qed.

(** C7: a buffer that carries framebuffer metadata gets it back
    unchanged, with no call made at all; so after a call that returned a
    framebuffer, every later call on that buffer, whatever the state of the
    kernel, returns the same one and makes no drmModeAddFB call; and over
    any sequence of calls a framebuffer is created for a buffer at most
    once. *)
Theorem FBFromBO_idempotent (k : kernel) (this : SDL_VideoDevice) (bo : ptr)
    (ud : user_data) (n : ptr) :
  (forall fb, ud !! bo = Some fb ->
              KMSDRM_FBFromBO k this bo ud n = (Some fb, ud, [], n))
  /\
  (forall fb, fst (value (KMSDRM_FBFromBO k this bo ud n)) = Some fb ->
     forall k' this' n',
       let ud' := snd (value (KMSDRM_FBFromBO k this bo ud n)) in
       KMSDRM_FBFromBO k' this' bo ud' n' = (Some fb, ud', [], n'))
  /\
  (forall reqs, (creations bo (FBFromBO_logs reqs ud n) <= 1)%nat).
Proof.
  split; [|split].
  - intros fb. apply FBFromBO_existing.
  - intros fb Hfb k' this' n' ud'. subst ud'. apply FBFromBO_existing.
    destruct (FBFromBO_cases k this bo ud n)
      as [(_ & -> & Hv) | (_ & _ & _ & fb' & Hv & ->)].
    + rewrite <- Hv. exact Hfb.
    + rewrite lookup_insert_eq. congruence.
  - intros reqs. revert ud n.
    induction reqs as [|[[k1 this1] bo1] reqs IH]; intros ud n;
      [unfold creations; simpl; lia|].
    simpl. rewrite creations_cons. simpl.
    destruct (Nat.eqb_spec bo1 bo) as [->|Hne]; simpl; [|apply IH].
    destruct (FBFromBO_cases k1 this1 bo ud n)
      as [(Hno & _) | (Hyes & _ & _ & fb & _ & Hud')].
    + rewrite Hno. apply IH.
    + rewrite Hyes.
      rewrite (no_creation_once_attached bo fb); [lia|].
      rewrite Hud'. apply lookup_insert_eq.
Qed.

(** ** PageFlipScheduler *)

(** What dispatching the pending events does to one window: its flag is
    cleared when one of them completes a flip of that window, and nothing
    else about it changes. *)
Lemma drmHandleEvent_lookup pending : forall (ws : windows) p,
  drmHandleEvent flip_context pending ws !! p =
  if existsb (completes p) pending
  then clear_waiting_for_flip <$> ws !! p
  else ws !! p.
Proof.
  unfold drmHandleEvent.
  induction pending as [|e pending IH]; intros ws p; simpl; [reflexivity|].
  rewrite IH. destruct e as [data|data|]; simpl; try reflexivity.
  unfold KMSDRM_FlipHandler.
  destruct (Nat.eqb_spec data p) as [->|Hne]; simpl.
  - rewrite lookup_alter_eq.
    destruct (existsb (completes p) pending), (ws !! p); reflexivity.
  - rewrite lookup_alter_ne by assumption. reflexivity.
Qed.

Lemma WaitPageFlip_idle this w timeout script (ws : windows) wd :
  ws !! w = Some wd -> WindowData.waiting_for_flip wd = false ->
  KMSDRM_WaitPageFlip this w timeout script ws = Some (true, [], script, ws).
Proof. intros Hw Hf. destruct script; simpl; rewrite Hw, Hf; reflexivity. Qed.

(** One iteration of the loop with a flip pending. *)
Lemma WaitPageFlip_step this w timeout p script (ws : windows) wd :
  ws !! w = Some wd -> WindowData.waiting_for_flip wd = true ->
  let fd := VideoData.drm_fd (driverdata this) in
  let polled := E_poll fd timeout (poll_ret p) (poll_revents p) in
  KMSDRM_WaitPageFlip this w timeout (p :: script) ws =
  if poll_readable p then
    after_dispatch fd timeout p
      (KMSDRM_WaitPageFlip this w timeout script
         (drmHandleEvent flip_context (poll_pending p) ws))
  else
    Some (false,
          [polled;
           if poll_failed p then E_Log LogError "DRM poll error"
           else if poll_hangup p then E_Log LogError "DRM poll hup or error"
           else E_Log LogDebug "Dropping frame while waiting_for_flip"],
          script, ws).
Proof.
  intros Hw Hf. simpl. rewrite Hw, Hf. simpl.
  unfold poll_readable, poll_failed, poll_hangup, after_dispatch, flip_context.
  destruct (poll_ret p <? 0); simpl; [reflexivity|].
  destruct (Z.land (poll_revents p) (Z.lor POLLHUP POLLERR) =? 0); simpl; [|reflexivity].
  destruct (Z.land (poll_revents p) POLLIN =? 0); simpl; reflexivity.
Qed.

(** What a returned wait tells: the window is still allocated, with the same
    buffers and surfaces; the value returned is the negation of the flag;
    the calls are polls with the given timeout, dispatches and log lines;
    and if the flag went from set to cleared, the last poll result consumed
    was dispatched with a completion event of this window's flip, every one
    before it having been dispatched without one. *)
Lemma WaitPageFlip_returned this w timeout script :
  forall (ws : windows) wd b t s ws',
  ws !! w = Some wd ->
  KMSDRM_WaitPageFlip this w timeout script ws = Some (b, t, s, ws') ->
  exists wd',
    ws' !! w = Some wd' /\
    WindowData.waiting_for_flip wd' = negb b /\
    clear_waiting_for_flip wd' = clear_waiting_for_flip wd /\
    forallb (is_wait_call timeout) t = true /\
    (WindowData.waiting_for_flip wd = true -> b = true ->
     exists pre p,
       script = pre ++ p :: s /\
       poll_readable p = true /\
       existsb (completes w) (poll_pending p) = true /\
       Forall (fun q => poll_readable q = true /\
                        existsb (completes w) (poll_pending q) = false) pre).
Proof.
  induction script as [|p script IH]; intros ws wd b t s ws' Hw Hrun.
  - simpl in Hrun. rewrite Hw in Hrun.
    destruct (WindowData.waiting_for_flip wd) eqn:Hf; simpl in Hrun; [discriminate|].
    injection Hrun as <- <- <- <-. exists wd. rewrite Hf.
    repeat split; auto. intros H; discriminate H.
  - destruct (WindowData.waiting_for_flip wd) eqn:Hf.
    2:{ rewrite (WaitPageFlip_idle _ _ _ _ _ _ Hw Hf) in Hrun.
        injection Hrun as <- <- <- <-. exists wd. rewrite Hf.
        repeat split; auto. intros H; discriminate H. }
    rewrite (WaitPageFlip_step _ _ _ _ _ _ _ Hw Hf) in Hrun.
    destruct (poll_readable p) eqn:Hread.
    2:{ injection Hrun as <- <- <- <-. exists wd. rewrite Hf.
        repeat split; auto.
        - simpl. rewrite Z.eqb_refl.
          destruct (poll_failed p), (poll_hangup p); reflexivity.
        - intros _ H; discriminate H. }
    pose proof (drmHandleEvent_lookup (poll_pending p) ws w) as Hl.
    rewrite Hw in Hl. simpl in Hl.
    destruct (KMSDRM_WaitPageFlip this w timeout script
                (drmHandleEvent flip_context (poll_pending p) ws))
      as [[[[b1 t1] s1] ws1]|] eqn:Hrec; simpl in Hrun; [|discriminate].
    injection Hrun as <- <- <- <-.
    destruct (existsb (completes w) (poll_pending p)) eqn:Hdone.
    + (* this wake-up completes the flip: the next iteration leaves the loop *)
      rewrite (WaitPageFlip_idle _ _ _ _ _ _ Hl eq_refl) in Hrec.
      injection Hrec as <- <- <- <-.
      exists (clear_waiting_for_flip wd). split; [assumption|].
      split; [reflexivity|]. split; [reflexivity|]. split.
      * simpl. rewrite Z.eqb_refl. reflexivity.
      * intros _ _. exists [], p. repeat split; auto.
    + destruct (IH _ _ _ _ _ _ Hl Hrec) as (wd' & Hw' & Hb & Hsame & Ht & Hpre).
      exists wd'. split; [assumption|]. split; [assumption|]. split; [assumption|].
      split.
      * simpl. rewrite Z.eqb_refl. exact Ht.
      * intros _ Hb1. destruct (Hpre Hf Hb1) as (pre & q & -> & Hq & Hqd & Hall).
        exists (p :: pre), q. repeat split; auto.
Qed.

(** C2, as the claim words it, fails on a wake-up that is not a flip
    completion: the descriptor is readable with a vblank event, the flag
    stays set, and the call does not return failure but polls again; the
    second wake-up completes the flip and the call returns SDL_TRUE. *)
Lemma WaitPageFlip_wakeup_counterexample :
  demo_windows !! 1%nat = Some demo_window_data /\
  WindowData.waiting_for_flip demo_window_data = true /\
  poll_readable vblank_wakeup = true /\
  existsb (completes 1%nat) (poll_pending vblank_wakeup) = false /\
  exists ws',
    KMSDRM_WaitPageFlip demo_device 1%nat 100 [vblank_wakeup; flip_wakeup] demo_windows
    = Some (true,
            [E_poll 5 100 1 1; E_HandleEvent 5; E_poll 5 100 1 1; E_HandleEvent 5],
            [], ws').
Proof.
  split; [reflexivity|]. split; [reflexivity|]. split; [reflexivity|].
  split; [reflexivity|]. eexists. vm_compute. reflexivity.
Qed.

(** C2 (amended): with a flip pending, KMSDRM_WaitPageFlip returns
    SDL_TRUE exactly when it leaves the window's flag cleared, and that
    happens only through a dispatched wake-up that carries the completion of
    this window's flip.  A readable wake-up without it leaves the window as
    it is and the call polls again: its outcome is that of the wait on the
    following wake-ups.  A poll error, a hangup or error condition, or a
    return with none of these and nothing to read (a timeout) makes the call
    return SDL_FALSE at once with the window data untouched. *)
Theorem WaitPageFlip_clears_on_completion_only (this : SDL_VideoDevice) (w : ptr)
    (timeout : Z) (script : list poll_result) (ws : windows) (wd : WindowData.t)
    (Hw : ws !! w = Some wd)
    (Hpending : WindowData.waiting_for_flip wd = true) :
  let fd := VideoData.drm_fd (driverdata this) in
  (forall b t s ws',
     KMSDRM_WaitPageFlip this w timeout script ws = Some (b, t, s, ws') ->
     exists wd',
       ws' !! w = Some wd' /\
       WindowData.waiting_for_flip wd' = negb b /\
       (b = true ->
        exists pre p,
          script = pre ++ p :: s /\
          poll_readable p = true /\
          existsb (completes w) (poll_pending p) = true /\
          Forall (fun q => poll_readable q = true /\
                           existsb (completes w) (poll_pending q) = false) pre))
  /\
  (forall p rest,
     script = p :: rest ->
     poll_readable p = true ->
     existsb (completes w) (poll_pending p) = false ->
     drmHandleEvent flip_context (poll_pending p) ws !! w = Some wd /\
     KMSDRM_WaitPageFlip this w timeout script ws =
     after_dispatch fd timeout p
       (KMSDRM_WaitPageFlip this w timeout rest
          (drmHandleEvent flip_context (poll_pending p) ws)))
  /\
  (forall p rest,
     script = p :: rest ->
     poll_readable p = false ->
     KMSDRM_WaitPageFlip this w timeout script ws =
     Some (false,
           [E_poll fd timeout (poll_ret p) (poll_revents p);
            if poll_failed p then E_Log LogError "DRM poll error"
            else if poll_hangup p then E_Log LogError "DRM poll hup or error"
            else E_Log LogDebug "Dropping frame while waiting_for_flip"],
           rest, ws)).
Proof.
  intros fd. split; [|split].
  - intros b t s ws' Hrun.
    destruct (WaitPageFlip_returned _ _ _ _ _ _ _ _ _ _ Hw Hrun)
      as (wd' & Hw' & Hb & _ & _ & Hpre).
    exists wd'. split; [assumption|]. split; [assumption|].
    intros Hb1. apply Hpre; assumption.
  - intros p rest -> Hread Hnot.
    rewrite (WaitPageFlip_step _ _ _ _ _ _ _ Hw Hpending), Hread.
    split; [|reflexivity].
    rewrite drmHandleEvent_lookup, Hnot. exact Hw.
  - intros p rest -> Hread.
    rewrite (WaitPageFlip_step _ _ _ _ _ _ _ Hw Hpending), Hread. reflexivity.
Qed.

(** On the example window a timeout drops the frame and leaves the flip
    pending. *)
Lemma WaitPageFlip_clears_on_completion_only_witness :
  (demo_windows !! 1%nat = Some demo_window_data /\
   WindowData.waiting_for_flip demo_window_data = true) /\
  KMSDRM_WaitPageFlip demo_device 1%nat 100 [poll_timeout; flip_wakeup] demo_windows
  = Some (false,
          [E_poll (VideoData.drm_fd (driverdata demo_device)) 100 0 0;
           E_Log LogDebug "Dropping frame while waiting_for_flip"],
          [flip_wakeup], demo_windows).
Proof.
  split; [split; reflexivity|].
  destruct (WaitPageFlip_clears_on_completion_only demo_device 1%nat 100
              [poll_timeout; flip_wakeup] demo_windows demo_window_data
              eq_refl eq_refl) as (_ & _ & Hfail).
  apply (Hfail poll_timeout [flip_wakeup] eq_refl eq_refl).
Defined.

(** ** WindowSurface *)

(** C9: for a window with driver data, KMSDRM_DestroyWindow returns
    exactly when its wait for the page flip returns; that wait polls with
    timeout -1.  Its calls are, in this order: the calls of the wait; the
    release of the current buffer and then of the next buffer, each once and
    only if present; with EGL compiled in, the unbinding of the context and
    the destruction of the window's EGL surface if it has one; the
    destruction of the gbm surface if there is one; the freeing of the window
    data.  With a flip pending and a first wake-up that carries its
    completion, the destruction completes after that one poll and dispatch. *)
Theorem DestroyWindow_order (k : kernel) (this : SDL_VideoDevice) (window : SDL_Window)
    (windata : ptr) (wd : WindowData.t) (script : list poll_result) (ws : windows)
    (Hdata : window_driverdata window = Some windata)
    (Hw : ws !! windata = Some wd) :
  let fd := VideoData.drm_fd (driverdata this) in
  let teardown :=
    release_buffer (WindowData.gs wd) (WindowData.curr_bo wd) ++
    release_buffer (WindowData.gs wd) (WindowData.next_bo wd) ++
    (if k_opengl_egl k then
       E_EGL_MakeCurrent_none ::
       match WindowData.egl_surface wd with
       | Some s => [E_EGL_DestroySurface s]
       | None => []
       end
     else []) ++
    match WindowData.gs wd with
    | Some g => [E_gbm_surface_destroy g]
    | None => []
    end ++
    [E_free windata] in
  (KMSDRM_DestroyWindow k this window script ws = None <->
   KMSDRM_WaitPageFlip this windata (-1) script ws = None)
  /\
  (forall window' t s ws'',
     KMSDRM_DestroyWindow k this window script ws = Some (window', t, s, ws'') ->
     exists b t_wait ws',
       KMSDRM_WaitPageFlip this windata (-1) script ws = Some (b, t_wait, s, ws') /\
       forallb (is_wait_call (-1)) t_wait = true /\
       t = t_wait ++ teardown /\
       window_driverdata window' = None /\
       ws'' = delete windata ws')
  /\
  (forall p rest,
     WindowData.waiting_for_flip wd = true ->
     script = p :: rest ->
     poll_readable p = true ->
     existsb (completes windata) (poll_pending p) = true ->
     exists window' ws'',
       KMSDRM_DestroyWindow k this window script ws =
       Some (window',
             E_poll fd (-1) (poll_ret p) (poll_revents p) :: E_HandleEvent fd :: teardown,
             rest, ws'')).
Proof.
  intros fd teardown. subst teardown.
  assert (Hrun : forall b t s ws',
            KMSDRM_WaitPageFlip this windata (-1) script ws = Some (b, t, s, ws') ->
            KMSDRM_DestroyWindow k this window script ws =
            Some (mkWindow (window_w window) (window_h window) None,
                  t ++
                  release_buffer (WindowData.gs wd) (WindowData.curr_bo wd) ++
                  release_buffer (WindowData.gs wd) (WindowData.next_bo wd) ++
                  (if k_opengl_egl k then
                     E_EGL_MakeCurrent_none ::
                     match WindowData.egl_surface wd with
                     | Some s => [E_EGL_DestroySurface s]
                     | None => []
                     end
                   else []) ++
                  match WindowData.gs wd with
                  | Some g => [E_gbm_surface_destroy g]
                  | None => []
                  end ++ [E_free windata],
                  s, delete windata ws')
            /\ forallb (is_wait_call (-1)) t = true).
  { intros b t s ws' Hwait.
    destruct (WaitPageFlip_returned _ _ _ _ _ _ _ _ _ _ Hw Hwait)
      as (wd' & Hw' & _ & Hsame & Ht & _).
    split; [|assumption].
    unfold KMSDRM_DestroyWindow. rewrite Hdata, Hwait, Hw'.
    unfold clear_waiting_for_flip in Hsame. injection Hsame as _ -> -> -> ->.
    reflexivity. }
  split; [|split].
  - unfold KMSDRM_DestroyWindow. rewrite Hdata.
    destruct (KMSDRM_WaitPageFlip this windata (-1) script ws)
      as [[[[b t] s] ws']|] eqn:Hwait; [|tauto].
    destruct (WaitPageFlip_returned _ _ _ _ _ _ _ _ _ _ Hw Hwait) as (wd' & Hw' & _).
    rewrite Hw'. split; intros H; discriminate H.
  - intros window' t s ws'' Hd.
    destruct (KMSDRM_WaitPageFlip this windata (-1) script ws)
      as [[[[b t_wait] s1] ws']|] eqn:Hwait.
    + destruct (Hrun _ _ _ _ eq_refl) as [Hd' Ht]. rewrite Hd' in Hd.
      injection Hd as <- <- <- <-. exists b, t_wait, ws'. auto.
    + unfold KMSDRM_DestroyWindow in Hd. rewrite Hdata, Hwait in Hd. discriminate Hd.
  - intros p rest Hf -> Hread Hdone.
    assert (Hwait : KMSDRM_WaitPageFlip this windata (-1) (p :: rest) ws =
                    Some (true,
                          [E_poll fd (-1) (poll_ret p) (poll_revents p); E_HandleEvent fd],
                          rest, drmHandleEvent flip_context (poll_pending p) ws)).
    { rewrite (WaitPageFlip_step _ _ _ _ _ _ _ Hw Hf), Hread.
      assert (Hl : drmHandleEvent flip_context (poll_pending p) ws !! windata
                   = Some (clear_waiting_for_flip wd))
        by (rewrite drmHandleEvent_lookup, Hdone, Hw; reflexivity).
      rewrite (WaitPageFlip_idle _ _ _ _ _ _ Hl eq_refl). reflexivity. }
    destruct (Hrun _ _ _ _ Hwait) as [Hd _]. rewrite Hd.
    eexists _, _. reflexivity.
Qed.

(** The example window, whose flip completes at the first wake-up: both
    buffers are released, once each, before the EGL surface and then the gbm
    surface are destroyed. *)
Lemma DestroyWindow_order_witness :
  (window_driverdata demo_window = Some 1%nat /\
   demo_windows !! 1%nat = Some demo_window_data) /\
  exists window' ws'',
    KMSDRM_DestroyWindow demo demo_device demo_window [flip_wakeup] demo_windows =
    Some (window',
          [E_poll (VideoData.drm_fd (driverdata demo_device)) (-1) 1 1;
           E_HandleEvent (VideoData.drm_fd (driverdata demo_device));
           E_gbm_surface_release_buffer (Some 10%nat) 11%nat;
           E_gbm_surface_release_buffer (Some 10%nat) 12%nat;
           E_EGL_MakeCurrent_none; E_EGL_DestroySurface 13%nat;
           E_gbm_surface_destroy 10%nat; E_free 1%nat],
          [], ws'').
Proof.
  split; [split; reflexivity|].
  destruct (DestroyWindow_order demo demo_device demo_window 1%nat demo_window_data
              [flip_wakeup] demo_windows eq_refl eq_refl) as (_ & _ & Hdone).
  apply (Hdone flip_wakeup [] eq_refl eq_refl eq_refl eq_refl).
Defined.

(** * Further properties of the driver *)

#[local] Transparent VideoInit_cleanup VideoInit_crtc.

(** ** Runs that only make calls of one kind *)

Lemma only_ret {A} P (a : A) : only P (ret a).
Proof. intros n. reflexivity. Qed.

Lemma only_emit P c : P c = true -> only P (emit c).
Proof. intros H n. unfold emit, calls. simpl. rewrite H. reflexivity. Qed.

Lemma only_fresh P : only P fresh.
Proof. intros n. reflexivity. Qed.

Lemma only_bind {A B} P (m : M A) (f : A -> M B) :
  only P m -> (forall a, only P (f a)) -> only P (bind m f).
Proof.
  intros Hm Hf n. rewrite calls_bind, forallb_app, Hm, Hf. reflexivity.
Qed.

Lemma only_query {A} P (ans : option A) ev :
  (forall p, P (ev p) = true) -> only P (query ans ev).
Proof.
  intros H. unfold query. destruct ans.
  - apply only_bind; [apply only_fresh|]. intros p.
    apply only_bind; [apply only_emit, H | intros; apply only_ret].
  - apply only_bind; [apply only_emit, H | intros; apply only_ret].
Qed.

(** Decompose a run into its binds, branches and single calls. *)
Ltac only_step :=
  first
    [ apply only_ret
    | apply only_fresh
    | apply only_emit; reflexivity
    | apply only_query; intros; reflexivity
    | apply only_bind; [|intros ?]
    | match goal with
      | |- only _ (match ?x with _ => _ end) => destruct x
      | |- only _ (if ?b then _ else _) => destruct b
      end ].

Ltac only_run := repeat only_step.

(** ** DeviceEnumerator *)

Lemma prefix_card (s : string) :
  String.prefix "card" s = true <-> exists rest, s = ("card" ++ rest)%string.
Proof.
  split.
  - intros H.
    destruct s as [|a [|b [|c [|d rest]]]]; simpl in H; try discriminate H;
      repeat match type of H with
             | (if ?x then _ else _) = true => destruct x; [subst|discriminate H]
             end; try discriminate H.
    exists rest. reflexivity.
  - intros [rest ->]. simpl.
    repeat match goal with
           | |- (if ?x then _ else _) = true => destruct x; [|congruence]
           end.
    destruct rest; reflexivity.
Qed.

Lemma length_filter_bool {A} (f : A -> bool) (l : list A) :
  length (filter (fun x => f x = true) l) = length (List.filter f l).
Proof.
  induction l as [|a l IH]; [reflexivity|].
  rewrite filter_cons. simpl.
  destruct (decide (f a = true)) as [E|E].
  - rewrite E. simpl. congruence.
  - destruct (f a); [contradiction|assumption].
Qed.

(** The entries get_dricount counts are those named card followed by at
    least one more character, whatever that character is; with the
    directory in place its result is their number. *)
Theorem get_dricount_counts_card_entries (k : kernel) (n : ptr) (names : list string)
    (Hdir : k_dri_is_dir k = true) (Haccess : k_dri_access k = true)
    (Hnames : k_dri_entries k = Some names) :
  value (get_dricount k n) = Z.of_nat (length (List.filter is_card_entry names)) /\
  calls (get_dricount k n) = [] /\
  (forall d, is_card_entry d = true <->
             exists rest, d = ("card" ++ rest)%string /\ rest <> ""%string).
Proof.
  split; [|split].
  - unfold get_dricount. rewrite Hdir, Haccess, Hnames. simpl.
    unfold value, ret. simpl. f_equal. apply length_filter_bool.
  - unfold get_dricount. rewrite Hdir, Haccess, Hnames. reflexivity.
  - intros d. unfold is_card_entry. rewrite andb_true_iff, prefix_card, Z.ltb_lt. split.
    + intros [Hlen [rest ->]]. exists rest. split; [reflexivity|].
      intros ->. simpl in Hlen. lia.
    + intros (rest & -> & Hrest). split; [|exists rest; reflexivity].
      destruct rest; [contradiction|]. simpl. lia.
Qed.

Lemma get_dricount_counts_card_entries_witness :
  (k_dri_is_dir demo = true /\ k_dri_access demo = true /\
   k_dri_entries demo = Some ["."; ".."; "card0"; "card1"; "renderD128"]%string) /\
  value (get_dricount demo 0%nat) = 2.
Proof.
  split; [repeat split|].
  destruct (get_dricount_counts_card_entries demo 0%nat
              ["."; ".."; "card0"; "card1"; "renderD128"]%string eq_refl eq_refl eq_refl)
    as [Hv _].
  rewrite Hv. reflexivity.
Defined.

Lemma only_check_modestting k i : only is_probe_call (check_modestting k i).
Proof.
  unfold check_modestting, open, close, SDL_KMSDRM_LoadSymbols, SDL_KMSDRM_UnloadSymbols,
    KMSDRM_drmModeGetResources, KMSDRM_drmModeFreeResources, SDL_LogDebug.
  only_run.
Qed.

Lemma only_get_dricount k : only is_probe_call (get_dricount k).
Proof. unfold get_dricount. only_run. Qed.

Lemma only_driindex_loop k n : forall i, only is_probe_call (driindex_loop k n i).
Proof.
  induction n as [|n IH]; intros i; simpl; [apply only_ret|].
  apply only_bind; [apply only_check_modestting|].
  intros [|]; [apply only_ret | apply IH].
Qed.

Lemma driindex_loop_holding k n : forall i m held,
  holding (calls (driindex_loop k n i m)) held = Some held.
Proof.
  induction n as [|n IH]; intros i m held; simpl; [reflexivity|].
  rewrite calls_bind, holding_app, check_modestting_holding.
  destruct (value (check_modestting k i m)); [reflexivity | apply IH].
Qed.

Lemma get_driindex_holding k n held :
  holding (calls (get_driindex k n)) held = Some held.
Proof.
  unfold get_driindex. rewrite calls_bind, holding_app.
  destruct (get_dricount_run k n) as (c & t & E & _ & _ & _).
  rewrite E. unfold calls at 1, value, supply. simpl.
  assert (Ht : holding t held = Some held).
  { unfold get_dricount in E.
    destruct (k_dri_is_dir k), (k_dri_access k), (k_dri_entries k);
      injection E as <- <-; reflexivity. }
  rewrite Ht. apply driindex_loop_holding.
Qed.

(** The scan of get_driindex only ever opens indices from 0 up to, and not
    including, the number of card entries: a device whose index is not
    below that number is never probed.  The scan makes no call other than
    those of probing, and whatever it opened, loaded or queried has been
    given back when it returns. *)
Theorem get_driindex_scan_range (k : kernel) (n : ptr) :
  let devcount := value (get_dricount k n) in
  (forall i, In i (opened (calls (get_driindex k n))) -> 0 <= i < devcount) /\
  (devcount = 0 -> value (get_driindex k n) = - ENOENT /\
                   opened (calls (get_driindex k n)) = []) /\
  forallb is_probe_call (calls (get_driindex k n)) = true /\
  (forall held, holding (calls (get_driindex k n)) held = Some held).
Proof.
  intros devcount. subst devcount.
  pose proof (get_driindex_spec k n) as H. cbv zeta in H.
  split; [|split; [|split]].
  - intros i Hi.
    destruct H as [(_ & _ & Hop) | (Hr & _ & _ & Hop)];
      rewrite Hop in Hi; apply in_map_iff in Hi as (d & <- & Hd);
      apply in_seq in Hd; lia.
  - intros H0. rewrite H0 in H.
    destruct H as [(Hr & _ & Hop) | (Hr & _)]; [|lia].
    split; [assumption|]. rewrite Hop. reflexivity.
  - unfold get_driindex.
    apply only_bind; [apply only_get_dricount | intros; apply only_driindex_loop].
  - intros held. apply get_driindex_holding.
Qed.

(** KMSDRM_Available answers 1 when some index below the number of card
    entries is reported available by check_modestting, and -ENOENT
    otherwise, never 0; it only probes, and holds nothing when it returns. *)
Theorem Available_iff_some_probe (k : kernel) (n : ptr) :
  let devcount := value (get_dricount k n) in
  let r := KMSDRM_Available k n in
  (value r = 1 \/ value r = - ENOENT) /\
  (value r = 1 <-> exists i, 0 <= i < devcount /\ probe k i = true) /\
  forallb is_probe_call (calls r) = true /\
  holding (calls r) [] = Some [].
Proof.
  intros devcount r. subst devcount r.
  unfold KMSDRM_Available.
  assert (Hc : calls (bind (get_driindex k) (fun r => if 0 <=? r then ret 1 else ret r) n)
               = calls (get_driindex k n)).
  { rewrite calls_bind. destruct (0 <=? value (get_driindex k n));
      unfold calls at 2, ret; simpl; apply app_nil_r. }
  rewrite Hc, value_bind.
  pose proof (get_driindex_spec k n) as H. cbv zeta in H.
  destruct (get_driindex_scan_range k n) as (_ & _ & Honly & Hhold).
  split; [|split; [|split; [exact Honly | apply Hhold]]].
  - destruct H as [(Hr & _) | (Hr & _)]; rewrite ?Hr.
    + right. reflexivity.
    + left. destruct (Z.leb_spec 0 (value (get_driindex k n))); [reflexivity|lia].
  - destruct H as [(Hr & Hnone & _) | (Hr & Hp & _)].
    + rewrite Hr. simpl. unfold value, ret, ENOENT. simpl. split; [intros H; discriminate H|].
      intros (i & Hi & Hpi). rewrite (Hnone i Hi) in Hpi. discriminate Hpi.
    + destruct (Z.leb_spec 0 (value (get_driindex k n))); [|lia].
      split; [|reflexivity]. intros _. exists (value (get_driindex k n)). auto.
Qed.

(** ** Device creation and deletion *)

Lemma bind_ret_l {A B} (a : A) (f : A -> M B) n : bind (ret a) f n = f a n.
Proof. unfold bind, ret. destruct (f a n) as [[b t] n']. reflexivity. Qed.

(** What KMSDRM_CreateDevice does once the index is settled. *)
Lemma CreateDevice_tail k (i : Z) n1 :
  let tail := fun devindex : Z =>
    if devindex <? 0 then
      (SDL_SetError "devindex (%d) must be between 0 and 99." ;; ret None)%drv
    else
      (loaded <- SDL_KMSDRM_LoadSymbols k ;;
       if negb loaded then ret None
       else
         device <- SDL_calloc k site_device ;;
         match device with
         | None => SDL_OutOfMemory ;; ret None
         | Some dp =>
             viddata <- SDL_calloc k site_viddata ;;
             match viddata with
             | None => SDL_OutOfMemory ;; SDL_free dp ;; ret None
             | Some _ =>
                 ret (Some (mkDevice (VideoData.mk devindex (-1) None) [] false))
             end
         end)%drv in
  let r := tail i n1 in
  (i < 0 -> value r = None /\
            calls r = [E_SetError "devindex (%d) must be between 0 and 99."]) /\
  (0 <= i ->
   opened (calls r) = [] /\
   (value r = None ->
    forall held, holding (calls r) held =
                 Some (if k_load_symbols k then O_symbols :: held else held)) /\
   (forall dev, value r = Some dev ->
      dev = created_device i /\
      In (E_calloc site_device (Some n1)) (calls r) /\
      In (E_calloc site_viddata (Some (S n1))) (calls r) /\
      forall held,
        holding (calls r) held = Some (O_mem (S n1) :: O_mem n1 :: O_symbols :: held) /\
        forall m,
          holding (calls r ++ calls (KMSDRM_DeleteDevice n1 (Some (S n1)) m)) held
          = Some held) /\
   (k_load_symbols k = true -> k_calloc k site_device = true ->
    k_calloc k site_viddata = true -> value r = Some (created_device i))).
Proof.
  intros tail r. subst r tail. cbv beta. split.
  - intros Hi. apply Z.ltb_lt in Hi. rewrite Hi. split; reflexivity.
  - intros Hi. apply Z.ltb_ge in Hi. rewrite Hi. run_create.
    destruct (k_load_symbols k); simpl.
    + destruct (k_calloc k site_device); simpl.
      * destruct (k_calloc k site_viddata); simpl.
        -- split; [reflexivity|]. split; [intros H; discriminate H|].
           split; [|intros; reflexivity].
           intros dev Hdev. injection Hdev as <-. split; [reflexivity|].
           split; [simpl; auto|]. split; [simpl; auto|].
           intros held. split; [reflexivity|]. intros m.
           unfold KMSDRM_DeleteDevice. run_create.
           unfold SDL_KMSDRM_UnloadSymbols, emit. simpl. account.
        -- split; [reflexivity|]. split; [intros _ held; account|].
           split; [intros dev H; discriminate H | intros _ _ H; discriminate H].
      * split; [reflexivity|]. split; [intros _ held; reflexivity|].
        split; [intros dev H; discriminate H | intros _ H; discriminate H].
    + split; [reflexivity|]. split; [intros _ held; reflexivity|].
      split; [intros dev H; discriminate H | intros H; discriminate H].
Qed.

(** A requested index from 1 to 99 is taken as it is: KMSDRM_CreateDevice
    opens no device and probes nothing, and, the symbols loading and the two
    allocations succeeding, returns a device carrying that index whether or
    not such a card exists.  A negative index is refused with an error
    message before anything else is done. *)
Theorem CreateDevice_explicit_index (k : kernel) (devindex : Z) (n : ptr) :
  let r := KMSDRM_CreateDevice k devindex n in
  (1 <= devindex <= 99 ->
   opened (calls r) = [] /\
   (forall dev, value r = Some dev -> dev = created_device devindex) /\
   (k_load_symbols k = true -> k_calloc k site_device = true ->
    k_calloc k site_viddata = true -> value r = Some (created_device devindex)))
  /\
  (devindex < 0 ->
   value r = None /\
   calls r = [E_SetError "devindex (%d) must be between 0 and 99."]).
Proof.
  intros r. subst r. unfold KMSDRM_CreateDevice.
  assert (Hc : 1 <= devindex <= 99 \/ devindex < 0 ->
               (devindex =? 0) || (99 <? devindex) = false).
  { intros H. apply orb_false_iff. split; [apply Z.eqb_neq | apply Z.ltb_ge]; lia. }
  split; intros Hi; rewrite Hc by auto; rewrite bind_ret_l;
    destruct (CreateDevice_tail k devindex n) as [Hneg Hpos].
  - destruct (Hpos ltac:(lia)) as (Hop & _ & Hdev & Hok).
    split; [exact Hop|]. split; [|exact Hok].
    intros dev Hv. destruct (Hdev dev Hv) as [Hd _]. exact Hd.
  - apply Hneg, Hi.
Qed.

(** Once the index is settled: whether the creation succeeds, and what a
    failing allocation leaves behind with the symbols loaded. *)
Lemma CreateDevice_tail_failure k (i : Z) n1 :
  let tail := fun devindex : Z =>
    if devindex <? 0 then
      (SDL_SetError "devindex (%d) must be between 0 and 99." ;; ret None)%drv
    else
      (loaded <- SDL_KMSDRM_LoadSymbols k ;;
       if negb loaded then ret None
       else
         device <- SDL_calloc k site_device ;;
         match device with
         | None => SDL_OutOfMemory ;; ret None
         | Some dp =>
             viddata <- SDL_calloc k site_viddata ;;
             match viddata with
             | None => SDL_OutOfMemory ;; SDL_free dp ;; ret None
             | Some _ =>
                 ret (Some (mkDevice (VideoData.mk devindex (-1) None) [] false))
             end
         end)%drv in
  let r := tail i n1 in
  0 <= i ->
  value r =
    (if k_load_symbols k && k_calloc k site_device && k_calloc k site_viddata
     then Some (created_device i) else None) /\
  (k_load_symbols k = true ->
   k_calloc k site_device = false \/ k_calloc k site_viddata = false ->
   forall held, holding (calls r) held = Some (O_symbols :: held)).
Proof.
  intros tail r. subst r tail. cbv beta. intros Hi.
  apply Z.ltb_ge in Hi. rewrite Hi. run_create.
  destruct (k_load_symbols k); simpl.
  - destruct (k_calloc k site_device); simpl.
    + destruct (k_calloc k site_viddata); simpl.
      * split; [reflexivity|]. intros _ [H|H]; discriminate H.
      * split; [reflexivity|]. intros _ _ held. account.
    + split; [reflexivity|]. intros _ _ held. reflexivity.
  - split; [reflexivity|]. intros H; discriminate H.
Qed.

(** KMSDRM_CreateDevice followed by KMSDRM_DeleteDevice gives everything
    back: a device that was created holds its two blocks and one load of the
    DRM symbols, and deleting it, with the blocks it was allocated in, frees
    both and unloads the symbols.  The creation fails exactly when the
    settled index is negative, the symbols do not load or one of the two
    allocations fails.  A creation that fails leaves no block allocated.  It
    leaves the symbols loaded exactly when it fails after loading them: with
    a settled index that is not negative and the symbols loading, a failure
    of either allocation makes the creation return NULL with the symbols
    still loaded. *)
Theorem CreateDevice_DeleteDevice (k : kernel) (devindex : Z) (n : ptr) :
  let r := KMSDRM_CreateDevice k devindex n in
  let index :=
    if (devindex =? 0) || (99 <? devindex) then value (get_driindex k n)
    else devindex in
  (forall dev, value r = Some dev ->
   exists dp vp,
     In (E_calloc site_device (Some dp)) (calls r) /\
     In (E_calloc site_viddata (Some vp)) (calls r) /\
     holding (calls r) [] = Some [O_mem vp; O_mem dp; O_symbols] /\
     forall m,
       holding (calls r ++ calls (KMSDRM_DeleteDevice dp (Some vp) m)) [] = Some [])
  /\
  (value r = None <->
   index < 0 \/ k_load_symbols k = false \/
   k_calloc k site_device = false \/ k_calloc k site_viddata = false)
  /\
  (value r = None ->
   holding (calls r) [] =
   Some (if (0 <=? index) && k_load_symbols k then [O_symbols] else []))
  /\
  (0 <= index -> k_load_symbols k = true ->
   k_calloc k site_device = false \/ k_calloc k site_viddata = false ->
   value r = None /\ holding (calls r) [] = Some [O_symbols]).
Proof.
  intros r index. subst r. unfold KMSDRM_CreateDevice.
  rewrite value_bind, calls_bind.
  set (s := (if (devindex =? 0) || (99 <? devindex) then get_driindex k else ret devindex) n).
  assert (Hs : forall held, holding (calls s) held = Some held).
  { intros held. subst s. destruct ((devindex =? 0) || (99 <? devindex));
      [apply get_driindex_holding | reflexivity]. }
  assert (Hindex : value s = index).
  { subst s index. destruct ((devindex =? 0) || (99 <? devindex)); reflexivity. }
  clearbody index.
  destruct (CreateDevice_tail k (value s) (supply s)) as [Hneg Hpos].
  pose proof (CreateDevice_tail_failure k (value s) (supply s)) as Hfail.
  cbv zeta beta in Hneg, Hpos, Hfail. rewrite <- Hindex.
  destruct (Z.lt_ge_cases (value s) 0) as [Hi|Hi].
  - destruct (Hneg Hi) as [Hv Ht]. rewrite Hv, Ht.
    split; [intros dev H; discriminate H|]. split; [|split].
    + split; [intros _; left; exact Hi | reflexivity].
    + intros _. rewrite holding_app, Hs.
      replace (0 <=? value s) with false by (symmetry; apply Z.leb_gt; exact Hi).
      reflexivity.
    + intros H. lia.
  - destruct (Hpos Hi) as (_ & Hnone & Hdev & _).
    destruct (Hfail Hi) as [Hval Hleft]. clear Hneg Hpos Hfail.
    split; [|split; [|split]].
    + intros dev Hv. destruct (Hdev dev Hv) as (_ & Hd & Hvp & Hh).
      exists (supply s), (S (supply s)).
      split; [apply in_or_app; right; exact Hd|].
      split; [apply in_or_app; right; exact Hvp|].
      split.
      * rewrite holding_app, Hs. apply Hh.
      * intros m. rewrite <- app_assoc, holding_app, Hs. apply Hh.
    + rewrite Hval.
      destruct (k_load_symbols k), (k_calloc k site_device), (k_calloc k site_viddata);
        simpl; split; intros H; try discriminate H; try reflexivity; auto;
        destruct H as [H | [H | [H | H]]]; try discriminate H; lia.
    + intros Hv. specialize (Hnone Hv).
      rewrite holding_app, Hs, Hnone.
      replace (0 <=? value s) with true by (symmetry; apply Z.leb_le; exact Hi).
      destruct (k_load_symbols k); reflexivity.
    + intros _ Hsym Halloc. split.
      * rewrite Hval, Hsym.
        destruct Halloc as [-> | ->]; [reflexivity|].
        destruct (k_calloc k site_device); reflexivity.
      * rewrite holding_app, Hs. apply (Hleft Hsym Halloc).
Qed.

(** ** Display negotiation *)

Ltac only_init :=
  repeat first
    [ only_step
    | apply only_emit; simpl; apply Z.eqb_refl ].

Lemma only_connector_loop P k fd ids :
  forall i cid, only (is_init_call P) (connector_loop k fd ids i cid).
Proof.
  induction ids as [|id ids IH]; intros i cid; simpl; [apply only_ret|].
  unfold KMSDRM_drmModeGetConnector, KMSDRM_drmModeFreeConnector, SDL_LogDebug.
  apply only_bind; [apply only_query; intros; reflexivity|].
  intros [[cp c]|]; [|apply IH].
  destruct (is_connected (Connector.connection c) && (0 <? Connector.count_modes c)).
  - only_run.
  - apply only_bind; [apply only_emit; reflexivity | intros; apply IH].
Qed.

Lemma only_encoder_loop P k fd c ids :
  forall i, only (is_init_call P) (encoder_loop k fd c ids i).
Proof.
  induction ids as [|id ids IH]; intros i; simpl; [apply only_ret|].
  unfold KMSDRM_drmModeGetEncoder, KMSDRM_drmModeFreeEncoder, SDL_LogDebug.
  apply only_bind; [apply only_query; intros; reflexivity|].
  intros [[ep e]|]; [|apply IH].
  destruct (encoder_matches c e).
  - only_run.
  - apply only_bind; [apply only_emit; reflexivity | intros; apply IH].
Qed.

Lemma only_crtc_loop P k fd e ids :
  forall i, only (is_init_call P) (crtc_loop k fd e ids i).
Proof.
  induction ids as [|id ids IH]; intros i; simpl; [apply only_ret|].
  destruct (negb (Z.land (Encoder.possible_crtcs e) (Z.shiftl 1 i) =? 0)); [|apply IH].
  unfold KMSDRM_drmModeGetCrtc, SDL_LogDebug. only_run.
Qed.

Lemma only_VideoInit_cleanup P this v dp dd res conn enc r :
  only (is_init_call P) (VideoInit_cleanup this v dp dd res conn enc r).
Proof.
  unfold VideoInit_cleanup, free_if, KMSDRM_drmModeFreeEncoder,
    KMSDRM_drmModeFreeConnector, KMSDRM_drmModeFreeResources, KMSDRM_drmModeFreeCrtc,
    KMSDRM_gbm_device_destroy, close, SDL_free.
  only_run.
Qed.

Lemma only_VideoInit_crtc P k this v dp dd rp res cp c ep e :
  only (is_init_call P) (VideoInit_crtc k this v dp dd rp res cp c ep e).
Proof.
  unfold VideoInit_crtc.
  apply only_bind; [unfold KMSDRM_drmModeGetCrtc; only_run|]. intros saved.
  apply only_bind.
  { destruct saved; [apply only_ret | apply only_crtc_loop]. }
  intros es. destruct (snd es) as [[sp crtc]|].
  - unfold SDL_LogDebug, SDL_AddVideoDisplay. only_run.
  - apply only_bind; [unfold SDL_SetError; only_run|].
    intros r. apply only_VideoInit_cleanup.
Qed.

Lemma only_VideoInit k this :
  only (is_init_call (VideoData.devindex (driverdata this))) (KMSDRM_VideoInit k this).
Proof.
  unfold KMSDRM_VideoInit.
  unfold SDL_calloc, SDL_OutOfMemory, SDL_SetError, SDL_LogDebug, SDL_free, open,
    KMSDRM_gbm_create_device, KMSDRM_drmModeGetResources.
  repeat first
    [ apply only_VideoInit_cleanup
    | apply only_VideoInit_crtc
    | apply only_connector_loop
    | apply only_encoder_loop
    | only_step
    | apply only_emit; simpl; apply Z.eqb_refl ].
Qed.

Lemma forallb_filter_nil {A} (P Q : A -> bool) (l : list A) :
  forallb P l = true -> (forall x, P x = true -> Q x = false) ->
  List.filter Q l = [].
Proof.
  intros Hl HPQ. induction l as [|x l IH]; [reflexivity|].
  simpl in Hl. apply andb_prop in Hl as [Hx Hl].
  simpl. rewrite (HPQ x Hx). apply IH, Hl.
Qed.

Lemma opened_in i t : In i (opened t) -> exists fd, In (E_open i fd) t.
Proof.
  intros H. apply list_elem_of_In in H. unfold opened in H.
  apply list_elem_of_omap in H as (c & Hc & Hf).
  destruct c; try discriminate Hf. injection Hf as ->.
  eexists. apply list_elem_of_In. exact Hc.
Qed.

(** Negotiation reads and never writes the display pipeline: in every run
    of KMSDRM_VideoInit on a device whose index is from 0 to 99 (the indices
    whose device path fits the 16 bytes of devname), whatever else the
    device state is, each call is an allocation, a message, an open or
    close, a gbm device call, a libdrm query or its release, the display
    registration or the input set-up.  No CRTC is set, no framebuffer added
    or removed, nothing polled; and the only device it opens is the one of
    the device's own index. *)
Theorem VideoInit_read_only (k : kernel) (this : SDL_VideoDevice) (n : ptr)
    (Hindex : 0 <= VideoData.devindex (driverdata this) <= 99) :
  let r := KMSDRM_VideoInit k this n in
  forallb (is_init_call (VideoData.devindex (driverdata this))) (calls r) = true /\
  List.filter is_SetCrtc (calls r) = [] /\
  List.filter is_AddFB (calls r) = [] /\
  List.filter is_poll (calls r) = [] /\
  (forall i, In i (opened (calls r)) -> i = VideoData.devindex (driverdata this)).
Proof.
  intros r. subst r. pose proof (only_VideoInit k this n) as H.
  split; [exact H|].
  split; [apply (forallb_filter_nil _ _ _ H); intros []; simpl; congruence|].
  split; [apply (forallb_filter_nil _ _ _ H); intros []; simpl; congruence|].
  split; [apply (forallb_filter_nil _ _ _ H); intros []; simpl; congruence|].
  intros i Hi. apply opened_in in Hi as [fd Hfd].
  rewrite forallb_forall in H. specialize (H _ Hfd). simpl in H.
  apply Z.eqb_eq, H.
Qed.

(** On the example machine, negotiation on card1 opens index 1 and nothing
    else. *)
Lemma VideoInit_read_only_witness :
  0 <= VideoData.devindex (driverdata (created_device 1)) <= 99 /\
  opened (calls (KMSDRM_VideoInit demo (created_device 1) 0%nat)) = [1] /\
  forall i, In i (opened (calls (KMSDRM_VideoInit demo (created_device 1) 0%nat))) ->
            i = 1.
Proof.
  split; [simpl; lia|]. split; [vm_compute; reflexivity|].
  refine (proj2 (proj2 (proj2 (proj2
            (VideoInit_read_only demo (created_device 1) 0%nat _))))).
  simpl; lia.
Defined.

(** KMSDRM_VideoInit, on a device not yet initialised, returns 0 or -1; it
    returns -1 exactly when the negotiation fails, having then set exactly
    one error message, the one of the step that failed, and it sets none when
    it returns 0. *)
Theorem VideoInit_reports_one_error (k : kernel) (this : SDL_VideoDevice) (n : ptr)
    (Hfd : VideoData.drm_fd (driverdata this) = -1)
    (Hgbm : VideoData.gbm (driverdata this) = None) :
  let r := KMSDRM_VideoInit k this n in
  let devindex := VideoData.devindex (driverdata this) in
  (fst (value r) = 0 /\ errors (calls r) = [] /\
   exists fd c e id crtc, negotiate k devindex = Negotiated fd c e id crtc)
  \/
  (fst (value r) = -1 /\
   exists msg, errors (calls r) = [msg] /\ negotiate k devindex = Failed msg /\
     (msg = "Out of memory"%string <->
      k_calloc k site_dispdata = false \/ k_calloc k site_devname = false)).
Proof.
  intros r devindex. subst r devindex.
  destruct (VideoInit_negotiate k this n Hfd Hgbm) as (r & t & n' & E & H).
  rewrite E. unfold value, calls; simpl.
  destruct (negotiate k (VideoData.devindex (driverdata this)))
    as [fd c e id crtc | msg] eqn:Hn.
  - left. destruct H as (dp & g & rp & cp & ep & sp & -> & Herr & _).
    split; [reflexivity|]. split; [assumption|]. eauto 10.
  - right. destruct H as (-> & Herr & _). split; [reflexivity|].
    exists msg. split; [assumption|]. split; [reflexivity|].
    unfold negotiate in Hn.
    destruct (k_calloc k site_dispdata); simpl in Hn;
      [|injection Hn as <-; split; auto].
    destruct (k_calloc k site_devname); simpl in Hn;
      [|injection Hn as <-; split; auto].
    split; [|intros [H|H]; discriminate H].
    intros ->. exfalso.
    destruct (k_card k (VideoData.devindex (driverdata this))); [|discriminate Hn].
    destruct (k_gbm_create_device k (Z.of_N n0)); simpl in Hn; [|discriminate Hn].
    destruct (k_GetResources k (Z.of_N n0)) as [res|]; [|discriminate Hn].
    destruct (select_connector k (Z.of_N n0) res) as [c|]; [|discriminate Hn].
    destruct (select_encoder k (Z.of_N n0) res c) as [e|]; [|discriminate Hn].
    destruct (select_crtc k (Z.of_N n0) res e) as [[id crtc]|]; discriminate Hn.
Qed.

Lemma VideoInit_reports_one_error_witness :
  (VideoData.drm_fd (driverdata (created_device 0)) = -1 /\
   VideoData.gbm (driverdata (created_device 0)) = None) /\
  errors (calls (KMSDRM_VideoInit demo (created_device 0) 0%nat))
  = ["No currently active connector found."%string].
Proof.
  split; [split; reflexivity|].
  destruct (VideoInit_reports_one_error demo (created_device 0) 0%nat eq_refl eq_refl)
    as [(H0 & _) | (_ & msg & Herr & Hn & _)].
  - vm_compute in H0. discriminate H0.
  - rewrite Herr. vm_compute in Hn. injection Hn as <-. reflexivity.
Defined.

(** ** Quit *)

(** The run of KMSDRM_VideoQuit on a device with a display, call by call. *)
Lemma VideoQuit_run k v dm cm dp dd ds gl n :
  let fd := VideoData.drm_fd v in
  let conn_id := DisplayData.conn_id dd in
  KMSDRM_VideoQuit k (mkDevice v (mkDisplay dm cm (dp, dd) :: ds) gl) n =
  (Some (mkDevice (VideoData.mk (VideoData.devindex v) (if 0 <=? fd then -1 else fd) None)
                  (mkDisplay dm cm
                     (dp, DisplayData.mk (DisplayData.crtc_id dd) conn_id
                                         (DisplayData.mode dd) None) :: ds)
                  gl),
   E_Log LogDebug "KMSDRM_VideoQuit()" ::
   (if gl then [E_GL_UnloadLibrary] else []) ++
   match DisplayData.saved_crtc dd with
   | Some (sp, crtc) =>
       (if (0 <=? fd) && (0 <? conn_id) then
          let result := k_SetCrtc k fd (Crtc.crtc_id crtc) (Crtc.buffer_id crtc)
                                  (Crtc.x crtc) (Crtc.y crtc) [conn_id] (Crtc.mode crtc) in
          E_SetCrtc fd (Crtc.crtc_id crtc) (Crtc.buffer_id crtc) (Crtc.x crtc)
                    (Crtc.y crtc) [conn_id] (Crtc.mode crtc) result ::
          (if result =? 0 then []
           else [E_Log LogWarn "Could not restore original CRTC mode"])
        else []) ++ [E_FreeCrtc sp]
   | None => []
   end ++
   match VideoData.gbm v with Some g => [E_gbm_device_destroy g] | None => [] end ++
   (if 0 <=? fd then [E_close fd; E_Log LogDebug "Closed DRM FD %d"] else []) ++
   (if k_input_linuxev k then [E_EVDEV_Quit] else []),
   n).
Proof.
  intros fd conn_id. subst fd conn_id. destruct dd as [cid conn md saved]. run_quit.
  destruct gl, saved as [[sp crtc]|], (VideoData.gbm v) as [g|],
    (0 <=? VideoData.drm_fd v), (0 <? conn), (k_input_linuxev k);
    simpl;
    try (destruct (k_SetCrtc k (VideoData.drm_fd v) (Crtc.crtc_id crtc)
                     (Crtc.buffer_id crtc) (Crtc.x crtc) (Crtc.y crtc)
                     [conn] (Crtc.mode crtc) =? 0); simpl);
    reflexivity.
Qed.

(** KMSDRM_VideoQuit gives back exactly what the device holds: the saved
    CRTC if there is one, the allocator if there is one, the descriptor if
    it is open; it leaves the device with no descriptor, no allocator and no
    saved CRTC, sets no error, and touches no display but the first.  Run
    again on the device it left, whatever the kernel then answers, it
    releases nothing, restores nothing and leaves the device as it is. *)
Theorem VideoQuit_releases_once (k : kernel) (this : SDL_VideoDevice) (n : ptr)
    (d0 : SDL_VideoDisplay) (ds : list SDL_VideoDisplay)
    (Hdisplay : displays this = d0 :: ds) :
  let v := driverdata this in
  let dd := snd (display_driverdata d0) in
  let r := KMSDRM_VideoQuit k this n in
  exists this',
    value r = Some this' /\
    driverdata this' =
      VideoData.mk (VideoData.devindex v)
                   (if 0 <=? VideoData.drm_fd v then -1 else VideoData.drm_fd v) None /\
    displays this' =
      mkDisplay (desktop_mode d0) (current_mode d0)
                (fst (display_driverdata d0),
                 DisplayData.mk (DisplayData.crtc_id dd) (DisplayData.conn_id dd)
                                (DisplayData.mode dd) None) :: ds /\
    errors (calls r) = [] /\
    (forall rest,
       holding (calls r)
         (held_of O_crtc (DisplayData.saved_crtc dd) ++
          match VideoData.gbm v with Some g => [O_gbm g] | None => [] end ++
          (if 0 <=? VideoData.drm_fd v then [O_fd (VideoData.drm_fd v)] else []) ++ rest)
       = Some rest) /\
    (forall k' m,
       value (KMSDRM_VideoQuit k' this' m) = Some this' /\
       List.filter is_release (calls (KMSDRM_VideoQuit k' this' m)) = [] /\
       List.filter is_SetCrtc (calls (KMSDRM_VideoQuit k' this' m)) = []).
Proof.
  intros v dd r. subst v dd r.
  destruct this as [v displays gl]. simpl in Hdisplay. subst displays.
  destruct d0 as [dm cm [dp dd]]. simpl.
  pose proof (VideoQuit_run k v dm cm dp dd ds gl n) as E. cbv zeta in E. rewrite E.
  eexists. split; [reflexivity|]. split; [reflexivity|]. split; [reflexivity|].
  unfold value, calls. simpl. split; [|split].
  - destruct gl, (DisplayData.saved_crtc dd) as [[sp crtc]|], (VideoData.gbm v) as [g|],
      (0 <=? VideoData.drm_fd v), (0 <? DisplayData.conn_id dd), (k_input_linuxev k);
      simpl;
      try (destruct (k_SetCrtc k (VideoData.drm_fd v) (Crtc.crtc_id crtc)
                       (Crtc.buffer_id crtc) (Crtc.x crtc) (Crtc.y crtc)
                       [DisplayData.conn_id dd] (Crtc.mode crtc) =? 0); simpl);
      reflexivity.
  - intros rest.
    destruct gl, (DisplayData.saved_crtc dd) as [[sp crtc]|], (VideoData.gbm v) as [g|],
      (0 <=? VideoData.drm_fd v), (0 <? DisplayData.conn_id dd), (k_input_linuxev k);
      simpl;
      try (destruct (k_SetCrtc k (VideoData.drm_fd v) (Crtc.crtc_id crtc)
                       (Crtc.buffer_id crtc) (Crtc.x crtc) (Crtc.y crtc)
                       [DisplayData.conn_id dd] (Crtc.mode crtc) =? 0); simpl);
      account.
  - intros k' m.
    match goal with
    | |- context [KMSDRM_VideoQuit k' (mkDevice ?v' (mkDisplay _ _ (_, ?dd') :: _) _) m] =>
        pose proof (VideoQuit_run k' v' dm cm dp dd' ds gl m) as E'
    end.
    cbv zeta in E'. simpl in E'. rewrite E'. unfold value, calls. simpl.
    assert (Hneg : (0 <=? (if 0 <=? VideoData.drm_fd v then -1 else VideoData.drm_fd v))
                   = false).
    { destruct (0 <=? VideoData.drm_fd v) eqn:Hfd; [reflexivity | exact Hfd]. }
    rewrite Hneg. simpl.
    split; [|destruct gl, (k_input_linuxev k'); split; reflexivity].
    destruct (0 <=? VideoData.drm_fd v); reflexivity.
Qed.

Lemma VideoQuit_releases_once_witness :
  (exists d0 ds, displays demo_device = d0 :: ds) /\
  exists this',
    value (KMSDRM_VideoQuit demo demo_device 8%nat) = Some this' /\
    driverdata this' = VideoData.mk 1 (-1) None.
Proof.
  split; [eexists _, _; vm_compute; reflexivity|].
  assert (Hd : displays demo_device =
               negotiated_display 0%nat 7%nat
                 (Connector.mk 32 7 DRM_MODE_CONNECTED
                    [mode_1080p; mode_720p; mode_480p] [5; 7])
                 41 (Crtc.mk 41 77 0 0 1280 720 1 mode_720p) :: [])
    by (vm_compute; reflexivity).
  destruct (VideoQuit_releases_once demo demo_device 8%nat _ _ Hd)
    as (this' & Hv & Hdrv & _).
  exists this'. split; [exact Hv|]. rewrite Hdrv. vm_compute. reflexivity.
Defined.

(** Init then quit: after a successful KMSDRM_VideoInit on a freshly
    created device, KMSDRM_VideoQuit restores the CRTC with exactly the
    configuration the kernel reported for it during negotiation, on the
    connector selected then (if its id is not 0), and leaves the device's
    driver data as it was before the init.  Of everything the two calls
    obtained, what is still held afterwards is the display data block and
    the resource list, connector and encoder that the init never released. *)
Theorem VideoInit_then_VideoQuit (k k' : kernel) (this : SDL_VideoDevice) (n : ptr)
    (Hfd : VideoData.drm_fd (driverdata this) = -1)
    (Hgbm : VideoData.gbm (driverdata this) = None)
    (Hdisplays : displays this = [])
    (Hok : fst (value (KMSDRM_VideoInit k this n)) = 0) :
  let init := KMSDRM_VideoInit k this n in
  let quit := KMSDRM_VideoQuit k' (snd (value init)) (supply init) in
  exists fd c e id crtc dp rp cp ep this',
    negotiate k (VideoData.devindex (driverdata this)) = Negotiated fd c e id crtc /\
    List.filter is_SetCrtc (calls quit) =
      (if 0 <? Connector.connector_id c then
         [E_SetCrtc fd (Crtc.crtc_id crtc) (Crtc.buffer_id crtc) (Crtc.x crtc)
                    (Crtc.y crtc) [Connector.connector_id c] (Crtc.mode crtc)
                    (k_SetCrtc k' fd (Crtc.crtc_id crtc) (Crtc.buffer_id crtc)
                               (Crtc.x crtc) (Crtc.y crtc) [Connector.connector_id c]
                               (Crtc.mode crtc))]
       else []) /\
    value quit = Some this' /\
    driverdata this' = driverdata this /\
    holding (calls init ++ calls quit) [] =
      Some [O_encoder ep; O_connector cp; O_resources rp; O_mem dp].
Proof.
  intros init quit. subst init quit. revert Hok.
  destruct (VideoInit_negotiate k this n Hfd Hgbm) as (r & t & n' & E & H).
  rewrite E. unfold value at 1 2, supply, calls at 2. simpl.
  destruct (negotiate k (VideoData.devindex (driverdata this)))
    as [fd c e id crtc | msg] eqn:Hn.
  2:{ destruct H as (-> & _). simpl. intros H; discriminate H. }
  destruct H as (dp & g & rp & cp & ep & sp & -> & _ & Hh). simpl. intros _.
  destruct (negotiate_inv _ _ _ _ _ _ _ Hn) as (fd0 & res & _ & -> & _).
  destruct this as [[di fd1 g1] ds gl]. simpl in *. subst fd1 g1 ds. simpl.
  unfold negotiated_display.
  pose proof (VideoQuit_run k' (VideoData.mk di (Z.of_N fd0) (Some g))
                (mkDisplayMode SDL_PIXELFORMAT_ARGB8888 (hdisplay (resolve_mode c crtc))
                   (vdisplay (resolve_mode c crtc)) (vrefresh (resolve_mode c crtc)))
                (mkDisplayMode SDL_PIXELFORMAT_ARGB8888 (hdisplay (resolve_mode c crtc))
                   (vdisplay (resolve_mode c crtc)) (vrefresh (resolve_mode c crtc)))
                dp (DisplayData.mk id (Connector.connector_id c) (resolve_mode c crtc)
                                   (Some (sp, crtc)))
                [] gl n') as Eq.
  cbv zeta in Eq. simpl in Eq. rewrite N2Z_nonneg in Eq. simpl in Eq. rewrite Eq.
  unfold value, calls. simpl.
  exists (Z.of_N fd0), c, e, id, crtc, dp, rp, cp, ep. eexists.
  split; [reflexivity|]. split; [|split; [reflexivity|split; [reflexivity|]]].
  - destruct gl, (0 <? Connector.connector_id c), (k_input_linuxev k'); simpl;
      try (destruct (k_SetCrtc k' (Z.of_N fd0) (Crtc.crtc_id crtc) (Crtc.buffer_id crtc)
                       (Crtc.x crtc) (Crtc.y crtc) [Connector.connector_id c]
                       (Crtc.mode crtc) =? 0); simpl);
      reflexivity.
  - rewrite holding_app, Hh.
    destruct gl, (0 <? Connector.connector_id c), (k_input_linuxev k'); simpl;
      try (destruct (k_SetCrtc k' (Z.of_N fd0) (Crtc.crtc_id crtc) (Crtc.buffer_id crtc)
                       (Crtc.x crtc) (Crtc.y crtc) [Connector.connector_id c]
                       (Crtc.mode crtc) =? 0); simpl);
      account.
Qed.

Lemma VideoInit_then_VideoQuit_witness :
  (VideoData.drm_fd (driverdata (created_device 1)) = -1 /\
   VideoData.gbm (driverdata (created_device 1)) = None /\
   displays (created_device 1) = [] /\
   fst (value (KMSDRM_VideoInit demo (created_device 1) 0%nat)) = 0) /\
  exists this',
    value (KMSDRM_VideoQuit demo_no_restore
             (snd (value (KMSDRM_VideoInit demo (created_device 1) 0%nat)))
             (supply (KMSDRM_VideoInit demo (created_device 1) 0%nat))) = Some this' /\
    driverdata this' = driverdata (created_device 1).
Proof.
  split; [repeat split; vm_compute; reflexivity|].
  destruct (VideoInit_then_VideoQuit demo demo_no_restore (created_device 1) 0%nat
              eq_refl eq_refl eq_refl)
    as (fd & c & e & id & crtc & dp & rp & cp & ep & this' & _ & _ & Hv & Hd & _);
    [vm_compute; reflexivity|].
  exists this'. split; assumption.
Defined.

(** ** Framebuffers *)

(** The run of KMSDRM_FBFromBO on a buffer that carries no metadata. *)
Lemma FBFromBO_new k this bo (ud : user_data) n :
  ud !! bo = None ->
  let fd := VideoData.drm_fd (driverdata this) in
  let r := k_AddFB k fd (k_bo_width k bo) (k_bo_height k bo) 24 32
                   (k_bo_stride k bo) (k_bo_handle k bo) in
  let added := E_AddFB fd (k_bo_width k bo) (k_bo_height k bo) 24 32
                       (k_bo_stride k bo) (k_bo_handle k bo) (fst r) (snd r) in
  KMSDRM_FBFromBO k this bo ud n =
  if k_calloc k site_fb_info then
    if fst r =? 0 then
      (Some (n, FBInfo.mk fd (snd r)), <[bo := (n, FBInfo.mk fd (snd r))]> ud,
       [E_calloc site_fb_info (Some n); added;
        E_Log LogDebug "New DRM FB (%u): %ux%u, stride %u from BO %p";
        E_bo_set_user_data bo], S n)
    else (None, ud, [E_calloc site_fb_info (Some n); added; E_free n], S n)
  else (None, ud, [E_calloc site_fb_info None; E_SetError "Out of memory"], n).
Proof.
  intros Hud. run_fb. rewrite Hud.
  destruct (k_calloc k site_fb_info); simpl; [|reflexivity].
  destruct (k_AddFB k (VideoData.drm_fd (driverdata this)) (k_bo_width k bo)
              (k_bo_height k bo) 24 32 (k_bo_stride k bo) (k_bo_handle k bo))
    as [ret_ fb_id]; simpl.
  destruct (ret_ =? 0); reflexivity.
Qed.

(** Failure of KMSDRM_FBFromBO: when it returns NULL, the buffers' user
    data is as before, nothing was attached, and the block it may have
    allocated has been freed.  An error message is set only when the
    allocation failed; a refusal of drmModeAddFB is returned as NULL with no
    message of its own. *)
Theorem FBFromBO_failure (k : kernel) (this : SDL_VideoDevice) (bo : ptr)
    (ud : user_data) (n : ptr)
    (Hnull : fst (value (KMSDRM_FBFromBO k this bo ud n)) = None) :
  let r := KMSDRM_FBFromBO k this bo ud n in
  ud !! bo = None /\
  snd (value r) = ud /\
  existsb is_set_user_data (calls r) = false /\
  holding (calls r) [] = Some [] /\
  errors (calls r) = (if k_calloc k site_fb_info then [] else ["Out of memory"]) /\
  existsb is_AddFB (calls r) = k_calloc k site_fb_info.
Proof.
  intros r. subst r. revert Hnull.
  destruct (ud !! bo) as [fb|] eqn:Hud.
  { rewrite (FBFromBO_existing _ _ _ _ _ _ Hud). intros H; discriminate H. }
  rewrite (FBFromBO_new k this bo ud n Hud).
  destruct (k_calloc k site_fb_info).
  - destruct (fst (k_AddFB _ _ _ _ _ _ _ _) =? 0); [intros H; discriminate H|].
    intros _. unfold value, calls. simpl. repeat split; account.
  - intros _. unfold value, calls. simpl. repeat split; reflexivity.
Qed.

Lemma FBFromBO_failure_witness :
  fst (value (KMSDRM_FBFromBO demo_no_fb demo_device 7%nat ∅ 0%nat)) = None /\
  errors (calls (KMSDRM_FBFromBO demo_no_fb demo_device 7%nat ∅ 0%nat)) =
  (if k_calloc demo_no_fb site_fb_info then [] else ["Out of memory"]).
Proof.
  split; [vm_compute; reflexivity|].
  apply (FBFromBO_failure demo_no_fb demo_device 7%nat ∅ 0%nat).
  vm_compute; reflexivity.
Defined.

(** KMSDRM_FBFromBO changes the user data of no buffer but the one it is
    called on. *)
Theorem FBFromBO_other_buffers (k : kernel) (this : SDL_VideoDevice) (bo bo' : ptr)
    (ud : user_data) (n : ptr)
    (Hother : bo' <> bo) :
  snd (value (KMSDRM_FBFromBO k this bo ud n)) !! bo' = ud !! bo'.
Proof.
  destruct (FBFromBO_cases k this bo ud n)
    as [(_ & -> & _) | (_ & _ & _ & fb & _ & ->)]; [reflexivity|].
  apply lookup_insert_ne. congruence.
Qed.

Lemma FBFromBO_other_buffers_witness :
  (8%nat <> 7%nat) /\
  snd (value (KMSDRM_FBFromBO demo demo_device 7%nat ∅ 0%nat)) !! 8%nat
  = (∅ : user_data) !! 8%nat.
Proof.
  split; [discriminate|].
  apply (FBFromBO_other_buffers demo demo_device 7%nat 8%nat ∅ 0%nat). discriminate.
Defined.

(** Create then destroy: when KMSDRM_FBFromBO creates a framebuffer for a
    buffer and libgbm later runs the destroy callback on what was attached,
    the framebuffer calls of the two are drmModeAddFB with the buffer's
    width, height, stride and handle at depth 24 and 32 bits per pixel, and
    then drmModeRmFB on the device's descriptor with the id that
    drmModeAddFB returned.  The removal is left out when the descriptor is
    negative or that id is 0.  The metadata block is freed either way:
    nothing stays allocated. *)
Theorem FBFromBO_FBDestroyCallback (k : kernel) (this : SDL_VideoDevice) (bo : ptr)
    (ud : user_data) (n : ptr)
    (Hnew : ud !! bo = None)
    (Hok : fst (value (KMSDRM_FBFromBO k this bo ud n)) <> None) :
  let created := KMSDRM_FBFromBO k this bo ud n in
  let destroyed :=
    KMSDRM_FBDestroyCallback (snd (value created) !! bo) (supply created) in
  let fd := VideoData.drm_fd (driverdata this) in
  let id := snd (k_AddFB k fd (k_bo_width k bo) (k_bo_height k bo) 24 32
                         (k_bo_stride k bo) (k_bo_handle k bo)) in
  snd (value created) !! bo = fst (value created) /\
  List.filter is_fb_call (calls created ++ calls destroyed) =
    E_AddFB fd (k_bo_width k bo) (k_bo_height k bo) 24 32
            (k_bo_stride k bo) (k_bo_handle k bo) 0 id ::
    (if (0 <=? fd) && negb (id =? 0) then [E_RmFB fd id] else []) /\
  holding (calls created ++ calls destroyed) [] = Some [].
Proof.
  intros created destroyed fd id. subst created destroyed. revert Hok.
  rewrite (FBFromBO_new k this bo ud n Hnew). fold fd.
  destruct (k_calloc k site_fb_info); [|intros H; exfalso; apply H; reflexivity].
  fold id.
  destruct (fst (k_AddFB k fd (k_bo_width k bo) (k_bo_height k bo) 24 32
                         (k_bo_stride k bo) (k_bo_handle k bo)) =? 0) eqn:Hret;
    [|intros H; exfalso; apply H; reflexivity].
  intros _. apply Z.eqb_eq in Hret. rewrite Hret.
  unfold value, calls, supply. simpl. rewrite lookup_insert_eq.
  split; [reflexivity|].
  unfold KMSDRM_FBDestroyCallback, SDL_LogDebug, SDL_free, bind, emit, ret. simpl.
  destruct ((0 <=? fd) && negb (id =? 0)); simpl; split; account.
Qed.

Lemma FBFromBO_FBDestroyCallback_witness :
  ((∅ : user_data) !! 7%nat = None /\
   fst (value (KMSDRM_FBFromBO demo demo_device 7%nat ∅ 0%nat)) <> None) /\
  holding (calls (KMSDRM_FBFromBO demo demo_device 7%nat ∅ 0%nat) ++
           calls (KMSDRM_FBDestroyCallback
                    (snd (value (KMSDRM_FBFromBO demo demo_device 7%nat ∅ 0%nat)) !! 7%nat)
                    (supply (KMSDRM_FBFromBO demo demo_device 7%nat ∅ 0%nat)))) []
  = Some [].
Proof.
  split; [split; [reflexivity|vm_compute; discriminate]|].
  apply (FBFromBO_FBDestroyCallback demo demo_device 7%nat ∅ 0%nat);
    [reflexivity|vm_compute; discriminate].
Defined.

(** ** Waiting for a page flip *)

Lemma clear_waiting_for_flip_idem wd :
  clear_waiting_for_flip (clear_waiting_for_flip wd) = clear_waiting_for_flip wd.
Proof. reflexivity. Qed.

Lemma clear_not_pending (wd : WindowData.t) :
  WindowData.waiting_for_flip wd = false -> clear_waiting_for_flip wd = wd.
Proof. destruct wd; simpl; intros ->; reflexivity. Qed.

(** A wake-up that keeps the wait going leaves the window as it is. *)
Lemma keeps_waiting_lookup w p (ws : windows) :
  keeps_waiting w p = true ->
  drmHandleEvent flip_context (poll_pending p) ws !! w = ws !! w.
Proof.
  unfold keeps_waiting. intros H. apply andb_prop in H as [_ H].
  rewrite drmHandleEvent_lookup.
  destruct (existsb (completes w) (poll_pending p)); [discriminate|reflexivity].
Qed.

Lemma dispatch_all_keeps w pre : forall (ws : windows),
  forallb (keeps_waiting w) pre = true ->
  dispatch_all pre ws !! w = ws !! w.
Proof.
  induction pre as [|q pre IH]; intros ws H; [reflexivity|].
  simpl in H. apply andb_prop in H as [Hq H]. unfold dispatch_all in *. simpl.
  rewrite IH by assumption. apply keeps_waiting_lookup, Hq.
Qed.

(** The wait runs through the wake-ups that keep it going. *)
Lemma WaitPageFlip_prefix this w timeout pre : forall (ws : windows) wd rest,
  ws !! w = Some wd -> WindowData.waiting_for_flip wd = true ->
  forallb (keeps_waiting w) pre = true ->
  let fd := VideoData.drm_fd (driverdata this) in
  KMSDRM_WaitPageFlip this w timeout (pre ++ rest) ws =
  match KMSDRM_WaitPageFlip this w timeout rest (dispatch_all pre ws) with
  | Some (b, t, s, ws') => Some (b, flat_map (dispatched fd timeout) pre ++ t, s, ws')
  | None => None
  end.
Proof.
  induction pre as [|q pre IH]; intros ws wd rest Hw Hf Hpre fd.
  - simpl. destruct (KMSDRM_WaitPageFlip this w timeout rest ws) as [[[[b t] s] ws']|];
      reflexivity.
  - simpl in Hpre. apply andb_prop in Hpre as [Hq Hpre].
    pose proof Hq as Hq'. unfold keeps_waiting in Hq'. apply andb_prop in Hq' as [Hr _].
    change ((q :: pre) ++ rest) with (q :: pre ++ rest).
    rewrite (WaitPageFlip_step _ _ _ _ _ _ _ Hw Hf), Hr.
    assert (Hw1 : drmHandleEvent flip_context (poll_pending q) ws !! w = Some wd)
      by (rewrite keeps_waiting_lookup; assumption).
    rewrite (IH _ _ rest Hw1 Hf Hpre).
    change (dispatch_all (q :: pre) ws)
      with (dispatch_all pre (drmHandleEvent flip_context (poll_pending q) ws)).
    destruct (KMSDRM_WaitPageFlip this w timeout rest
                (dispatch_all pre (drmHandleEvent flip_context (poll_pending q) ws)))
      as [[[[b t] s] ws']|]; reflexivity.
Qed.

(** When the wait has not returned: KMSDRM_WaitPageFlip is still blocked in
    poll after the given wake-ups exactly when the window has a flip pending
    and every one of them was readable, without error or hangup, and
    carried no completion of this window's flip.  (Or when windata is not an
    allocated SDL_WindowData, for which the model gives no run.) *)
Theorem WaitPageFlip_blocked (this : SDL_VideoDevice) (w : ptr) (timeout : Z)
    (script : list poll_result) (ws : windows) :
  KMSDRM_WaitPageFlip this w timeout script ws = None <->
  match ws !! w with
  | None => True
  | Some wd =>
      WindowData.waiting_for_flip wd = true /\
      forallb (keeps_waiting w) script = true
  end.
Proof.
  revert ws. induction script as [|p script IH]; intros ws.
  - simpl. destruct (ws !! w) as [wd|]; [|tauto].
    destruct (WindowData.waiting_for_flip wd); simpl; split; intros H;
      try discriminate; try tauto. destruct H; discriminate.
  - destruct (ws !! w) as [wd|] eqn:Hw.
    2:{ simpl. rewrite Hw. tauto. }
    destruct (WindowData.waiting_for_flip wd) eqn:Hf.
    2:{ rewrite (WaitPageFlip_idle _ _ _ _ _ _ Hw Hf).
        split; [discriminate|intros [H _]; discriminate]. }
    rewrite (WaitPageFlip_step _ _ _ _ _ _ _ Hw Hf). simpl.
    unfold keeps_waiting at 1.
    destruct (poll_readable p) eqn:Hr; simpl.
    2:{ split; [discriminate|intros [_ H]; discriminate]. }
    pose proof (drmHandleEvent_lookup (poll_pending p) ws w) as Hl.
    rewrite Hw in Hl. simpl in Hl.
    destruct (existsb (completes w) (poll_pending p)) eqn:Hdone; simpl.
    + rewrite (WaitPageFlip_idle _ _ _ _ _ _ Hl eq_refl). simpl.
      split; [discriminate|intros [_ H]; discriminate].
    + specialize (IH (drmHandleEvent flip_context (poll_pending p) ws)).
      rewrite Hl, Hf in IH.
      destruct (KMSDRM_WaitPageFlip this w timeout script
                  (drmHandleEvent flip_context (poll_pending p) ws))
        as [[[[b t] s] ws']|]; simpl.
      * split; [discriminate|]. intros H. apply IH in H. discriminate.
      * split; [|reflexivity]. intros _.  split; [reflexivity|]. apply IH. reflexivity.
Qed.

(** The flip completes: with a flip pending, after any number of wake-ups
    that were dispatched without the completion of this window's flip, a
    dispatched wake-up that carries it makes KMSDRM_WaitPageFlip return
    SDL_TRUE.  It polled once and called drmHandleEvent once per wake-up,
    made no other call, consumed no later wake-up, and the window's flag is
    cleared with nothing else about the window changed. *)
Theorem WaitPageFlip_completes (this : SDL_VideoDevice) (w : ptr) (timeout : Z)
    (pre : list poll_result) (p : poll_result) (rest : list poll_result)
    (ws : windows) (wd : WindowData.t)
    (Hw : ws !! w = Some wd)
    (Hpending : WindowData.waiting_for_flip wd = true)
    (Hpre : forallb (keeps_waiting w) pre = true)
    (Hreadable : poll_readable p = true)
    (Hdone : existsb (completes w) (poll_pending p) = true) :
  let fd := VideoData.drm_fd (driverdata this) in
  KMSDRM_WaitPageFlip this w timeout (pre ++ p :: rest) ws =
    Some (true, flat_map (dispatched fd timeout) (pre ++ [p]), rest,
          dispatch_all (pre ++ [p]) ws) /\
  dispatch_all (pre ++ [p]) ws !! w = Some (clear_waiting_for_flip wd).
Proof.
  intros fd.
  assert (Hw1 : dispatch_all pre ws !! w = Some wd)
    by (rewrite dispatch_all_keeps; assumption).
  assert (Hw2 : dispatch_all (pre ++ [p]) ws !! w = Some (clear_waiting_for_flip wd)).
  { unfold dispatch_all in *. rewrite fold_left_app. simpl.
    rewrite drmHandleEvent_lookup, Hdone, Hw1. reflexivity. }
  split; [|exact Hw2].
  rewrite (WaitPageFlip_prefix _ _ _ _ _ _ _ Hw Hpending Hpre).
  rewrite (WaitPageFlip_step _ _ _ _ _ _ _ Hw1 Hpending), Hreadable.
  replace (drmHandleEvent flip_context (poll_pending p) (dispatch_all pre ws))
    with (dispatch_all (pre ++ [p]) ws)
    by (unfold dispatch_all; rewrite fold_left_app; reflexivity).
  rewrite (WaitPageFlip_idle _ _ _ _ _ _ Hw2 eq_refl). simpl.
  rewrite flat_map_app. simpl. reflexivity.
Qed.

Lemma WaitPageFlip_completes_witness :
  (demo_windows !! 1%nat = Some demo_window_data /\
   WindowData.waiting_for_flip demo_window_data = true /\
   forallb (keeps_waiting 1%nat) [vblank_wakeup; vblank_wakeup] = true /\
   poll_readable flip_wakeup = true /\
   existsb (completes 1%nat) (poll_pending flip_wakeup) = true) /\
  dispatch_all ([vblank_wakeup; vblank_wakeup] ++ [flip_wakeup]) demo_windows !! 1%nat
  = Some (clear_waiting_for_flip demo_window_data).
Proof.
  split; [repeat split; reflexivity|].
  apply (WaitPageFlip_completes demo_device 1%nat 100 [vblank_wakeup; vblank_wakeup]
           flip_wakeup [poll_timeout] demo_windows demo_window_data);
    reflexivity.
Defined.

(** The wait gives up: with a flip pending, after any number of wake-ups
    dispatched without the completion of this window's flip, a return of
    poll that is an error, reports a hangup or error condition, or has
    nothing to read makes KMSDRM_WaitPageFlip return SDL_FALSE, with one log
    line after that poll and the window still waiting for its flip. *)
Theorem WaitPageFlip_gives_up (this : SDL_VideoDevice) (w : ptr) (timeout : Z)
    (pre : list poll_result) (p : poll_result) (rest : list poll_result)
    (ws : windows) (wd : WindowData.t)
    (Hw : ws !! w = Some wd)
    (Hpending : WindowData.waiting_for_flip wd = true)
    (Hpre : forallb (keeps_waiting w) pre = true)
    (Hstop : poll_readable p = false) :
  let fd := VideoData.drm_fd (driverdata this) in
  exists level msg,
    KMSDRM_WaitPageFlip this w timeout (pre ++ p :: rest) ws =
      Some (false,
            flat_map (dispatched fd timeout) pre ++
            [E_poll fd timeout (poll_ret p) (poll_revents p); E_Log level msg],
            rest, dispatch_all pre ws) /\
    dispatch_all pre ws !! w = Some wd.
Proof.
  intros fd.
  assert (Hw1 : dispatch_all pre ws !! w = Some wd)
    by (rewrite dispatch_all_keeps; assumption).
  rewrite (WaitPageFlip_prefix _ _ _ _ _ _ _ Hw Hpending Hpre).
  rewrite (WaitPageFlip_step _ _ _ _ _ _ _ Hw1 Hpending), Hstop.
  destruct (poll_failed p); [|destruct (poll_hangup p)];
    do 2 eexists; (split; [reflexivity|exact Hw1]).
Qed.

Lemma WaitPageFlip_gives_up_witness :
  (demo_windows !! 1%nat = Some demo_window_data /\
   WindowData.waiting_for_flip demo_window_data = true /\
   forallb (keeps_waiting 1%nat) [vblank_wakeup] = true /\
   poll_readable poll_timeout = false) /\
  dispatch_all [vblank_wakeup] demo_windows !! 1%nat = Some demo_window_data.
Proof.
  split; [repeat split; reflexivity|].
  destruct (WaitPageFlip_gives_up demo_device 1%nat 100 [vblank_wakeup] poll_timeout
              [flip_wakeup] demo_windows demo_window_data
              eq_refl eq_refl eq_refl eq_refl) as (level & msg & _ & H).
  exact H.
Defined.

Lemma drmHandleEvent_frame pending (ws : windows) w' :
  drmHandleEvent flip_context pending ws !! w' = ws !! w' \/
  drmHandleEvent flip_context pending ws !! w' = clear_waiting_for_flip <$> ws !! w'.
Proof.
  rewrite drmHandleEvent_lookup.
  destruct (existsb (completes w') pending); [right|left]; reflexivity.
Qed.

(** The windows after a wait, one by one. *)
Lemma WaitPageFlip_lookup (this : SDL_VideoDevice) (w : ptr) (timeout : Z)
    (script : list poll_result) (ws : windows)
    (b : bool) (t : list call) (s : list poll_result) (ws' : windows)
    (Hrun : KMSDRM_WaitPageFlip this w timeout script ws = Some (b, t, s, ws')) :
  forall w', ws' !! w' = ws !! w' \/ ws' !! w' = clear_waiting_for_flip <$> ws !! w'.
Proof.
  revert ws b t s ws' Hrun.
  induction script as [|p script IH]; intros ws b t s ws' Hrun w'.
  - simpl in Hrun. destruct (ws !! w) as [wd|]; [|discriminate].
    destruct (WindowData.waiting_for_flip wd); simpl in Hrun; [discriminate|].
    injection Hrun as <- <- <- <-. left; reflexivity.
  - destruct (ws !! w) as [wd|] eqn:Hw.
    2:{ simpl in Hrun. rewrite Hw in Hrun. discriminate. }
    destruct (WindowData.waiting_for_flip wd) eqn:Hf.
    2:{ rewrite (WaitPageFlip_idle _ _ _ _ _ _ Hw Hf) in Hrun.
        injection Hrun as <- <- <- <-. left; reflexivity. }
    rewrite (WaitPageFlip_step _ _ _ _ _ _ _ Hw Hf) in Hrun.
    destruct (poll_readable p).
    2:{ injection Hrun as <- <- <- <-. left; reflexivity. }
    destruct (KMSDRM_WaitPageFlip this w timeout script
                (drmHandleEvent flip_context (poll_pending p) ws))
      as [[[[b1 t1] s1] ws1]|] eqn:Hrec; simpl in Hrun; [|discriminate].
    injection Hrun as <- <- <- <-.
    destruct (IH _ _ _ _ _ Hrec w') as [-> | ->];
      destruct (drmHandleEvent_frame (poll_pending p) ws w') as [-> | ->]; auto.
    right. destruct (ws !! w'); reflexivity.
Qed.

(** What a wait does to the windows: none is added or removed, and each is
    either as before or as before with its flag cleared (a completion for
    another window that arrives during the wait is dispatched too).  A
    window with no flip pending is left exactly as it was; no flag is ever
    set, and no buffer or surface changes. *)
Theorem WaitPageFlip_frame (this : SDL_VideoDevice) (w : ptr) (timeout : Z)
    (script : list poll_result) (ws : windows)
    (b : bool) (t : list call) (s : list poll_result) (ws' : windows)
    (Hrun : KMSDRM_WaitPageFlip this w timeout script ws = Some (b, t, s, ws')) :
  forall w',
    (ws' !! w' = ws !! w' \/ ws' !! w' = clear_waiting_for_flip <$> ws !! w') /\
    (ws' !! w' = None <-> ws !! w' = None) /\
    (forall wd, ws !! w' = Some wd -> WindowData.waiting_for_flip wd = false ->
                ws' !! w' = Some wd).
Proof.
  intros w'.
  pose proof (WaitPageFlip_lookup this w timeout script ws b t s ws' Hrun w') as H.
  split; [exact H|]. split.
  - destruct H as [-> | ->]; [tauto|].
    destruct (ws !! w'); simpl; split; intros E; congruence.
  - intros wd Hwd Hf. destruct H as [-> | ->]; [assumption|].
    rewrite Hwd. simpl. rewrite clear_not_pending by assumption. reflexivity.
Qed.

Lemma WaitPageFlip_frame_witness :
  exists ws',
    KMSDRM_WaitPageFlip demo_device 1%nat 100 [vblank_wakeup; flip_wakeup] demo_windows
    = Some (true, [E_poll 5 100 1 1; E_HandleEvent 5; E_poll 5 100 1 1; E_HandleEvent 5],
            [], ws') /\
    (ws' !! 2%nat = None <-> demo_windows !! 2%nat = None).
Proof.
  eexists. split; [vm_compute; reflexivity|].
  refine (proj1 (proj2 (WaitPageFlip_frame demo_device 1%nat 100
                          [vblank_wakeup; flip_wakeup] demo_windows true
                          [E_poll 5 100 1 1; E_HandleEvent 5;
                           E_poll 5 100 1 1; E_HandleEvent 5] [] _ _ 2%nat))).
  vm_compute. reflexivity.
Defined.

(** ** Window teardown *)

(** The calls of a wait obtain and release nothing. *)
Lemma wait_calls_holding timeout t : forall held,
  forallb (is_wait_call timeout) t = true -> holding t held = Some held.
Proof.
  induction t as [|c t IH]; intros held H; [reflexivity|].
  simpl in H. apply andb_prop in H as [Hc H].
  destruct c; try discriminate Hc; simpl; apply IH, H.
Qed.

Lemma teardown_holding k windata wd held :
  holding (teardown k windata wd) (O_mem windata :: held) = Some held.
Proof.
  unfold teardown, release_buffer.
  destruct (WindowData.curr_bo wd), (WindowData.next_bo wd), (k_opengl_egl k),
    (WindowData.egl_surface wd), (WindowData.gs wd); simpl;
    destruct (decide (O_mem windata = O_mem windata)); congruence.
Qed.

(** KMSDRM_DestroyWindow in terms of its wait. *)
Lemma DestroyWindow_run k this window windata script (ws : windows) :
  window_driverdata window = Some windata ->
  KMSDRM_DestroyWindow k this window script ws =
  match KMSDRM_WaitPageFlip this windata (-1) script ws with
  | Some (b, t_wait, s, ws') =>
      match ws' !! windata with
      | Some wd' =>
          Some (mkWindow (window_w window) (window_h window) None,
                t_wait ++ teardown k windata wd', s, delete windata ws')
      | None => None
      end
  | None => None
  end.
Proof.
  intros Hdata. unfold KMSDRM_DestroyWindow, teardown. rewrite Hdata.
  destruct (KMSDRM_WaitPageFlip this windata (-1) script ws)
    as [[[[b t] s] ws']|]; reflexivity.
Qed.

(** Destruction does not depend on the flip: when the wait of
    KMSDRM_DestroyWindow ends in a poll error, a hangup or a return with
    nothing to read, the function goes on all the same.  It releases the
    buffers, destroys the surfaces and frees the window data while the
    window's flip is still pending, and clears the window's driver data. *)
Theorem DestroyWindow_after_failed_wait (k : kernel) (this : SDL_VideoDevice)
    (window : SDL_Window) (windata : ptr) (wd : WindowData.t)
    (pre : list poll_result) (p : poll_result) (rest : list poll_result)
    (ws : windows)
    (Hdata : window_driverdata window = Some windata)
    (Hw : ws !! windata = Some wd)
    (Hpending : WindowData.waiting_for_flip wd = true)
    (Hpre : forallb (keeps_waiting windata) pre = true)
    (Hstop : poll_readable p = false) :
  let fd := VideoData.drm_fd (driverdata this) in
  exists level msg,
    KMSDRM_DestroyWindow k this window (pre ++ p :: rest) ws =
    Some (mkWindow (window_w window) (window_h window) None,
          (flat_map (dispatched fd (-1)) pre ++
           [E_poll fd (-1) (poll_ret p) (poll_revents p); E_Log level msg]) ++
          teardown k windata wd,
          rest, delete windata (dispatch_all pre ws)).
Proof.
  intros fd.
  assert (Hw1 : dispatch_all pre ws !! windata = Some wd)
    by (rewrite dispatch_all_keeps; assumption).
  rewrite (DestroyWindow_run _ _ _ _ _ _ Hdata).
  rewrite (WaitPageFlip_prefix _ _ _ _ _ _ _ Hw Hpending Hpre).
  rewrite (WaitPageFlip_step _ _ _ _ _ _ _ Hw1 Hpending), Hstop.
  rewrite Hw1.
  destruct (poll_failed p); [|destruct (poll_hangup p)]; do 2 eexists; reflexivity.
Qed.

Lemma DestroyWindow_after_failed_wait_witness :
  (window_driverdata demo_window = Some 1%nat /\
   demo_windows !! 1%nat = Some demo_window_data /\
   WindowData.waiting_for_flip demo_window_data = true /\
   forallb (keeps_waiting 1%nat) [vblank_wakeup] = true /\
   poll_readable poll_timeout = false) /\
  exists level msg,
    KMSDRM_DestroyWindow demo demo_device demo_window
      ([vblank_wakeup] ++ poll_timeout :: [flip_wakeup]) demo_windows =
    Some (mkWindow (window_w demo_window) (window_h demo_window) None,
          (flat_map (dispatched (VideoData.drm_fd (driverdata demo_device)) (-1))
                    [vblank_wakeup] ++
           [E_poll (VideoData.drm_fd (driverdata demo_device)) (-1)
                   (poll_ret poll_timeout) (poll_revents poll_timeout);
            E_Log level msg]) ++
          teardown demo 1%nat demo_window_data,
          [flip_wakeup], delete 1%nat (dispatch_all [vblank_wakeup] demo_windows)).
Proof.
  split; [repeat split; reflexivity|].
  apply (DestroyWindow_after_failed_wait demo demo_device demo_window 1%nat
           demo_window_data [vblank_wakeup] poll_timeout [flip_wakeup] demo_windows);
    reflexivity.
Defined.

(** Destroying twice: the window KMSDRM_DestroyWindow leaves behind has no
    driver data, so a further KMSDRM_DestroyWindow on it, in any state of
    the driver, makes no call, consumes no wake-up and changes nothing. *)
Theorem DestroyWindow_twice (k : kernel) (this : SDL_VideoDevice)
    (window window' : SDL_Window) (script s : list poll_result)
    (ws ws' : windows) (t : list call)
    (Hrun : KMSDRM_DestroyWindow k this window script ws = Some (window', t, s, ws')) :
  forall k2 this2 script2 (ws2 : windows),
    KMSDRM_DestroyWindow k2 this2 window' script2 ws2 = Some (window', [], script2, ws2).
Proof.
  intros k2 this2 script2 ws2.
  assert (Hnone : window_driverdata window' = None).
  { destruct (window_driverdata window) as [windata|] eqn:Hdata.
    - rewrite (DestroyWindow_run _ _ _ _ _ _ Hdata) in Hrun.
      destruct (KMSDRM_WaitPageFlip this windata (-1) script ws)
        as [[[[b t1] s1] ws1]|]; [|discriminate].
      destruct (ws1 !! windata); [|discriminate].
      injection Hrun as <- _ _ _. reflexivity.
    - unfold KMSDRM_DestroyWindow in Hrun. rewrite Hdata in Hrun.
      injection Hrun as <- _ _ _. exact Hdata. }
  unfold KMSDRM_DestroyWindow. rewrite Hnone. reflexivity.
Qed.

Lemma DestroyWindow_twice_witness :
  KMSDRM_DestroyWindow demo demo_device demo_window [flip_wakeup] demo_windows
  = Some (mkWindow 1280 720 None,
          [E_poll 5 (-1) 1 1; E_HandleEvent 5] ++ teardown demo 1%nat demo_window_data,
          [], delete 1%nat (dispatch_all [flip_wakeup] demo_windows)) /\
  KMSDRM_DestroyWindow demo_no_restore demo_device (mkWindow 1280 720 None)
    [poll_timeout] demo_windows
  = Some (mkWindow 1280 720 None, [], [poll_timeout], demo_windows).
Proof.
  split; [vm_compute; reflexivity|].
  apply (DestroyWindow_twice demo demo_device demo_window (mkWindow 1280 720 None)
           [flip_wakeup] [] demo_windows
           (delete 1%nat (dispatch_all [flip_wakeup] demo_windows))
           ([E_poll 5 (-1) 1 1; E_HandleEvent 5] ++ teardown demo 1%nat demo_window_data)).
  vm_compute. reflexivity.
Defined.

(** What a destruction leaves: the window's data is gone from the
    allocated window data and its block was freed exactly once, with nothing
    else obtained or freed; every other window is still allocated, either as
    before or as before with its flag cleared. *)
Theorem DestroyWindow_frame (k : kernel) (this : SDL_VideoDevice)
    (window window' : SDL_Window) (windata : ptr) (script s : list poll_result)
    (ws ws' : windows) (t : list call)
    (Hdata : window_driverdata window = Some windata)
    (Hrun : KMSDRM_DestroyWindow k this window script ws = Some (window', t, s, ws')) :
  ws' !! windata = None /\
  (forall held, holding t (O_mem windata :: held) = Some held) /\
  (forall w', w' <> windata ->
     ws' !! w' = ws !! w' \/ ws' !! w' = clear_waiting_for_flip <$> ws !! w').
Proof.
  rewrite (DestroyWindow_run _ _ _ _ _ _ Hdata) in Hrun.
  destruct (KMSDRM_WaitPageFlip this windata (-1) script ws)
    as [[[[b t1] s1] ws1]|] eqn:Hwait; [|discriminate].
  destruct (ws1 !! windata) as [wd1|] eqn:Hw1; [|discriminate].
  injection Hrun as <- <- <- <-.
  assert (Hw : exists wd, ws !! windata = Some wd).
  { destruct (ws !! windata) as [wd|] eqn:Hw; [eauto|].
    destruct script; simpl in Hwait; rewrite Hw in Hwait; discriminate. }
  destruct Hw as [wd Hw].
  destruct (WaitPageFlip_returned _ _ _ _ _ _ _ _ _ _ Hw Hwait)
    as (wd' & _ & _ & _ & Ht & _).
  split; [apply lookup_delete_eq|]. split.
  - intros held. rewrite holding_app, (wait_calls_holding _ _ _ Ht).
    apply teardown_holding.
  - intros w' Hne. rewrite lookup_delete_ne by congruence.
    exact (WaitPageFlip_lookup _ _ _ _ _ _ _ _ _ Hwait w').
Qed.

Lemma DestroyWindow_frame_witness :
  KMSDRM_DestroyWindow demo demo_device demo_window [flip_wakeup] demo_windows
  = Some (mkWindow 1280 720 None,
          [E_poll 5 (-1) 1 1; E_HandleEvent 5] ++ teardown demo 1%nat demo_window_data,
          [], delete 1%nat (dispatch_all [flip_wakeup] demo_windows)) /\
  delete 1%nat (dispatch_all [flip_wakeup] demo_windows) !! 1%nat = None.
Proof.
  split; [vm_compute; reflexivity|].
  apply (DestroyWindow_frame demo demo_device demo_window (mkWindow 1280 720 None)
           1%nat [flip_wakeup] [] demo_windows
           (delete 1%nat (dispatch_all [flip_wakeup] demo_windows))
           ([E_poll 5 (-1) 1 1; E_HandleEvent 5] ++ teardown demo 1%nat demo_window_data)
           eq_refl).
  vm_compute. reflexivity.
Defined.

(** ** Window creation *)

Ltac run_window e this :=
  unfold KMSDRM_CreateWindow, CreateWindow_finish, CreateWindow_error, created_surface;
  destruct (e_calloc e) as [p|]; simpl;
  [ destruct (k_opengl_egl _) eqn:Hegl; simpl;
    [ destruct (e_egl_data e); simpl;
      [ | destruct (e_GL_LoadLibrary e <? 0) eqn:Hload; simpl ]
    | ];
    destruct (e_format_supported e (VideoData.gbm (driverdata this)) GBM_FORMAT_XRGB8888
                (Z.lor GBM_BO_USE_SCANOUT GBM_BO_USE_RENDERING));
    simpl;
    destruct (e_gbm_surface_create e (VideoData.gbm (driverdata this))
                (w (desktop_mode (e_display e))) (h (desktop_mode (e_display e)))
                GBM_FORMAT_XRGB8888 (Z.lor GBM_BO_USE_SCANOUT GBM_BO_USE_RENDERING))
      as [g|]; simpl;
    try (destruct (e_EGL_CreateSurface e _) as [s|]; simpl)
  | ].

(** When window creation succeeds: KMSDRM_CreateWindow returns 0 or -1, and
    it returns 0 exactly when the window data could be allocated and, with
    EGL compiled in, the EGL library is loaded or loads and the EGL surface
    could be created.  Neither the answer of
    gbm_device_is_format_supported nor a NULL from gbm_surface_create makes
    it fail. *)
Theorem CreateWindow_succeeds_iff (k : kernel) (e : window_env)
    (this : SDL_VideoDevice) (window : window_state) (ws : windows) :
  let '(r, _, _, _) := KMSDRM_CreateWindow k e this window ws in
  (r = 0 \/ r = -1) /\
  (r = 0 <->
   e_calloc e <> None /\
   (k_opengl_egl k = true ->
    (e_egl_data e = true \/ 0 <= e_GL_LoadLibrary e) /\
    e_EGL_CreateSurface e (created_surface e this) <> None)).
Proof.
  run_window e this;
    try (apply Z.ltb_lt in Hload); try (apply Z.ltb_ge in Hload);
    intuition (try discriminate; try congruence; try lia).
Qed.

(** The error path of KMSDRM_CreateWindow never destroys an EGL surface:
    whenever the function jumps to its error label, the window data's EGL
    surface is still EGL_NO_SURFACE, so the SDL_EGL_DestroySurface there is
    never reached. *)
Theorem CreateWindow_never_destroys_egl_surface (k : kernel) (e : window_env)
    (this : SDL_VideoDevice) (window : window_state) (ws : windows) :
  let '(_, _, _, t) := KMSDRM_CreateWindow k e this window ws in
  existsb is_surface_destroy t = false.
Proof. run_window e this; reflexivity. Qed.

(** Failure of KMSDRM_CreateWindow: the window keeps its driver data, no
    window data stay allocated and no focus is set.  If the allocation
    failed the window is untouched and the error is "Out of memory".
    Otherwise the gbm surface, if one was created, is destroyed once and the
    window data are freed last; the error message set is that of the EGL
    surface, and none is set by this function when loading the GL library
    failed. *)
Theorem CreateWindow_failure (k : kernel) (e : window_env) (this : SDL_VideoDevice)
    (window window' : window_state) (ws ws' : windows) (r : Z) (t : list window_call)
    (Hrun : KMSDRM_CreateWindow k e this window ws = (r, window', ws', t))
    (Hfail : r <> 0) :
  ws' = ws /\
  window_driverdata (ws_window window') = window_driverdata (ws_window window) /\
  existsb is_focus_call t = false /\
  match e_calloc e with
  | None => window' = window /\ window_errors t = ["Out of memory"]
  | Some p =>
      last t = Some (WC (E_free p)) /\
      List.filter is_gbm_surface_destroy t =
        match created_surface e this with
        | Some g => [WC (E_gbm_surface_destroy g)]
        | None => []
        end /\
      window_errors t =
        (if negb (e_egl_data e) && (e_GL_LoadLibrary e <? 0) then []
         else ["Could not create EGL window surface"])
  end.
Proof.
  revert Hrun. run_window e this; intros Hrun; injection Hrun as <- <- <- <-;
    try (exfalso; apply Hfail; reflexivity);
    repeat split; reflexivity.
Qed.

Lemma CreateWindow_failure_witness :
  KMSDRM_CreateWindow demo (demo_window_env None) demo_device new_window ∅
  = (-1, mkWindowState (mkWindow 1280 720 None) 35, ∅,
     [W_calloc (Some 30%nat);
      W_gbm_device_is_format_supported (Some 2%nat) GBM_FORMAT_XRGB8888 5 false;
      WC (E_Log LogWarn "GBM surface format not supported. Trying anyway.");
      W_gbm_surface_create (Some 2%nat) 1280 720 GBM_FORMAT_XRGB8888 5 None;
      W_GL_LoadLibrary 0; W_EGL_SetRequiredVisualId GBM_FORMAT_XRGB8888;
      W_EGL_CreateSurface None None;
      WC (E_SetError "Could not create EGL window surface");
      WC (E_free 30%nat)]) /\
  -1 <> 0 /\
  (∅ : windows) = ∅.
Proof.
  split; [vm_compute; reflexivity|]. split; [discriminate|].
  refine (proj1 (CreateWindow_failure demo (demo_window_env None) demo_device new_window
                   _ ∅ _ (-1) _ _ _));
    [vm_compute; reflexivity|discriminate].
Defined.

Lemma testbit_forced_flags i :
  0 <= i ->
  Z.testbit (Z.lor SDL_WINDOW_FULLSCREEN SDL_WINDOW_OPENGL) i = (i =? 0) || (i =? 1).
Proof.
  intros Hi. change (Z.lor SDL_WINDOW_FULLSCREEN SDL_WINDOW_OPENGL) with 3.
  destruct (Z.eqb_spec i 0) as [->|H0]; [reflexivity|].
  destruct (Z.eqb_spec i 1) as [->|H1]; [reflexivity|].
  apply Z.bits_above_log2; [lia|]. change (Z.log2 3) with 1. lia.
Qed.

Lemma lor_forced_flags_range flags :
  0 <= flags < 2 ^ 32 ->
  0 <= Z.lor flags (Z.lor SDL_WINDOW_FULLSCREEN SDL_WINDOW_OPENGL) < 2 ^ 32.
Proof.
  intros [Hlo Hhi]. change (Z.lor SDL_WINDOW_FULLSCREEN SDL_WINDOW_OPENGL) with 3.
  assert (H0 : 0 <= Z.lor flags 3) by (apply Z.lor_nonneg; lia).
  split; [assumption|].
  assert (Hlog : Z.log2 flags < 32).
  { destruct (Z.eq_dec flags 0) as [->|Hne]; [reflexivity|].
    apply Z.log2_lt_pow2; lia. }
  destruct (Z.eq_dec (Z.lor flags 3) 0) as [->|Hne]; [reflexivity|].
  apply Z.log2_lt_pow2; [lia|].
  rewrite Z.log2_lor by lia. change (Z.log2 3) with 1. lia.
Qed.

(** Size and flags: if the window data cannot be allocated,
    KMSDRM_CreateWindow leaves the window as it is.  Otherwise, whether the
    creation then succeeds or fails, the window has the size of the
    display's desktop mode, and its flags are the old ones with
    SDL_WINDOW_FULLSCREEN (bit 0) and SDL_WINDOW_OPENGL (bit 1) set and every
    other bit unchanged; a 32-bit flags word stays one. *)
Theorem CreateWindow_size_and_flags (k : kernel) (e : window_env)
    (this : SDL_VideoDevice) (window : window_state) (ws : windows) :
  let '(_, window', _, _) := KMSDRM_CreateWindow k e this window ws in
  match e_calloc e with
  | None => window' = window
  | Some _ =>
      window_w (ws_window window') = w (desktop_mode (e_display e)) /\
      window_h (ws_window window') = h (desktop_mode (e_display e)) /\
      (forall i, 0 <= i ->
         Z.testbit (ws_flags window') i =
         Z.testbit (ws_flags window) i || ((i =? 0) || (i =? 1))) /\
      (0 <= ws_flags window < 2 ^ 32 -> 0 <= ws_flags window' < 2 ^ 32)
  end.
Proof.
  run_window e this; try reflexivity;
    (split; [reflexivity|]); (split; [reflexivity|]);
    (split; [intros i Hi; rewrite Z.lor_spec, testbit_forced_flags by assumption;
             reflexivity
            |apply lor_forced_flags_range]).
Qed.

(** What a successful KMSDRM_CreateWindow leaves: the window's driver data
    point to the newly allocated window data, which have no flip pending and
    no buffers, the gbm surface libgbm returned (NULL included), the EGL
    surface that was created if EGL is compiled in, and double buffering as
    the hint says; the windows that existed are as they were; the last two
    calls set the mouse and the keyboard focus. *)
Theorem CreateWindow_success (k : kernel) (e : window_env) (this : SDL_VideoDevice)
    (window window' : window_state) (ws ws' : windows) (t : list window_call)
    (Hrun : KMSDRM_CreateWindow k e this window ws = (0, window', ws', t)) :
  exists p t0,
    e_calloc e = Some p /\
    window_driverdata (ws_window window') = Some p /\
    ws' = <[p := WindowData.mk false (e_hint_double_buffer e) None None
                   (created_surface e this)
                   (if k_opengl_egl k
                    then e_EGL_CreateSurface e (created_surface e this)
                    else None)]> ws /\
    t = t0 ++ [W_SetMouseFocus; W_SetKeyboardFocus] /\
    existsb is_focus_call t0 = false /\
    window_errors t = [].
Proof.
  revert Hrun. run_window e this; intros Hrun; try discriminate Hrun;
    exists p, (removelast (removelast t));
    injection Hrun as <- <- <-; destruct (e_hint_double_buffer e);
    repeat split; reflexivity.
Qed.

Lemma CreateWindow_success_witness :
  KMSDRM_CreateWindow demo (demo_window_env (Some 20%nat)) demo_device new_window ∅
  = (0, mkWindowState (mkWindow 1280 720 (Some 30%nat)) 35,
     <[30%nat := WindowData.mk false true None None (Some 20%nat) (Some 21%nat)]> ∅,
     [W_calloc (Some 30%nat);
      W_gbm_device_is_format_supported (Some 2%nat) GBM_FORMAT_XRGB8888 5 false;
      WC (E_Log LogWarn "GBM surface format not supported. Trying anyway.");
      W_gbm_surface_create (Some 2%nat) 1280 720 GBM_FORMAT_XRGB8888 5 (Some 20%nat);
      W_GL_LoadLibrary 0; W_EGL_SetRequiredVisualId GBM_FORMAT_XRGB8888;
      W_EGL_CreateSurface (Some 20%nat) (Some 21%nat);
      W_GetHintBoolean SDL_HINT_VIDEO_DOUBLE_BUFFER true;
      W_SetMouseFocus; W_SetKeyboardFocus]) /\
  exists p, e_calloc (demo_window_env (Some 20%nat)) = Some p.
Proof.
  split; [vm_compute; reflexivity|].
  destruct (CreateWindow_success demo (demo_window_env (Some 20%nat)) demo_device
              new_window _ ∅ _ _ eq_refl) as (p & t0 & Hp & _).
  exists p. exact Hp.
Defined.

(** Create then destroy: the window data a successful KMSDRM_CreateWindow
    allocated have no flip pending, so KMSDRM_DestroyWindow on that window
    returns without polling, whatever the descriptor would deliver.  It
    unbinds the EGL context and destroys the EGL surface that was created
    (with EGL compiled in), destroys the gbm surface if libgbm had returned
    one, frees the window data, and leaves the allocated window data as they
    were before the creation. *)
Theorem CreateWindow_DestroyWindow (k : kernel) (e : window_env)
    (this : SDL_VideoDevice) (window window' : window_state) (ws ws' : windows)
    (t : list window_call) (windata : ptr)
    (Halloc : e_calloc e = Some windata)
    (Hfresh : ws !! windata = None)
    (Hrun : KMSDRM_CreateWindow k e this window ws = (0, window', ws', t)) :
  forall this2 script,
    KMSDRM_DestroyWindow k this2 (ws_window window') script ws' =
    Some (mkWindow (w (desktop_mode (e_display e))) (h (desktop_mode (e_display e))) None,
          (if k_opengl_egl k then
             E_EGL_MakeCurrent_none ::
             match e_EGL_CreateSurface e (created_surface e this) with
             | Some s => [E_EGL_DestroySurface s]
             | None => []
             end
           else []) ++
          match created_surface e this with
          | Some g => [E_gbm_surface_destroy g]
          | None => []
          end ++
          [E_free windata],
          script, ws).
Proof.
  intros this2 script. revert Hrun Halloc.
  run_window e this; intros Hrun; try discriminate Hrun;
    injection Hrun as <- <- <-; intros Hp; injection Hp as <-;
    (cbn [ws_window];
     rewrite (DestroyWindow_run k this2 (mkWindow _ _ (Some p)) p script _ eq_refl);
     erewrite WaitPageFlip_idle by (first [apply lookup_insert_eq | reflexivity]);
     rewrite lookup_insert_eq, delete_insert_id by assumption;
     unfold teardown; rewrite Hegl; reflexivity).
Qed.

Lemma CreateWindow_DestroyWindow_witness :
  (e_calloc (demo_window_env (Some 20%nat)) = Some 30%nat /\
   (∅ : windows) !! 30%nat = None) /\
  KMSDRM_DestroyWindow demo demo_device (mkWindow 1280 720 (Some 30%nat)) [poll_timeout]
    (<[30%nat := WindowData.mk false true None None (Some 20%nat) (Some 21%nat)]> ∅)
  = Some (mkWindow 1280 720 None,
          [E_EGL_MakeCurrent_none; E_EGL_DestroySurface 21%nat;
           E_gbm_surface_destroy 20%nat; E_free 30%nat],
          [poll_timeout], ∅).
Proof.
  split; [split; reflexivity|].
  apply (CreateWindow_DestroyWindow demo (demo_window_env (Some 20%nat)) demo_device
           new_window (mkWindowState (mkWindow 1280 720 (Some 30%nat)) 35) ∅
           (<[30%nat := WindowData.mk false true None None (Some 20%nat) (Some 21%nat)]> ∅)
           [W_calloc (Some 30%nat);
            W_gbm_device_is_format_supported (Some 2%nat) GBM_FORMAT_XRGB8888 5 false;
            WC (E_Log LogWarn "GBM surface format not supported. Trying anyway.");
            W_gbm_surface_create (Some 2%nat) 1280 720 GBM_FORMAT_XRGB8888 5 (Some 20%nat);
            W_GL_LoadLibrary 0; W_EGL_SetRequiredVisualId GBM_FORMAT_XRGB8888;
            W_EGL_CreateSurface (Some 20%nat) (Some 21%nat);
            W_GetHintBoolean SDL_HINT_VIDEO_DOUBLE_BUFFER true;
            W_SetMouseFocus; W_SetKeyboardFocus]
           30%nat); [reflexivity|reflexivity|].
  vm_compute. reflexivity.
Defined.
